(** * simbad_batch: a shallow embedding of [simbad_batch.py]

    The development follows the script top-down: the Python string
    primitives the script calls, its two regular expressions, the
    [throttle] decorator, the BeautifulSoup tree the taxonomy generator
    walks, then [get_output_filename], [query_reference],
    [get_object_types] and [generate_report].  Remote answers (the text of
    [Simbad.query_bibcode], the parsed document of [requests.get]) and the
    readings of [datetime.datetime.now] are inputs of the model. *)

From Stdlib Require Import Bool Arith ZArith QArith Lia List Ascii String.
From Stdlib Require Import ListSet Sorting.Sorted Sorting.Permutation.
From Stdlib Require Import Qabs Qround Lqa.
From Stdlib Require DecimalString OrderedTypeEx.
Import ListNotations.

Local Close Scope Q_scope.
Local Open Scope list_scope.
Local Open Scope string_scope.

(* ================================================================== *)
(** * Exceptions *)

(** The exceptions the modelled code can raise.  [RemoteError] stands for
    whatever the network layer raises. *)
Inductive exn : Type :=
| IndexError
| AttributeError
| TypeError
| RemoteError.

Inductive result (A : Type) : Type :=
| OK (a : A)
| Raise (e : exn).

Arguments OK {A} a.
Arguments Raise {A} e.

(** Sequencing of statements that may raise. *)
Definition and_then {A B} (r : result A) (k : A -> result B) : result B :=
  match r with
  | OK a => k a
  | Raise e => Raise e
  end.

Notation "'attempt' x := r 'in' k" := (and_then r (fun x => k))
  (at level 10, x name, r at level 100, k at level 200).

(** [l[i]] on a Python list. *)
Definition getitem {A} (l : list A) (i : nat) : result A :=
  match nth_error l i with
  | Some x => OK x
  | None => Raise IndexError
  end.

(* ================================================================== *)
(** * Python string primitives (8-bit [str], C locale) *)

Module Py.

Definition chr (n : nat) : ascii := ascii_of_nat n.
Definition ord (c : ascii) : nat := nat_of_ascii c.

Definition between (lo hi : nat) (c : ascii) : bool :=
  (lo <=? ord c)%nat && (ord c <=? hi)%nat.

Definition isupper (c : ascii) : bool := between 65 90 c.
Definition islower (c : ascii) : bool := between 97 122 c.
Definition isdigit (c : ascii) : bool := between 48 57 c.

(** [string.whitespace]: space, \t, \n, \v, \f, \r. *)
Definition isspace (c : ascii) : bool :=
  between 9 13 c || (ord c =? 32)%nat.

Definition upper_char (c : ascii) : ascii :=
  if islower c then chr (ord c - 32) else c.
Definition lower_char (c : ascii) : ascii :=
  if isupper c then chr (ord c + 32) else c.

Fixpoint map_chars (f : ascii -> ascii) (s : string) : string :=
  match s with
  | EmptyString => EmptyString
  | String c s' => String (f c) (map_chars f s')
  end.

Definition lower (s : string) : string := map_chars lower_char s.

(** [s.capitalize()] *)
Definition capitalize (s : string) : string :=
  match s with
  | EmptyString => EmptyString
  | String c s' => String (upper_char c) (lower s')
  end.

(** [needle in s] *)
Fixpoint contains (needle s : string) : bool :=
  prefix needle s ||
  match s with
  | EmptyString => false
  | String _ s' => contains needle s'
  end.

(** Prepend a character to the first field of a list of fields. *)
Definition cons_head (c : ascii) (l : list string) : list string :=
  match l with
  | [] => [String c ""]
  | h :: t => String c h :: t
  end.

(** [s.split(sep)] for a non-empty [sep]: the scan goes left to right;
    [skip] counts the characters of a separator still to be passed. *)
Fixpoint split_from (sep : string) (skip : nat) (s : string) : list string :=
  match s with
  | EmptyString => [""]
  | String c s' =>
      match skip with
      | S k => split_from sep k s'
      | O =>
          if prefix sep s
          then "" :: split_from sep (length sep - 1) s'
          else cons_head c (split_from sep 0 s')
      end
  end.

Definition split (sep s : string) : list string := split_from sep 0 s.

(** [sep.join(l)] *)
Definition join (sep : string) (l : list string) : string := concat sep l.

(** [s.replace(old, new)] for a non-empty [old]. *)
Fixpoint replace_from (old new : string) (skip : nat) (s : string) : string :=
  match s with
  | EmptyString => ""
  | String c s' =>
      match skip with
      | S k => replace_from old new k s'
      | O =>
          if prefix old s
          then new ++ replace_from old new (length old - 1) s'
          else String c (replace_from old new 0 s')
      end
  end.

Definition replace (old new s : string) : string := replace_from old new 0 s.

(** [s.split()]: fields are the maximal runs of non-blank characters. *)
Fixpoint split_ws (s : string) : list string :=
  match s with
  | EmptyString => []
  | String c s' =>
      if isspace c then split_ws s'
      else
        match s' with
        | EmptyString => [String c ""]
        | String c' _ =>
            if isspace c' then String c "" :: split_ws s'
            else cons_head c (split_ws s')
        end
  end.

Fixpoint lstrip (s : string) : string :=
  match s with
  | EmptyString => ""
  | String c s' => if isspace c then lstrip s' else s
  end.

Fixpoint rstrip (s : string) : string :=
  match s with
  | EmptyString => ""
  | String c s' =>
      match rstrip s' with
      | EmptyString => if isspace c then "" else String c ""
      | r => String c r
      end
  end.

(** [s.strip()] *)
Definition strip (s : string) : string := rstrip (lstrip s).

Definition mem_char (c : ascii) (chars : string) : bool :=
  existsb (Ascii.eqb c) (list_ascii_of_string chars).

Fixpoint lstrip_chars (chars s : string) : string :=
  match s with
  | EmptyString => ""
  | String c s' => if mem_char c chars then lstrip_chars chars s' else s
  end.

Fixpoint rstrip_chars (chars s : string) : string :=
  match s with
  | EmptyString => ""
  | String c s' =>
      match rstrip_chars chars s' with
      | EmptyString => if mem_char c chars then "" else String c ""
      | r => String c r
      end
  end.

(** [s.strip(chars)] *)
Definition strip_chars (chars s : string) : string :=
  rstrip_chars chars (lstrip_chars chars s).

Definition LF : ascii := chr 10.
Definition CR : ascii := chr 13.

(** [s.splitlines()]: lines end at \n, \r or \r\n; the terminators are
    dropped and a final terminator opens no further line. *)
Fixpoint splitlines (s : string) : list string :=
  match s with
  | EmptyString => []
  | String c s' =>
      if Ascii.eqb c LF then "" :: splitlines s'
      else if Ascii.eqb c CR then
        match s' with
        | String c' s'' =>
            if Ascii.eqb c' LF then "" :: splitlines s''
            else "" :: splitlines s'
        | EmptyString => [""]
        end
      else cons_head c (splitlines s')
  end.

(** [s[-n:]] *)
Definition last_chars (n : nat) (s : string) : string :=
  substring (length s - n) n s.

(** [l[-1]] for the lists [split] returns, which are never empty. *)
Definition last_field (l : list string) : string := List.last l "".

End Py.

(* ================================================================== *)
(** * The two regular expressions of the script *)

Module Re.

(** [\w] without the UNICODE flag: letters, digits and the underscore. *)
Definition word_char (c : ascii) : bool :=
  Py.isupper c || Py.islower c || Py.isdigit c || Ascii.eqb c "_".

(** The class [[\w.]]. *)
Definition ref_char (c : ascii) : bool := word_char c || Ascii.eqb c ".".

(** The longest prefix made of [ref_char] and what follows it. *)
Fixpoint span_ref (s : string) : string * string :=
  match s with
  | EmptyString => ("", "")
  | String c s' =>
      if ref_char c
      then let (run, rest) := span_ref s' in (String c run, rest)
      else ("", s)
  end.

(** A match of [{[\w.]+}] anchored at the start of [s]: the text matched.
    The class excludes the closing brace, so the greedy run is the only
    candidate. *)
Definition match_ref (s : string) : option string :=
  match s with
  | String c0 s1 =>
      if Ascii.eqb c0 "{" then
        match span_ref s1 with
        | (String c run, String c1 _) =>
            if Ascii.eqb c1 "}" then Some ("{" ++ String c run ++ "}")
            else None
        | _ => None
        end
      else None
  | EmptyString => None
  end.

(** What a left-to-right scan for non-overlapping matches sees. *)
Inductive piece : Type :=
| Lit (c : ascii)
| Match (m : string).

Fixpoint scan_from (skip : nat) (s : string) : list piece :=
  match s with
  | EmptyString => []
  | String c s' =>
      match skip with
      | S k => scan_from k s'
      | O =>
          match match_ref s with
          | Some m => Match m :: scan_from (length m - 1) s'
          | None => Lit c :: scan_from 0 s'
          end
      end
  end.

Definition scan (s : string) : list piece := scan_from 0 s.

(** [re.findall('{[\w.]+}', s)] *)
Definition findall_ref (s : string) : list string :=
  flat_map (fun p => match p with Match m => [m] | Lit _ => [] end) (scan s).

(** A match of [\((\d{4})\)] anchored at the start of [s]: group 1. *)
Definition match_year (s : string) : option string :=
  match s with
  | String c0 (String d1 (String d2 (String d3 (String d4 (String c5 _))))) =>
      if Ascii.eqb c0 "(" && Py.isdigit d1 && Py.isdigit d2 &&
         Py.isdigit d3 && Py.isdigit d4 && Ascii.eqb c5 ")"
      then Some (String d1 (String d2 (String d3 (String d4 ""))))
      else None
  | _ => None
  end.

(** [re.findall('\((\d{4})\)', s)]: a match is six characters long. *)
Fixpoint findall_year_from (skip : nat) (s : string) : list string :=
  match s with
  | EmptyString => []
  | String _ s' =>
      match skip with
      | S k => findall_year_from k s'
      | O =>
          match match_year s with
          | Some y => y :: findall_year_from 5 s'
          | None => findall_year_from 0 s'
          end
      end
  end.

Definition findall_year (s : string) : list string := findall_year_from 0 s.

End Re.

(* ================================================================== *)
(** * query_reference: parsing the answer *)

(** The first author as the citation shows it: the segments between
    hyphens, each capitalized.  The separator of [name.split('-')] is a
    unicode literal, so the token is decoded as ASCII first; the
    definition gives what the script computes for a token whose bytes are
    all below 128. *)
Definition first_author (name : string) : string :=
  Py.join "-" (map Py.capitalize (Py.split "-" name)).

(** [data]: the lines of the answer. *)
Definition answer_lines (text : string) : list string :=
  Py.splitlines (Py.strip text).

(** The body of [query_reference] after the remote call: [text] is
    [str(result_table[0])]. *)
Definition parse_reference (text : string) : result string :=
  let data := answer_lines text in
  attempt authors_line := getitem data 4 in
  attempt name := getitem (Py.split_ws authors_line) 0 in
  attempt year_line := getitem data 3 in
  attempt year := getitem (Re.findall_year year_line) 0 in
  let year := Py.last_chars 2 year in
  OK (first_author name ++ year).

Definition nl : string := String Py.LF "".

(** The answer quoted in the comment of [query_reference]. *)
Definition reipurth_text : string :=
  "References" ++ nl ++
  "----------------------------" ++ nl ++
  "1999AJ....118..983R = DOI 10.1086/300958  --  ?" ++ nl ++
  "Astron. J., 118, 983-989 (1999)" ++ nl ++
  "REIPURTH B., RODRIGUEZ L.F. and CHINI R." ++ nl ++
  "VLA detection of protostars in OMC-2/3." ++ nl ++
  "Flags: Table 1: <[RRC99] VLA NN> (Nos 1-14)." ++ nl ++
  "Files: (abstract)" ++ nl.

(* ================================================================== *)
(** * get_output_filename *)

(** A Python float as the function can tell it from another: the value
    it holds, a rational number, and, for a zero, its sign.  [NegZero] is
    [-0.0] and [Val q] the float of value [q], [Val 0] being [0.0].  The
    function truncates, compares, takes absolute values and formats, all
    of which are exact on the value; the sign of a zero shows in the
    formats only.  Coordinates are finite: there is no infinity and no
    NaN. *)
Inductive float : Type :=
| NegZero
| Val (q : Q).

Definition value (x : float) : Q :=
  match x with
  | NegZero => 0%Q
  | Val q => q
  end.

(** The sign a format writes: that of the value, and of a zero its own. *)
Definition signbit (x : float) : bool :=
  match x with
  | NegZero => true
  | Val q => negb (Qle_bool 0 q)
  end.

(** [abs(x)]: the absolute value of [-0.0] is [0.0]. *)
Definition float_abs (x : float) : float := Val (Qabs (value x)).

(** [x >= 0]: a comparison of values, which [-0.0] passes. *)
Definition ge_zero (x : float) : bool := Qle_bool 0 (value x).

(** What the function reads of a [SkyCoord]: [ra.hms], [dec] in degrees
    and [dec.dms]. *)
Record SkyCoord : Type := mkSkyCoord {
  ra_hms : float * float * float;
  dec_deg : float;
  dec_dms : float * float * float
}.

(** [int(x)]: truncation towards zero; [int(-0.0)] is [0]. *)
Definition int (x : float) : Z :=
  if Qle_bool 0 (value x) then Qfloor (value x) else Qceiling (value x).

(** [str(n)] for [n >= 0]. *)
Definition str_of_nat (n : Z) : string :=
  DecimalString.NilZero.string_of_uint (N.to_uint (Z.to_N n)).

Fixpoint zeros (n : nat) : string :=
  match n with
  | O => ""
  | S n' => String "0" (zeros n')
  end.

(** Zero padding on the left up to [width] characters. *)
Definition zfill (width : nat) (s : string) : string :=
  zeros (width - length s) ++ s.

(** The padding of a ['0'] flag goes between the sign and the digits. *)
Definition pad_signed (width : nat) (negative : bool) (digits : string) : string :=
  if negative then "-" ++ zfill (width - 1) digits else zfill width digits.

(** ['{:02}'.format(n)] *)
Definition format_02 (n : Z) : string :=
  pad_signed 2 (n <? 0)%Z (str_of_nat (Z.abs n)).

(** The integer nearest to [x >= 0], ties to the even one: the rounding of
    float formatting. *)
Definition round_half_even (x : Q) : Z :=
  let f := Qfloor x in
  match Qcompare (x - inject_Z f) (1 # 2) with
  | Lt => f
  | Gt => (f + 1)%Z
  | Eq => if Z.even f then f else (f + 1)%Z
  end.

(** ['{:06.3f}'.format(x)]: the sign, then the thousandths nearest to the
    absolute value; [-0.0] is written [-0.000]. *)
Definition format_06_3f (x : float) : string :=
  let thousandths := round_half_even (Qabs (value x) * inject_Z 1000) in
  pad_signed 6 (signbit x)
    (str_of_nat (thousandths / 1000) ++ "." ++
     zfill 3 (str_of_nat (thousandths mod 1000))).

(** ['{:02}{:02}{:06.3f}'.format(int(a), int(b), c)] *)
Definition fmt (a b c : float) : string :=
  format_02 (int a) ++ format_02 (int b) ++ format_06_3f c.

Definition get_output_filename (input_coords : SkyCoord) (extension : string)
  : string :=
  let '(h, m, s) := ra_hms input_coords in
  let ra := fmt h m s in
  let separator := if ge_zero (dec_deg input_coords) then "+" else "-" in
  let '(d, m, s) := dec_dms input_coords in
  let dec := fmt (float_abs d) (float_abs m) (float_abs s) in
  "J" ++ ra ++ separator ++ dec ++ extension.

(** The coordinates the tests parse, decomposed as the tests check them. *)
Definition vla7 : SkyCoord :=
  {| ra_hms := (Val (5 # 1), Val (35 # 1), Val (2455 # 100));
     dec_deg := Val (- (5 # 1) - (6 # 60) - (59 # 3600));
     dec_dms := (Val (- 5 # 1), Val (- 6 # 1), Val (- 59 # 1)) |}.

Definition trumpler37 : SkyCoord :=
  {| ra_hms := (Val (21 # 1), Val (39 # 1), Val (0 # 1));
     dec_deg := Val ((57 # 1) + (29 # 60) + (24 # 3600));
     dec_dms := (Val (57 # 1), Val (29 # 1), Val (24 # 1)) |}.

(** What [-00 00 00 +10 00 00] parses to: the right ascension is a
    negative zero, and so is each component of [ra.hms]. *)
Definition negative_zero_ra : SkyCoord :=
  {| ra_hms := (NegZero, NegZero, NegZero);
     dec_deg := Val (10 # 1);
     dec_dms := (Val (10 # 1), Val (0 # 1), Val (0 # 1)) |}.

(** A declination that is a negative zero, component by component. *)
Definition negative_zero_dec : SkyCoord :=
  {| ra_hms := (Val (0 # 1), Val (0 # 1), Val (0 # 1));
     dec_deg := NegZero;
     dec_dms := (NegZero, NegZero, NegZero) |}.

(* ================================================================== *)
(** * The throttle decorator *)

(** Points in time ([datetime]) and durations ([timedelta]) are counted in
    microseconds, the resolution of both types; a [datetime] is the number
    of microseconds since [datetime.datetime.min]. *)
Definition datetime : Type := Z.
Definition timedelta : Type := Z.

Definition datetime_min : datetime := 0%Z.

(** [datetime.datetime.now()]: the n-th reading of the wall clock, counted
    over the whole process.  Nothing is assumed of the readings. *)
Definition clock : Type := nat -> datetime.

(** An instance of the class [throttle]. *)
Record throttle : Type := mkThrottle {
  throttle_period : timedelta;
  time_of_last_call : datetime
}.

(** [throttle.__init__], the period given in microseconds. *)
Definition throttle_init (period : timedelta) : throttle :=
  {| throttle_period := period; time_of_last_call := datetime_min |}.

(** [@throttle(seconds=0.25)] *)
Definition quarter_second : timedelta := 250000%Z.

(** The [while True] loop of [wrapper]: read the clock until the period has
    elapsed; the reading that leaves the loop is returned with the number
    of readings made so far.  [fuel] bounds the number of readings. *)
Fixpoint wait (fuel : nat) (now_ : clock) (self : throttle) (reads : nat)
  : option (datetime * nat) :=
  match fuel with
  | O => None
  | S fuel' =>
      let now := now_ reads in
      let time_since_last_call := (now - time_of_last_call self)%Z in
      if (throttle_period self <=? time_since_last_call)%Z
      then Some (now, S reads)
      else wait fuel' now_ self (S reads)
  end.

(** [wrapper]: wait, call [fn], and in the [finally] clause, whether [fn]
    returned or raised, store the reading that left the loop. *)
Definition wrapper {A B} (fn : A -> result B)
    (fuel : nat) (now_ : clock) (self : throttle) (reads : nat) (arg : A)
  : option (result B * throttle * nat) :=
  match wait fuel now_ self reads with
  | None => None
  | Some (now, reads') =>
      Some (fn arg,
            {| throttle_period := throttle_period self;
               time_of_last_call := now |},
            reads')
  end.

(** The two decorated functions.  Each [@throttle(seconds=0.25)] line
    builds an instance of its own. *)
Inductive throttled : Type :=
| QueryReference
| GetObjectTypes.

Definition throttled_eqb (f g : throttled) : bool :=
  match f, g with
  | QueryReference, QueryReference => true
  | GetObjectTypes, GetObjectTypes => true
  | _, _ => false
  end.

(** The throttling state of the process: one gate per decorated function,
    the number of clock readings made, and the acquisitions so far, oldest
    first: which function was called and the time its gate stored. *)
Record process : Type := mkProcess {
  gate_query_reference : throttle;
  gate_get_object_types : throttle;
  clock_reads : nat;
  acquisitions : list (throttled * datetime)
}.

(** The state after the module has been loaded. *)
Definition process_start : process :=
  {| gate_query_reference := throttle_init quarter_second;
     gate_get_object_types := throttle_init quarter_second;
     clock_reads := 0;
     acquisitions := [] |}.

Definition gate_of (f : throttled) (p : process) : throttle :=
  match f with
  | QueryReference => gate_query_reference p
  | GetObjectTypes => gate_get_object_types p
  end.

(** One call of a decorated function; [body] is what the decorated
    function does with its argument. *)
Definition call {A B} (body : A -> result B) (fuel : nat) (now_ : clock)
    (f : throttled) (arg : A) (p : process) : option (result B * process) :=
  match wrapper body fuel now_ (gate_of f p) (clock_reads p) arg with
  | None => None
  | Some (r, g, reads') =>
      let acq := (acquisitions p ++ [(f, time_of_last_call g)])%list in
      Some (r,
            match f with
            | QueryReference =>
                {| gate_query_reference := g;
                   gate_get_object_types := gate_get_object_types p;
                   clock_reads := reads';
                   acquisitions := acq |}
            | GetObjectTypes =>
                {| gate_query_reference := gate_query_reference p;
                   gate_get_object_types := g;
                   clock_reads := reads';
                   acquisitions := acq |}
            end)
  end.

(** A run of the process seen from the gates: the decorated functions are
    called in the order of [calls]; [outcome f] tells whether the body
    of [f] returns or raises. *)
Fixpoint run (outcome : throttled -> result unit) (fuel : nat) (now_ : clock)
    (calls : list throttled) (p : process) : option process :=
  match calls with
  | [] => Some p
  | f :: calls' =>
      match call outcome fuel now_ f f p with
      | None => None
      | Some (_, p') => run outcome fuel now_ calls' p'
      end
  end.

(** A clock that advances by one microsecond per reading. *)
Definition ticking (start : datetime) : clock :=
  fun n => (start + Z.of_nat n)%Z.

(** A clock that advances by a tenth of a second per reading. *)
Definition tenths (start : datetime) : clock :=
  fun n => (start + 100000 * Z.of_nat n)%Z.

(* ================================================================== *)
(** * The BeautifulSoup tree *)

Module Bs4.

(** A parsed document: tags with attributes and contents, and text. *)
#[warnings="-register-all"]
Inductive node : Type :=
| NavigableString (text : string)
| Tag (name : string) (attrs : list (string * string)) (contents : list node).

(** [tag.get(key)] *)
Fixpoint get (key : string) (attrs : list (string * string)) : option string :=
  match attrs with
  | [] => None
  | (k, v) :: attrs' => if String.eqb k key then Some v else get key attrs'
  end.

(** A node met while walking a tree, with the siblings that precede it
    under its parent, nearest first. *)
Record located : Type := mkLocated {
  previous_siblings : list node;
  element : node
}.

(** Every node below [n], in document order. *)
Fixpoint descendants (n : node) : list located :=
  match n with
  | NavigableString _ => []
  | Tag _ _ cs =>
      (fix walk (prev : list node) (l : list node) : list located :=
         match l with
         | [] => []
         | c :: l' =>
             ({| previous_siblings := prev; element := c |}
                :: descendants c ++ walk (c :: prev) l')%list
         end) [] cs
  end.

Definition is_tag (name : string) (n : node) : bool :=
  match n with
  | Tag name' _ _ => String.eqb name' name
  | NavigableString _ => false
  end.

Definition has_attr (key : string) (n : node) : bool :=
  match n with
  | Tag _ attrs _ =>
      match get key attrs with Some _ => true | None => false end
  | NavigableString _ => false
  end.

(** [n.find_all(name)] *)
Definition find_all (name : string) (n : node) : list located :=
  filter (fun l => is_tag name (element l)) (descendants n).

(** [n.find_all(name, key=True)] *)
Definition find_all_with (name key : string) (n : node) : list located :=
  filter (fun l => is_tag name (element l) && has_attr key (element l))
         (descendants n).

(** [x.previous_sibling], on what the previous step produced; [None] is
    Python's [None], on which an attribute access raises. *)
Definition previous_sibling (x : option located) : result (option located) :=
  match x with
  | None => Raise AttributeError
  | Some l =>
      match previous_siblings l with
      | [] => OK None
      | p :: prev => OK (Some {| previous_siblings := prev; element := p |})
      end
  end.

(** [x.contents]: only tags have contents. *)
Definition contents_of (x : option node) : result (list node) :=
  match x with
  | Some (Tag _ _ cs) => OK cs
  | Some (NavigableString _) => Raise AttributeError
  | None => Raise AttributeError
  end.

(** The text of a document is unicode; a character stands for its code
    point, up to 255.  These are the blanks of a unicode [strip()] among
    them: tab to carriage return, the separators 28 to 31, the space, NEL
    (133) and the no-break space (160). *)
Definition whitespace : string :=
  string_of_list_ascii
    (map ascii_of_nat [9; 10; 11; 12; 13; 28; 29; 30; 31; 32; 133; 160]).

(** [x.strip()]: on text, the text without the blanks at its two ends;
    on a tag the attribute [strip] is looked up as a child tag, and
    calling the [None] found raises.  A document with an element named
    [strip] is not covered. *)
Definition strip_of (x : node) : result string :=
  match x with
  | NavigableString text => OK (Py.strip_chars whitespace text)
  | Tag _ _ _ => Raise TypeError
  end.

End Bs4.

(* ================================================================== *)
(** * What the process does, in order *)

Inductive event : Type :=
| EvGate (f : throttled)              (* a wrapper of [throttle] was entered *)
| EvBibQuery (bibcode : string)       (* [Simbad.query_bibcode(bibcode)] *)
| EvFetch (identifier : string)       (* [requests.get] of the detail page *)
| EvYield (type_ title : string)      (* [get_object_types] yields a row *)
| EvWrite (text : string).            (* [fd.write(text)] *)

(** A computation: the events it caused, oldest first, and its outcome. *)
Definition M (A : Type) : Type := list event * result A.

Definition ret {A} (a : A) : M A := ([], OK a).

Definition bind {A B} (m : M A) (k : A -> M B) : M B :=
  match m with
  | (t, Raise e) => (t, Raise e)
  | (t, OK a) => let (t', r) := k a in ((t ++ t')%list, r)
  end.

Definition emit (e : event) : M unit := ([e], OK tt).
Definition lift {A} (r : result A) : M A := ([], r).

Definition trace {A} (m : M A) : list event := fst m.
Definition outcome {A} (m : M A) : result A := snd m.

Notation "x <- m ;; k" := (bind m (fun x => k))
  (at level 61, m at next level, right associativity).
Notation "m ;;; k" := (bind m (fun _ => k))
  (at level 61, right associativity).

Arguments bind : simpl never.

(** The text written to the file: the [fd.write] events, concatenated. *)
Fixpoint written (t : list event) : string :=
  match t with
  | [] => ""
  | EvWrite s :: t' => s ++ written t'
  | _ :: t' => written t'
  end.

(* ================================================================== *)
(** * The script *)

(** A generator object of [get_object_types]: calling the generator
    function runs none of its body, it only binds the argument. *)
Inductive generator : Type :=
| Suspended (identifier : string).

(** The dictionary [fields] built by [query_coordinates], the values as
    the report formats them. *)
Record Fields : Type := mkFields {
  identifiers : string;
  ra : string;
  dec : string;
  distance : string;
  reference : string;
  spectral_type : string;
  wavelength : string;
  type : string;
  all_types : generator
}.

(** The first row of the table [query_region] returns, with the distance
    [query_coordinates] derives from it, rounded and rendered. *)
Record RegionRow : Type := mkRegionRow {
  MAIN_ID : string;
  ID : string;
  RA : string;
  DEC : string;
  COO_BIBCODE : string;
  SP_TYPE : string;
  COO_WAVELENGTH : string;
  OTYPE_V : string;
  separation : string
}.

Definition url (bibcode : string) : string :=
  "http://simbad.u-strasbg.fr/simbad/sim-ref?bibcode=" ++ bibcode.

(** The attributes of a node; text has none. *)
Definition attrs_of (n : Bs4.node) : list (string * string) :=
  match n with
  | Bs4.Tag _ attrs _ => attrs
  | Bs4.NavigableString _ => []
  end.

(** The first three lines of the [for r in references] loop of
    [get_object_types]: the type, read two siblings before the marker. *)
Definition row_type (r : Bs4.located) : result string :=
  attempt sibling := Bs4.previous_sibling (Some r) in
  attempt type_object := Bs4.previous_sibling sibling in
  attempt cs := Bs4.contents_of (option_map Bs4.element type_object) in
  attempt tt_ := getitem cs 1 in
  attempt cs' := Bs4.contents_of (Some tt_) in
  attempt first := getitem cs' 0 in
  Bs4.strip_of first.

(** [", ".join(tooltip.split(","))] *)
Definition comma_join (tooltip : string) : string :=
  Py.join ", " (Py.split "," tooltip).

(** [href.split('?bibcode=')[-1]] *)
Definition bibcode_of_href (href : string) : string :=
  Py.last_field (Py.split "?bibcode=" href).

(** The rest of the loop body: the title, with [Ref] replaced. *)
Definition row_title (r : Bs4.located) : result string :=
  match Bs4.get "title" (attrs_of (Bs4.element r)) with
  | None => Raise AttributeError
  | Some tooltip =>
      let title := comma_join tooltip in
      if Py.contains "Ref" title then
        attempt a := getitem (Bs4.find_all "a" (Bs4.element r)) 0 in
        match Bs4.get "href" (attrs_of (Bs4.element a)) with
        | None => Raise AttributeError
        | Some href =>
            let bibcode := bibcode_of_href href in
            OK (Py.replace "Ref" ("{" ++ bibcode ++ "}") title)
        end
      else OK title
  end.

(** One turn of the loop, up to the [yield]. *)
Definition object_type_row (r : Bs4.located) : result (string * string) :=
  attempt type_ := row_type r in
  attempt title := row_title r in
  OK (type_, title).

Section Script.

(** The remote service: the text of [str(Simbad.query_bibcode(b)[0])]
    and the document [BeautifulSoup(requests.get(...).text)] for an
    identifier, or the exception the request raises. *)
Variable query_bibcode : string -> result string.
Variable detail_page : string -> result Bs4.node.

(** The decorated [query_reference]. *)
Definition query_reference (bibcode : string) : M string :=
  emit (EvGate QueryReference) ;;;
  emit (EvBibQuery bibcode) ;;;
  text <- lift (query_bibcode bibcode) ;;
  lift (parse_reference text).

(** The decorated [get_object_types]: the wrapper is passed and the
    generator object returned; the body has not started. *)
Definition get_object_types (identifier : string) : M generator :=
  emit (EvGate GetObjectTypes) ;;;
  ret (Suspended identifier).

(** The [for] loop of the generator, drained to its end. *)
Fixpoint yield_rows (references : list Bs4.located) : M (list (string * string)) :=
  match references with
  | [] => ret []
  | r :: references' =>
      row <- lift (object_type_row r) ;;
      emit (EvYield (fst row) (snd row)) ;;;
      rows <- yield_rows references' ;;
      ret (row :: rows)
  end.

(** [list(g)]: the body of [get_object_types] runs from its first line
    to its last. *)
Definition list_of (g : generator) : M (list (string * string)) :=
  match g with
  | Suspended identifier =>
      emit (EvFetch identifier) ;;;
      soup <- lift (detail_page identifier) ;;
      table <- lift (getitem (Bs4.find_all "table" soup) 3) ;;
      yield_rows (Bs4.find_all_with "tt" "title" (Bs4.element table))
  end.

(** [bibcode_replacement], on the text of a match. *)
Definition bibcode_replacement (group0 : string) : M string :=
  query_reference (Py.strip_chars "{}" group0).

(** [re.sub(regexp, bibcode_replacement, refs)], over the scan of [refs]. *)
Fixpoint sub_pieces (ps : list Re.piece) : M string :=
  match ps with
  | [] => ret ""
  | Re.Lit c :: ps' =>
      rest <- sub_pieces ps' ;;
      ret (String c rest)
  | Re.Match m :: ps' =>
      r <- bibcode_replacement m ;;
      rest <- sub_pieces ps' ;;
      ret (r ++ rest)
  end.

Definition re_sub (refs : string) : M string := sub_pieces (Re.scan refs).

(** The "All types" loop; [len] is [len(references)], [index] the index
    of the head of [l]. *)
Fixpoint write_all_types (len index : nat) (l : list (string * string)) : M unit :=
  match l with
  | [] => ret tt
  | (type_, refs) :: l' =>
      refs' <- re_sub refs ;;
      emit (EvWrite (type_ ++ " (" ++ refs' ++ ")")) ;;;
      (if (index <? len - 1)%nat
       then emit (EvWrite ", ")
       else emit (EvWrite nl)) ;;;
      write_all_types len (S index) l'
  end.

(** The inner loop that fills [unique_references] from one annotation. *)
Fixpoint add_references (matches : list string) (unique : set string)
  : M (set string) :=
  match matches with
  | [] => ret unique
  | r :: matches' =>
      let bibcode := Py.strip_chars "{}" r in
      author <- query_reference bibcode ;;
      add_references matches'
        (set_add string_dec (author ++ " " ++ url bibcode) unique)
  end.

(** The outer loop over the rows. *)
Fixpoint collect_references (l : list (string * string)) (unique : set string)
  : M (set string) :=
  match l with
  | [] => ret unique
  | (_, ref) :: l' =>
      unique' <- add_references (Re.findall_ref ref) unique ;;
      collect_references l' unique'
  end.

(** [sorted]: insertion into an ordered list.  The strings of a set are
    distinct and their order is total, so every sort returns this list,
    whatever order the set is iterated in. *)
Fixpoint insert_sorted (x : string) (l : list string) : list string :=
  match l with
  | [] => [x]
  | y :: l' => if String.leb x y then x :: l else y :: insert_sorted x l'
  end.

Definition sorted (l : list string) : list string :=
  fold_right insert_sorted [] l.

Fixpoint write_lines (l : list string) : M unit :=
  match l with
  | [] => ret tt
  | r :: l' => emit (EvWrite (r ++ nl)) ;;; write_lines l'
  end.

(** The "References" part of [generate_report]. *)
Definition write_references (reference : string)
    (references : list (string * string)) : M unit :=
  emit (EvWrite (nl ++ "References:" ++ nl)) ;;;
  emit (EvWrite (reference ++ " " ++ url reference ++ nl)) ;;;
  unique_references <- collect_references references (empty_set string) ;;
  write_lines (sorted unique_references).

(** [generate_report], the file being open.  The parenthesized
    [wavelength] the function builds is written nowhere. *)
Definition generate_report (fields : Fields) : M unit :=
  emit (EvWrite ("Identifier: " ++ identifiers fields ++ nl)) ;;;
  author <- query_reference (reference fields) ;;
  emit (EvWrite (nl ++ "Coordinates (ICRS): " ++ ra fields ++ " " ++
                 dec fields ++ " " ++ author ++ " [" ++
                 reference fields ++ "]" ++ nl)) ;;;
  emit (EvWrite (nl ++ "Distance to center (arcsec): " ++
                 distance fields ++ nl)) ;;;
  emit (EvWrite (nl ++ "Type: " ++ type fields ++ nl)) ;;;
  references <- list_of (all_types fields) ;;
  emit (EvWrite (nl ++ "All types: ")) ;;;
  write_all_types (List.length references) 0 references ;;;
  emit (EvWrite (nl ++ "Spectral type: " ++ spectral_type fields ++ nl)) ;;;
  write_references (reference fields) references.

(** [query_coordinates], from the first row of the region query on:
    the fields are copied and [get_object_types] is called for the main
    identifier; what it returns is stored as it is. *)
Definition query_coordinates (result : RegionRow) : M Fields :=
  g <- get_object_types (MAIN_ID result) ;;
  ret {| identifiers := ID result;
         ra := RA result;
         dec := DEC result;
         distance := separation result;
         reference := COO_BIBCODE result;
         spectral_type := SP_TYPE result;
         wavelength := COO_WAVELENGTH result;
         type := OTYPE_V result;
         all_types := g |}.

(** One turn of the main loop, for a line whose region query answered
    [result]. *)
Definition process_object (result : RegionRow) : M unit :=
  fields <- query_coordinates result ;;
  generate_report fields.

End Script.

(* ================================================================== *)
(** * Properties stated about the script *)

(** Any two successive acquisitions are a period apart, whichever
    functions made them. *)
Definition successive_spaced (log : list (throttled * datetime)) : Prop :=
  forall i f g t1 t2,
    nth_error log i = Some (f, t1) ->
    nth_error log (S i) = Some (g, t2) ->
    (t1 + quarter_second <= t2)%Z.

(** Any two acquisitions of one function are a period apart. *)
Definition spaced_per_function (log : list (throttled * datetime)) : Prop :=
  forall i j f t1 t2,
    (i < j)%nat ->
    nth_error log i = Some (f, t1) ->
    nth_error log j = Some (f, t2) ->
    (t1 + quarter_second <= t2)%Z.

(** The acquisitions of [f] in [log] are all at least a period before [t]. *)
Fixpoint all_before (f : throttled) (t : datetime)
    (log : list (throttled * datetime)) : Prop :=
  match log with
  | [] => True
  | (g, t') :: log' =>
      (throttled_eqb f g = true -> (t' + quarter_second <= t)%Z) /\
      all_before f t log'
  end.

(** The same spacing, by recursion on the log. *)
Fixpoint spaced (log : list (throttled * datetime)) : Prop :=
  match log with
  | [] => True
  | (f, t) :: log' =>
      (forall g t', In (g, t') log' -> throttled_eqb f g = true ->
                    (t + quarter_second <= t')%Z) /\
      spaced log'
  end.

(** What a run preserves: both periods are a quarter of a second, the
    log is spaced, and no acquisition of a function is later than the
    time its gate holds. *)
Record gates_ok (p : process) : Prop := mkGatesOk {
  ok_period :
    forall f, throttle_period (gate_of f p) = quarter_second;
  ok_spaced : spaced (acquisitions p);
  ok_last :
    forall f t, In (f, t) (acquisitions p) ->
                (t <= time_of_last_call (gate_of f p))%Z
}.

(** Every bound is eventually passed by the readings of the clock. *)
Definition advances (now_ : clock) : Prop :=
  forall (n : nat) (t : datetime), exists k : nat, (t <= now_ (n + k)%nat)%Z.

(** Events of the taxonomy extraction: the fetch of the detail page and
    the rows read from it. *)
Definition is_taxonomy (e : event) : bool :=
  match e with
  | EvFetch _ | EvYield _ _ => true
  | _ => false
  end.

(** The bibliographic codes looked up in a trace, in order. *)
Fixpoint resolutions (t : list event) : list string :=
  match t with
  | [] => []
  | EvBibQuery b :: t' => b :: resolutions t'
  | _ :: t' => resolutions t'
  end.

Definition no_taxonomy (t : list event) : Prop :=
  forallb (fun e => negb (is_taxonomy e)) t = true.

(** Every event of the taxonomy extraction comes before every lookup of
    a bibliographic code. *)
Definition taxonomy_before_resolutions (t : list event) : Prop :=
  forall i j e b,
    nth_error t i = Some e -> is_taxonomy e = true ->
    nth_error t j = Some (EvBibQuery b) ->
    (i < j)%nat.

(** The order the script follows: the lookup of the primary code, then
    the whole extraction, then the other lookups. *)
Definition primary_then_taxonomy (primary : string) (t : list event) : Prop :=
  exists pre tax post,
    t = (pre ++ tax ++ post)%list /\
    no_taxonomy pre /\ resolutions pre = [primary] /\
    resolutions tax = [] /\
    no_taxonomy post.

(** ** A detail page and a remote service to run the script on *)

(** A classification row as the traversal of [get_object_types] expects
    it: the element holding the type, a text node, and the marker with
    its tooltip. *)
Definition sample_row (type_ tooltip : string) (inside : list Bs4.node)
  : list Bs4.node :=
  [ Bs4.Tag "span" []
      [ Bs4.NavigableString " ";
        Bs4.Tag "tt" [] [Bs4.NavigableString (" " ++ type_ ++ " ")] ];
    Bs4.NavigableString " ";
    Bs4.Tag "tt" [("title", tooltip)] inside ].

Definition sample_anchor (href : string) : Bs4.node :=
  Bs4.Tag "a" [("href", href)] [Bs4.NavigableString "Ref"].

(** A document whose fourth table holds [rows]. *)
Definition sample_page (rows : list Bs4.node) : Bs4.node :=
  Bs4.Tag "[document]" []
    [ Bs4.Tag "html" []
        [ Bs4.Tag "body" []
            [ Bs4.Tag "table" [] [];
              Bs4.Tag "table" [] [];
              Bs4.Tag "table" [] [];
              Bs4.Tag "table" []
                [ Bs4.Tag "tr" [] [ Bs4.Tag "td" [] rows ] ] ] ] ].

(** Two rows in the shape of the ones the tests expect for
    [2MASS J05352762-0509337]. *)
Definition sample_rows : list Bs4.node :=
  (sample_row "Y*O" "Ref,HOPS,HOY,ISOY,[MGM2012]"
     [ sample_anchor
         "//simbad.u-strasbg.fr/simbad/sim-ref?bibcode=2012ApJ...753L..35B";
       Bs4.NavigableString ",HOPS,HOY,ISOY,[MGM2012]" ]
   ++ sample_row "Rad" "[LSK98],[RRC99]"
        [ Bs4.NavigableString "[LSK98],[RRC99]" ])%list.

(** A service that answers every lookup with the text quoted in
    [query_reference] and every identifier with the page above. *)
Definition sample_query_bibcode (bibcode : string) : result string :=
  OK reipurth_text.

Definition sample_detail_page (identifier : string) : result Bs4.node :=
  OK (sample_page sample_rows).

Definition sample_region_row : RegionRow :=
  {| MAIN_ID := "2MASS J05352762-0509337";
     ID := "2MASS J05352762-0509337";
     RA := "05 35 27.6337";
     DEC := "-05 09 34.373";
     COO_BIBCODE := "2003yCat.2246....0C";
     SP_TYPE := "";
     COO_WAVELENGTH := "I";
     OTYPE_V := "Young Stellar Object";
     separation := "0.0" |}.

(** A row whose reference is an article of Astronomy & Astrophysics. *)
Definition ampersand_rows : list Bs4.node :=
  sample_row "Y*O" "Ref,[RRC99]"
    [ sample_anchor
        "//simbad.u-strasbg.fr/simbad/sim-ref?bibcode=2005A&A...432..161G";
      Bs4.NavigableString ",[RRC99]" ].

Definition ampersand_entry : string * string :=
  ("Y*O", "{2005A&A...432..161G}, [RRC99]").

(** A space inserted after every comma. *)
Fixpoint comma_spaced (s : string) : string :=
  match s with
  | EmptyString => ""
  | String c s' =>
      if Ascii.eqb c ","
      then String "," (String " " (comma_spaced s'))
      else String c (comma_spaced s')
  end.

(** A marker without [Ref] whose tooltip lists two designators. *)
Definition two_designators : Bs4.located :=
  {| Bs4.previous_siblings := [];
     Bs4.element := Bs4.Tag "tt" [("title", "[LSK98],[RRC99]")] [] |}.

(** A marker with [Ref] that links to a bibliographic code. *)
Definition linked_marker : Bs4.located :=
  {| Bs4.previous_siblings := [];
     Bs4.element :=
       Bs4.Tag "tt" [("title", "Ref,HOPS")]
         [sample_anchor "sim-ref?bibcode=2012ApJ...753L..35B"] |}.

(** A marker with [Ref] whose link carries no [?bibcode=]. *)
Definition marker_without_bibcode : Bs4.located :=
  {| Bs4.previous_siblings :=
       [ Bs4.NavigableString " ";
         Bs4.Tag "span" []
           [ Bs4.NavigableString " ";
             Bs4.Tag "tt" [] [Bs4.NavigableString " Y*O "] ] ];
     Bs4.element :=
       Bs4.Tag "tt" [("title", "Ref,HOPS")] [sample_anchor "sim-ref"] |}.

(** A line made of blanks only: it holds no token. *)
Definition blank (line : string) : Prop :=
  forallb Py.isspace (list_ascii_of_string line) = true.

(** No position of the line starts a parenthesized run of four digits. *)
Definition without_year (line : string) : Prop :=
  forall before after, line = before ++ after -> Re.match_year after = None.

(** The answers of the bibliographic lookup the script cannot read. *)
Inductive malformed_answer (text : string) : Prop :=
| too_few_lines :
    (List.length (answer_lines text) < 5)%nat -> malformed_answer text
| no_author_token line :
    nth_error (answer_lines text) 4 = Some line -> blank line ->
    malformed_answer text
| no_year line :
    nth_error (answer_lines text) 3 = Some line -> without_year line ->
    malformed_answer text.

(** The detail pages the script cannot read. *)
Inductive malformed_page (soup : Bs4.node) : Prop :=
| too_few_tables :
    (List.length (Bs4.find_all "table" soup) < 4)%nat -> malformed_page soup
| ref_without_anchor table r tooltip :
    nth_error (Bs4.find_all "table" soup) 3 = Some table ->
    In r (Bs4.find_all_with "tt" "title" (Bs4.element table)) ->
    Bs4.get "title" (attrs_of (Bs4.element r)) = Some tooltip ->
    Py.contains "Ref" tooltip = true ->
    Bs4.find_all "a" (Bs4.element r) = [] ->
    malformed_page soup.

(** A page with a single table. *)
Definition page_with_one_table : Bs4.node :=
  Bs4.Tag "[document]" [] [Bs4.Tag "table" [] []].

(** A page whose only marker has [Ref] in its tooltip and no link. *)
Definition page_without_anchor : Bs4.node :=
  sample_page (sample_row "Y*O" "Ref,HOPS" [Bs4.NavigableString "Ref,HOPS"]).

Definition sample_fields (g : generator) : Fields :=
  {| identifiers := "2MASS J05352762-0509337";
     ra := "05 35 27.6337";
     dec := "-05 09 34.373";
     distance := "0.0";
     reference := "2003yCat.2246....0C";
     spectral_type := "";
     wavelength := "I";
     type := "Young Stellar Object";
     all_types := g |}.

(** No blank among the characters. *)
Definition no_blank (s : string) : Prop :=
  forallb (fun c => negb (Py.isspace c)) (list_ascii_of_string s) = true.

(** [name] is the first whitespace-delimited token of [line]. *)
Definition first_token (line name : string) : Prop :=
  exists ws rest,
    line = ws ++ name ++ rest /\ blank ws /\
    name <> "" /\ no_blank name /\
    (rest = "" \/
     exists c rest', rest = String c rest' /\ Py.isspace c = true).

(** No position of [before] starts four digits in parentheses in
    [before ++ rest]. *)
Fixpoint no_year_starts (before rest : string) : bool :=
  match before with
  | EmptyString => true
  | String _ before' =>
      match Re.match_year (before ++ rest) with
      | None => no_year_starts before' rest
      | Some _ => false
      end
  end.

(** [line] holds the four digits in parentheses, and no earlier position
    of the line starts four digits in parentheses. *)
Definition first_year (line : string) (d1 d2 d3 d4 : ascii) : Prop :=
  exists before after,
    let found :=
      String "(" (String d1 (String d2 (String d3 (String d4
        (String ")" after))))) in
    line = before ++ found /\
    Py.isdigit d1 && Py.isdigit d2 && Py.isdigit d3 && Py.isdigit d4 = true /\
    no_year_starts before found = true.

(** An answer laid out as the one quoted in [query_reference], with the
    given year line and author line. *)
Definition answer_with (year_line authors_line : string) : string :=
  "References" ++ nl ++
  "----------------------------" ++ nl ++
  "(bibcode) = DOI (doi)  --  ?" ++ nl ++
  year_line ++ nl ++
  authors_line ++ nl ++
  "(title)" ++ nl ++
  "Files: (abstract)" ++ nl.

(** No hyphen among the characters. *)
Definition no_hyphen (s : string) : Prop := Py.mem_char "-" s = false.

(** ** Title case, read off the alphabet *)

(** The alphabet in its two cases, letter for letter. *)
Definition lowercase_letters : string := "abcdefghijklmnopqrstuvwxyz".
Definition uppercase_letters : string := "ABCDEFGHIJKLMNOPQRSTUVWXYZ".

(** The character [tos] holds at the place [c] has in [froms], and [c]
    itself when [froms] does not hold it. *)
Fixpoint counterpart (froms tos : string) (c : ascii) : ascii :=
  match froms, tos with
  | String a froms', String b tos' =>
      if Ascii.eqb c a then b else counterpart froms' tos' c
  | _, _ => c
  end.

(** A small letter becomes its capital; any other character stays. *)
Definition uppercased (c : ascii) : ascii :=
  counterpart lowercase_letters uppercase_letters c.

(** A capital becomes its small letter; any other character stays. *)
Definition lowercased (c : ascii) : ascii :=
  counterpart uppercase_letters lowercase_letters c.

Fixpoint all_lowercased (s : string) : string :=
  match s with
  | EmptyString => EmptyString
  | String c s' => String (lowercased c) (all_lowercased s')
  end.

(** A segment in title case: its first character upper-cased, every
    later one lower-cased. *)
Definition title_cased (segment : string) : string :=
  match segment with
  | EmptyString => EmptyString
  | String c rest => String (uppercased c) (all_lowercased rest)
  end.

(** The segments written one after the other, a hyphen between two
    neighbours. *)
Fixpoint hyphenated (segments : list string) : string :=
  match segments with
  | [] => ""
  | segment :: rest =>
      match rest with
      | [] => segment
      | _ :: _ => segment ++ "-" ++ hyphenated rest
      end
  end.

(** The segment holds no hyphen. *)
Definition hyphen_free (segment : string) : Prop :=
  forallb (fun c => negb (Ascii.eqb c "-")) (list_ascii_of_string segment)
  = true.

(** Every character is below 128: the implicit decoding of
    [name.split('-')], whose separator is a unicode literal, accepts the
    token. *)
Definition ascii_only (s : string) : Prop :=
  forallb (fun c => (nat_of_ascii c <? 128)%nat) (list_ascii_of_string s)
  = true.

(** ** The pattern of the file name *)

(** The decimal digit of the units of [n]. *)
Definition digit (n : Z) : ascii := ascii_of_nat (48 + Z.to_nat (n mod 10)).

(** [n], in two digits. *)
Definition two_digits (n : Z) : string :=
  String (digit (n / 10)) (String (digit n) "").

(** [n], in three digits. *)
Definition three_digits (n : Z) : string :=
  String (digit (n / 100)) (two_digits n).

(** Seconds in the pattern [ss.sss]: the thousandths nearest to [x], two
    digits before the point and three after. *)
Definition seconds_field (x : Q) : string :=
  let thousandths := round_half_even (Qabs x * inject_Z 1000) in
  two_digits (thousandths / 1000) ++ "." ++ three_digits (thousandths mod 1000).

(** The components a [SkyCoord] can have: a right ascension below 24 h, a
    declination of at most 90 degrees, minutes and seconds below 60. *)
Record valid_coords (c : SkyCoord) : Prop := mkValid {
  valid_h : (0 <= value (fst (fst (ra_hms c)))
             /\ value (fst (fst (ra_hms c))) < 24)%Q;
  valid_m : (0 <= value (snd (fst (ra_hms c)))
             /\ value (snd (fst (ra_hms c))) < 60)%Q;
  valid_s : (0 <= value (snd (ra_hms c)) /\ value (snd (ra_hms c)) < 60)%Q;
  valid_dd : (Qabs (value (fst (fst (dec_dms c)))) <= 90)%Q;
  valid_dm : (Qabs (value (snd (fst (dec_dms c)))) < 60)%Q;
  valid_ds : (Qabs (value (snd (dec_dms c))) < 60)%Q
}.

(** [x] lies in the unit interval that starts at [n]. *)
Definition in_unit (n : Z) (x : Q) : Prop :=
  (inject_Z n <= x /\ x < inject_Z (n + 1))%Q.

(** [x], counted in thousandths, is less than half a unit away from [n]. *)
Definition near_thousandths (n : Z) (x : Q) : Prop :=
  (Qabs (x * inject_Z 1000 - inject_Z n) < 1 # 2)%Q.

(** The order of [sorted]: strings compared character by character. *)
Definition string_le (a b : string) : Prop := String.leb a b = true.

(** The text of the lines [write_lines] writes. *)
Fixpoint lines_text (l : list string) : string :=
  match l with
  | [] => ""
  | r :: l' => r ++ nl ++ lines_text l'
  end.

(** Every character is in the class [[\w.]]. *)
Definition ref_chars (code : string) : Prop :=
  forallb Re.ref_char (list_ascii_of_string code) = true.

(** A right ascension whose seconds are just below sixty. *)
Definition almost_next_minute : SkyCoord :=
  {| ra_hms := (Val (5 # 1), Val (35 # 1), Val (599996 # 10000));
     dec_deg := Val (- (5 # 1) - (6 # 60) - (59 # 3600));
     dec_dms := (Val (- 5 # 1), Val (- 6 # 1), Val (- 59 # 1)) |}.

(** A blank of a unicode text, by its code point. *)
Definition unicode_blank (c : ascii) : bool :=
  let n := nat_of_ascii c in
  ((9 <=? n) && (n <=? 13) || (28 <=? n) && (n <=? 32)
   || (n =? 133) || (n =? 160))%nat.

(** Blanks only. *)
Definition unicode_blanks (s : string) : Prop :=
  forallb unicode_blank (list_ascii_of_string s) = true.

(** Neither the first nor the last character is a blank. *)
Definition trimmed (s : string) : Prop :=
  forall c,
    (exists t, s = String c t) \/ (exists t, s = t ++ String c "") ->
    unicode_blank c = false.

(** A marker with [Ref] whose anchor has no link. *)
Definition marker_without_href : Bs4.located :=
  {| Bs4.previous_siblings := [];
     Bs4.element :=
       Bs4.Tag "tt" [("title", "Ref,HOPS")]
         [Bs4.Tag "a" [("name", "ref")] [Bs4.NavigableString "Ref"]] |}.

(** The codes [generate_report] looks up for an annotation: the matches
    of the pattern, without their braces. *)
Definition codes_of (refs : string) : list string :=
  map (Py.strip_chars "{}") (Re.findall_ref refs).

(** The codes of all the annotations, in the order of the rows. *)
Definition codes_of_rows (references : list (string * string)) : list string :=
  flat_map (fun row => codes_of (snd row)) references.

(** The text of the entries of "All types", the annotations being
    substituted already: separated by a comma and a space, and ended by a
    newline when there is an entry. *)
Definition all_types_text (entries : list (string * string)) : string :=
  match entries with
  | [] => ""
  | _ :: _ =>
      Py.join ", " (map (fun e => fst e ++ " (" ++ snd e ++ ")") entries) ++ nl
  end.

(** [entries] are the rows of [references] with their annotations as
    [re.sub] returns them. *)
Definition substituted (query_bibcode : string -> result string)
    (references entries : list (string * string)) : Prop :=
  Forall2 (fun row entry =>
             fst entry = fst row /\
             outcome (re_sub query_bibcode (snd row)) = OK (snd entry))
          references entries.

(** The text of a whole report. *)
Definition report_text (fields : Fields) (author : string)
    (entries : list (string * string)) (lines : list string) : string :=
  ("Identifier: " ++ identifiers fields ++ nl) ++
  (nl ++ "Coordinates (ICRS): " ++ ra fields ++ " " ++ dec fields ++ " " ++
   author ++ " [" ++ reference fields ++ "]" ++ nl) ++
  (nl ++ "Distance to center (arcsec): " ++ distance fields ++ nl) ++
  (nl ++ "Type: " ++ type fields ++ nl) ++
  (nl ++ "All types: ") ++
  all_types_text entries ++
  (nl ++ "Spectral type: " ++ spectral_type fields ++ nl) ++
  (nl ++ "References:" ++ nl) ++
  (reference fields ++ " " ++ url (reference fields) ++ nl) ++
  lines_text lines.

(** A page whose fourth table has no marker. *)
Definition page_without_rows : Bs4.node := sample_page [].

(* ================================================================== *)
(** * The main loop *)

(** What the loop of the main block does, in order. *)
Inductive main_event : Type :=
| Region (coords : SkyCoord)      (* [customSimbad.query_region] *)
| Step (e : event)                (* an event of the two functions called *)
| Open (output_filename : string) (* [open(output_filename, 'wt')] *)
| Print (text : string).          (* [print] *)

(** [not line or line.startswith('#')], on the stripped line. *)
Definition ignored (line : string) : bool :=
  String.eqb line "" || prefix "#" line.

Section Main.

(** [parse_coordinates] is a call into astropy and [query_region] a call
    into the remote service followed by the reading of its first row:
    both are inputs of the model, with the exceptions they raise. *)
Variable parse_coordinates : string -> result SkyCoord.
Variable query_region : SkyCoord -> result RegionRow.
Variable query_bibcode : string -> result string.
Variable detail_page : string -> result Bs4.node.

(** The body of the loop for a line that is not ignored; [index] is the
    counter of the loop. *)
Definition process_line (index : nat) (line : string)
  : list main_event * result unit :=
  match parse_coordinates line with
  | Raise e => ([], Raise e)
  | OK coords =>
      match query_region coords with
      | Raise e => ([Region coords], Raise e)
      | OK row =>
          match query_coordinates row with
          | (t1, Raise e) => (Region coords :: map Step t1, Raise e)
          | (t1, OK fields) =>
              let progress :=
                "[" ++ str_of_nat (Z.of_nat index) ++ "] " ++ line ++ "..." in
              let output_filename := get_output_filename coords ".txt" in
              let (t2, r2) :=
                generate_report query_bibcode detail_page fields in
              ((Region coords :: map Step t1)
               ++ [Print progress; Open output_filename]
               ++ map Step t2
               ++ match r2 with
                  | OK _ => [Print (" saved to " ++ output_filename ++ nl)]
                  | Raise _ => []
                  end,
               r2)%list
          end
      end
  end.

(** The [for line in args.coordinates_file[0]] loop. *)
Fixpoint main_loop (index : nat) (lines : list string)
  : list main_event * result unit :=
  match lines with
  | [] => ([], OK tt)
  | line :: lines' =>
      let line := Py.strip line in
      if ignored line then main_loop index lines'
      else
        match process_line index line with
        | (t, Raise e) => (t, Raise e)
        | (t, OK _) =>
            let (t', r) := main_loop (S index) lines' in ((t ++ t')%list, r)
        end
  end.

(** The main block, on the lines of the file: [index = 1] to start. *)
Definition main (lines : list string) : list main_event * result unit :=
  main_loop 1 lines.

(** The name of the file written for a line. *)
Definition filename_of (line : string) : string :=
  match parse_coordinates line with
  | OK coords => get_output_filename coords ".txt"
  | Raise _ => ""
  end.

(** The progress messages of a run over [lines], numbered from [index]. *)
Fixpoint progress_text (index : nat) (lines : list string) : string :=
  match lines with
  | [] => ""
  | line :: lines' =>
      ("[" ++ str_of_nat (Z.of_nat index) ++ "] " ++ line ++ "...")
      ++ (" saved to " ++ filename_of line ++ nl)
      ++ progress_text (S index) lines'
  end.

End Main.

(** What was printed. *)
Fixpoint printed (t : list main_event) : string :=
  match t with
  | [] => ""
  | Print s :: t' => s ++ printed t'
  | _ :: t' => printed t'
  end.

(** The files opened, in order. *)
Fixpoint opened (t : list main_event) : list string :=
  match t with
  | [] => []
  | Open f :: t' => f :: opened t'
  | _ :: t' => opened t'
  end.

(** The lines the loop works on: stripped, and neither empty nor
    comments. *)
Definition kept_lines (lines : list string) : list string :=
  filter (fun line => negb (ignored line)) (map Py.strip lines).

(** The two coordinate lines of the tests, and a region query that
    answers with the sample row. *)
Definition sample_parse_coordinates (line : string) : result SkyCoord :=
  if String.eqb line "05 35 24.550 -05 06 59.00" then OK vla7
  else if String.eqb line "21 39 00.0 +57 29 24" then OK trumpler37
  else Raise RemoteError.

Definition sample_query_region (coords : SkyCoord) : result RegionRow :=
  OK sample_region_row.

(* ================================================================== *)
(** * The throttle decorator: proofs *)

Lemma throttled_eqb_eq f g : throttled_eqb f g = true <-> f = g.
Proof. destruct f, g; simpl; split; congruence. Qed.

(** The reading that leaves the loop is a period after the stored time. *)
Lemma wait_elapsed fuel now_ self reads now reads' :
  wait fuel now_ self reads = Some (now, reads') ->
  (time_of_last_call self + throttle_period self <= now)%Z.
Proof.
  revert reads.
  induction fuel as [|fuel IH]; intros reads; simpl; [discriminate|].
  destruct (Z.leb_spec (throttle_period self)
                       (now_ reads - time_of_last_call self)) as [Hle|Hlt].
  - intros [= <- <-]. lia.
  - apply IH.
Qed.

(** More fuel does not change an answer. *)
Lemma wait_more_fuel fuel fuel' now_ self reads r :
  (fuel <= fuel')%nat ->
  wait fuel now_ self reads = Some r ->
  wait fuel' now_ self reads = Some r.
Proof.
  revert fuel' reads.
  induction fuel as [|fuel IH]; intros fuel' reads Hle; simpl; [discriminate|].
  destruct fuel' as [|fuel']; [lia|]. simpl.
  destruct (throttle_period self <=? now_ reads - time_of_last_call self)%Z;
    [tauto|].
  apply IH. lia.
Qed.

(** The loop ends when the clock advances. *)
Lemma wait_terminates now_ self reads :
  advances now_ ->
  exists fuel r, wait fuel now_ self reads = Some r.
Proof.
  intros Hadv.
  destruct (Hadv reads (time_of_last_call self + throttle_period self)%Z)
    as [k Hk].
  revert reads Hk.
  induction k as [|k IH]; intros reads Hk.
  - exists 1%nat. simpl. rewrite Nat.add_0_r in Hk.
    destruct (Z.leb_spec (throttle_period self)
                         (now_ reads - time_of_last_call self)); [eauto|lia].
  - destruct (Z.leb_spec (throttle_period self)
                         (now_ reads - time_of_last_call self)) as [Hle|Hlt].
    + exists 1%nat. simpl.
      apply Z.leb_le in Hle. rewrite Hle. eauto.
    + destruct (IH (S reads)) as (fuel & r & Hr).
      { replace (S reads + k)%nat with (reads + S k)%nat by lia. exact Hk. }
      exists (S fuel), r. simpl.
      apply Z.leb_gt in Hlt. rewrite Hlt. exact Hr.
Qed.

Lemma spaced_snoc log f t :
  spaced log -> all_before f t log -> spaced (log ++ [(f, t)])%list.
Proof.
  induction log as [|[g t'] log IH]; simpl.
  - intros _ _. split; [intros ? ? []|exact I].
  - intros [Hhd Htl] [Hnew Hrest]. split.
    + intros g' t'' Hin Heq. apply in_app_or in Hin as [Hin|[Hin|[]]].
      * eapply Hhd; eassumption.
      * injection Hin as <- <-. apply Hnew.
        apply throttled_eqb_eq in Heq. subst. destruct f; reflexivity.
    + apply IH; assumption.
Qed.

Lemma all_before_intro f t log :
  (forall t', In (f, t') log -> (t' + quarter_second <= t)%Z) ->
  all_before f t log.
Proof.
  induction log as [|[g t'] log IH]; simpl; intros H; [exact I|].
  split.
  - intros Heq. apply throttled_eqb_eq in Heq. subst. apply H. now left.
  - apply IH. intros t'' Hin. apply H. now right.
Qed.

Lemma spaced_nth log :
  spaced log -> spaced_per_function log.
Proof.
  unfold spaced_per_function.
  induction log as [|[g t] log IH]; intros Hsp i j f t1 t2 Hlt Hi Hj.
  - destruct i; discriminate.
  - destruct Hsp as [Hhd Htl].
    destruct j as [|j]; [lia|]. simpl in Hj.
    destruct i as [|i]; simpl in Hi.
    + injection Hi as -> ->.
      apply (Hhd f t2).
      * eapply nth_error_In; eassumption.
      * destruct f; reflexivity.
    + apply (IH Htl i j f); [lia|assumption..].
Qed.

Lemma gates_ok_start : gates_ok process_start.
Proof.
  split.
  - intros []; reflexivity.
  - exact I.
  - intros f t [].
Qed.

(** A call keeps the invariant. *)
Lemma call_gates_ok {A B} (body : A -> result B) fuel now_ f arg p r p' :
  gates_ok p ->
  call body fuel now_ f arg p = Some (r, p') ->
  gates_ok p'.
Proof.
  intros [Hper Hsp Hlast]. unfold call, wrapper.
  destruct (wait fuel now_ (gate_of f p) (clock_reads p))
    as [[now reads']|] eqn:Hwait; [|discriminate].
  apply wait_elapsed in Hwait. rewrite Hper in Hwait.
  assert (Hq : (0 <= quarter_second)%Z) by (unfold quarter_second; lia).
  intros [= <- <-].
  assert (Hnew : spaced (acquisitions p ++ [(f, now)])%list).
  { apply spaced_snoc; [assumption|]. apply all_before_intro.
    intros t' Hin. specialize (Hlast _ _ Hin). lia. }
  split.
  - intros g. specialize (Hper g). destruct f, g; simpl in *; assumption.
  - destruct f; simpl; assumption.
  - intros g t Hin.
    assert (Hcases : In (g, t) (acquisitions p) \/ (g = f /\ t = now)).
    { destruct f; simpl in Hin; apply in_app_or in Hin as [Hin|[Hin|[]]];
        auto; injection Hin as <- <-; auto. }
    destruct Hcases as [Hold|[-> ->]].
    + specialize (Hlast _ _ Hold). specialize (Hlast) as Hl.
      destruct f, g; simpl in *; lia.
    + destruct f; simpl; lia.
Qed.

Lemma run_gates_ok outcome fuel now_ calls p p' :
  gates_ok p ->
  run outcome fuel now_ calls p = Some p' ->
  gates_ok p'.
Proof.
  revert p.
  induction calls as [|f calls IH]; intros p Hok; simpl.
  - now intros [= <-].
  - destruct (call outcome fuel now_ f f p) as [[r p1]|] eqn:Hcall;
      [|discriminate].
    apply IH. eapply call_gates_ok; eassumption.
Qed.

Lemma run_more_fuel outcome fuel fuel' now_ calls p p' :
  (fuel <= fuel')%nat ->
  run outcome fuel now_ calls p = Some p' ->
  run outcome fuel' now_ calls p = Some p'.
Proof.
  intros Hle. revert p.
  induction calls as [|f calls IH]; intros p; simpl; [tauto|].
  unfold call, wrapper.
  destruct (wait fuel now_ (gate_of f p) (clock_reads p)) as [[now reads']|]
    eqn:Hwait; [|discriminate].
  rewrite (wait_more_fuel _ _ _ _ _ _ Hle Hwait). apply IH.
Qed.

(** With a clock that advances, every sequence of calls runs to its end. *)
Lemma run_terminates outcome now_ calls p :
  advances now_ ->
  exists fuel p', run outcome fuel now_ calls p = Some p'.
Proof.
  intros Hadv. revert p.
  induction calls as [|f calls IH]; intros p.
  - exists 0%nat, p. reflexivity.
  - destruct (wait_terminates now_ (gate_of f p) (clock_reads p) Hadv)
      as (fuel1 & [now reads'] & Hwait).
    pose proof (wait_more_fuel fuel1) as Hmono.
    destruct (call outcome fuel1 now_ f f p) as [[r p1]|] eqn:Hcall.
    2:{ unfold call, wrapper in Hcall. rewrite Hwait in Hcall. discriminate. }
    destruct (IH p1) as (fuel2 & p' & Hrun).
    exists (Nat.max fuel1 fuel2), p'. simpl.
    unfold call, wrapper in *.
    rewrite (Hmono (Nat.max fuel1 fuel2) _ _ _ _ (Nat.le_max_l _ _) Hwait).
    rewrite Hwait in Hcall. injection Hcall as <- <-.
    eapply run_more_fuel; [apply Nat.le_max_r|exact Hrun].
Qed.

(** C1, amended: the [@throttle(seconds=0.25)] lines build one gate per
    decorated function.  In any run of the process, the times stored by
    two calls of the same function -- two of [query_reference] or two of
    [get_object_types] -- are at least 0.25 s apart. *)
Theorem throttle_spacing_per_function outcome fuel now_ calls p :
  run outcome fuel now_ calls process_start = Some p ->
  spaced_per_function (acquisitions p).
Proof.
  intros Hrun. apply spaced_nth.
  apply (ok_spaced p).
  eapply run_gates_ok; [apply gates_ok_start|exact Hrun].
Qed.

Lemma throttle_spacing_per_function_witness :
  exists p,
    run (fun _ => OK tt) 4 (tenths 63000000000000000%Z)
        [GetObjectTypes; QueryReference; QueryReference] process_start = Some p
    /\ spaced_per_function (acquisitions p).
Proof.
  eexists. split; [reflexivity|].
  apply (throttle_spacing_per_function (fun _ => OK tt) 4
           (tenths 63000000000000000%Z)
           [GetObjectTypes; QueryReference; QueryReference]).
  reflexivity.
Defined.

(** C1 as stated fails: a call of [get_object_types] followed by one of
    [query_reference] passes two different gates, and their stored times
    can be one microsecond apart. *)
Lemma throttle_gates_not_shared :
  ~ (forall outcome fuel now_ calls p,
        run outcome fuel now_ calls process_start = Some p ->
        successive_spaced (acquisitions p)).
Proof.
  intros H.
  specialize (H (fun _ => OK tt) 1%nat (ticking 63000000000000000%Z)
                [GetObjectTypes; QueryReference] _ eq_refl).
  specialize (H 0%nat GetObjectTypes QueryReference
                63000000000000000%Z 63000000000000001%Z eq_refl eq_refl).
  unfold quarter_second in H. lia.
Qed.

(* ================================================================== *)
(** * The order of the remote calls: proofs *)

Lemma trace_bind {A B} (m : M A) (k : A -> M B) :
  trace (bind m k) =
  (trace m ++ match outcome m with
              | OK a => trace (k a)
              | Raise _ => []
              end)%list.
Proof.
  destruct m as [t [a|e]]; unfold trace, outcome, bind; simpl.
  - now destruct (k a).
  - now rewrite app_nil_r.
Qed.

Lemma outcome_bind {A B} (m : M A) (k : A -> M B) :
  outcome (bind m k) =
  match outcome m with
  | OK a => outcome (k a)
  | Raise e => Raise e
  end.
Proof.
  destruct m as [t [a|e]]; unfold outcome, bind; simpl; [|reflexivity].
  now destruct (k a).
Qed.

Lemma trace_emit e : trace (emit e) = [e].
Proof. reflexivity. Qed.

Lemma outcome_emit e : outcome (emit e) = OK tt.
Proof. reflexivity. Qed.

Lemma trace_ret {A} (a : A) : trace (ret a) = [].
Proof. reflexivity. Qed.

Lemma outcome_ret {A} (a : A) : outcome (ret a) = OK a.
Proof. reflexivity. Qed.

Lemma trace_lift {A} (r : result A) : trace (lift r) = [].
Proof. reflexivity. Qed.

Lemma outcome_lift {A} (r : result A) : outcome (lift r) = r.
Proof. reflexivity. Qed.

Create Rewrite HintDb trace_db.

#[local] Hint Rewrite @trace_bind @outcome_bind trace_emit outcome_emit
  @trace_ret @outcome_ret @trace_lift @outcome_lift : trace_db.

(** Run the binds whose outcome is known. *)
Ltac run_binds := repeat (autorewrite with trace_db; cbn beta iota).

Lemma no_taxonomy_app t1 t2 :
  no_taxonomy t1 -> no_taxonomy t2 -> no_taxonomy (t1 ++ t2)%list.
Proof.
  unfold no_taxonomy. intros H1 H2. rewrite forallb_app, H1, H2. reflexivity.
Qed.

Lemma no_taxonomy_bind {A B} (m : M A) (k : A -> M B) :
  no_taxonomy (trace m) ->
  (forall a, no_taxonomy (trace (k a))) ->
  no_taxonomy (trace (bind m k)).
Proof.
  intros Hm Hk. rewrite trace_bind. apply no_taxonomy_app; [assumption|].
  destruct (outcome m); [apply Hk|reflexivity].
Qed.

Lemma resolutions_app t1 t2 :
  resolutions (t1 ++ t2)%list = (resolutions t1 ++ resolutions t2)%list.
Proof.
  induction t1 as [|e t1 IH]; simpl; [reflexivity|].
  destruct e; simpl; congruence.
Qed.

Section Order.

Variable query_bibcode : string -> result string.
Variable detail_page : string -> result Bs4.node.

Let resolve := query_reference query_bibcode.
Let drain := list_of detail_page.

(** A call of [query_reference] passes its gate and looks the code up. *)
Lemma trace_query_reference bibcode :
  trace (resolve bibcode) =
  [EvGate QueryReference; EvBibQuery bibcode].
Proof.
  unfold resolve, query_reference.
  destruct (query_bibcode bibcode) as [text|e]; simpl;
    [destruct (parse_reference text)|]; reflexivity.
Qed.

Lemma no_taxonomy_query_reference bibcode :
  no_taxonomy (trace (resolve bibcode)).
Proof. rewrite trace_query_reference. reflexivity. Qed.

Lemma no_taxonomy_sub_pieces ps :
  no_taxonomy (trace (sub_pieces query_bibcode ps)).
Proof.
  induction ps as [|[c|m] ps IH]; simpl.
  - reflexivity.
  - apply no_taxonomy_bind; [assumption|reflexivity].
  - apply no_taxonomy_bind; [apply no_taxonomy_query_reference|].
    intros r. apply no_taxonomy_bind; [assumption|reflexivity].
Qed.

Lemma no_taxonomy_write_all_types len index l :
  no_taxonomy (trace (write_all_types query_bibcode len index l)).
Proof.
  revert index.
  induction l as [|[type_ refs] l IH]; intros index; simpl; [reflexivity|].
  apply no_taxonomy_bind; [apply no_taxonomy_sub_pieces|]. intros refs'.
  apply no_taxonomy_bind; [reflexivity|]. intros _.
  apply no_taxonomy_bind; [destruct (index <? len - 1)%nat; reflexivity|].
  intros _. apply IH.
Qed.

Lemma no_taxonomy_add_references matches unique :
  no_taxonomy (trace (add_references query_bibcode matches unique)).
Proof.
  revert unique.
  induction matches as [|r matches IH]; intros unique; simpl; [reflexivity|].
  apply no_taxonomy_bind; [apply no_taxonomy_query_reference|].
  intros author. apply IH.
Qed.

Lemma no_taxonomy_collect_references l unique :
  no_taxonomy (trace (collect_references query_bibcode l unique)).
Proof.
  revert unique.
  induction l as [|[type_ ref] l IH]; intros unique; simpl; [reflexivity|].
  apply no_taxonomy_bind; [apply no_taxonomy_add_references|].
  intros unique'. apply IH.
Qed.

Lemma no_taxonomy_write_lines l :
  no_taxonomy (trace (write_lines l)).
Proof.
  induction l as [|r l IH]; simpl; [reflexivity|].
  apply no_taxonomy_bind; [reflexivity|]. intros _. exact IH.
Qed.

Lemma no_taxonomy_write_references reference references :
  no_taxonomy (trace (write_references query_bibcode reference references)).
Proof.
  unfold write_references.
  apply no_taxonomy_bind; [reflexivity|]. intros _.
  apply no_taxonomy_bind; [reflexivity|]. intros _.
  apply no_taxonomy_bind; [apply no_taxonomy_collect_references|].
  intros unique. apply no_taxonomy_write_lines.
Qed.

(** The generator looks no bibliographic code up. *)
Lemma resolutions_yield_rows rs :
  resolutions (trace (yield_rows rs)) = [].
Proof.
  induction rs as [|r rs IH]; simpl; [reflexivity|].
  rewrite trace_bind. simpl.
  destruct (object_type_row r) as [row|e]; simpl; [|reflexivity].
  rewrite trace_bind. simpl.
  rewrite trace_bind, resolutions_app, IH. simpl.
  destruct (outcome (yield_rows rs)); reflexivity.
Qed.

Lemma resolutions_list_of g :
  resolutions (trace (drain g)) = [].
Proof.
  destruct g as [identifier]. unfold drain, list_of.
  rewrite trace_bind. simpl.
  rewrite trace_bind. simpl.
  destruct (detail_page identifier) as [soup|e]; simpl; [|reflexivity].
  rewrite trace_bind. simpl.
  destruct (getitem (Bs4.find_all "table" soup) 3) as [table|e]; simpl;
    [|reflexivity].
  apply resolutions_yield_rows.
Qed.

(** C2, amended: for every processed object the primary coordinate
    bibcode is looked up first, before the detail page is fetched (the
    generator was only created, behind its gate); the taxonomy
    extraction -- the fetch and all the rows -- then completes before
    any lookup of a code embedded in an annotation. *)
Theorem primary_lookup_then_taxonomy_then_embedded (row : RegionRow) :
  primary_then_taxonomy (COO_BIBCODE row)
    (trace (process_object query_bibcode detail_page row)).
Proof.
  unfold process_object, query_coordinates, get_object_types,
    generate_report.
  set (g := Suspended (MAIN_ID row)).
  autorewrite with trace_db. cbn [app all_types reference].
  fold (resolve (COO_BIBCODE row)).
  rewrite trace_query_reference. cbn [app].
  destruct (outcome (resolve (COO_BIBCODE row))) as [author|e].
  - autorewrite with trace_db. cbn [app]. fold (drain g).
    eexists [_; _; _; _; _; _; _], (trace (drain g)), _.
    split; [reflexivity|].
    split; [reflexivity|]. split; [reflexivity|].
    split; [apply resolutions_list_of|].
    destruct (outcome (drain g)) as [references|e]; [|reflexivity].
    autorewrite with trace_db.
    apply (no_taxonomy_app [_]); [reflexivity|].
    apply no_taxonomy_app; [apply no_taxonomy_write_all_types|].
    destruct (outcome (write_all_types _ _ _ _)); [|reflexivity].
    autorewrite with trace_db.
    apply (no_taxonomy_app [_]); [reflexivity|].
    apply no_taxonomy_write_references.
  - eexists [_; _; _; _], [], [].
    repeat split.
Qed.

End Order.

(** C2 as stated fails: on the sample page the lookup of the primary code
    is the fourth event of the object and the fetch of the detail page the
    eighth. *)
Lemma primary_lookup_precedes_fetch :
  ~ (forall query_bibcode detail_page row,
        taxonomy_before_resolutions
          (trace (process_object query_bibcode detail_page row))).
Proof.
  intros H.
  specialize (H sample_query_bibcode sample_detail_page sample_region_row
                7%nat 3%nat
                (EvFetch "2MASS J05352762-0509337") "2003yCat.2246....0C"
                eq_refl eq_refl eq_refl).
  lia.
Qed.

(* ================================================================== *)
(** * The report: proofs *)

(** C3, at the failing input: the generator yields the annotation
    [{2005A&A...432..161G}, [RRC99]] for a row that links to
    [?bibcode=2005A&A...432..161G]; the class [[\w.]] has no ['&'], the
    pattern matches nowhere in it, and "All types" is written with the
    code still in braces and without a lookup, whatever the service
    answers. *)
Theorem all_types_keeps_ampersand_bibcode
    (query_bibcode : string -> result string) :
  list_of (fun _ => OK (sample_page ampersand_rows)) (Suspended "V* V380 Ori")
    = ([EvFetch "V* V380 Ori"; EvYield (fst ampersand_entry) (snd ampersand_entry)],
       OK [ampersand_entry])
  /\ write_all_types query_bibcode 1 0 [ampersand_entry]
     = ([EvWrite "Y*O ({2005A&A...432..161G}, [RRC99])"; EvWrite nl], OK tt).
Proof. split; reflexivity. Qed.

(** C6, at the same input: no line is written for the code, the
    References section holds the line of the primary code only. *)
Theorem references_skip_ampersand_bibcode
    (query_bibcode : string -> result string) :
  write_references query_bibcode "1999AJ....118..983R" [ampersand_entry]
  = ([EvWrite (nl ++ "References:" ++ nl);
      EvWrite ("1999AJ....118..983R " ++ url "1999AJ....118..983R" ++ nl)],
     OK tt).
Proof. reflexivity. Qed.

(* ================================================================== *)
(** * Strings: proofs *)

Lemma append_assoc (a b c : string) : (a ++ b) ++ c = a ++ (b ++ c).
Proof. induction a as [|x a IH]; simpl; congruence. Qed.

Lemma prefix_cons a s1 b s2 :
  prefix (String a s1) (String b s2) = Ascii.eqb a b && prefix s1 s2.
Proof.
  simpl. destruct (ascii_dec a b) as [->|Hne].
  - now rewrite Ascii.eqb_refl.
  - apply Ascii.eqb_neq in Hne. now rewrite Hne.
Qed.

Lemma prefix_empty s : prefix "" s = true.
Proof. now destruct s. Qed.

(** A separator of one character. *)
Lemma prefix_char a c s : prefix (String a "") (String c s) = Ascii.eqb a c.
Proof. rewrite prefix_cons, prefix_empty. apply andb_true_r. Qed.

Lemma split_from_not_nil sep skip s : Py.split_from sep skip s <> [].
Proof.
  revert skip.
  induction s as [|c s IH]; intros skip; cbn [Py.split_from]; [easy|].
  destruct skip; [|apply IH].
  destruct (prefix sep (String c s)); [easy|].
  specialize (IH 0). destruct (Py.split_from sep 0 s); simpl; congruence.
Qed.

(** Without an occurrence of the separator there is one field. *)
Lemma split_absent sep s :
  Py.contains sep s = false -> Py.split sep s = [s].
Proof.
  unfold Py.split.
  induction s as [|c s IH]; intros H; [reflexivity|].
  cbn [Py.contains] in H. apply orb_false_iff in H as [Hp Hc].
  cbn [Py.split_from]. rewrite Hp, (IH Hc). reflexivity.
Qed.

Lemma join_cons sep x l :
  l <> [] -> Py.join sep (x :: l) = x ++ sep ++ Py.join sep l.
Proof. destruct l; [congruence|reflexivity]. Qed.

Lemma join_cons_head sep c l :
  l <> [] -> Py.join sep (Py.cons_head c l) = String c (Py.join sep l).
Proof.
  destruct l as [|h [|h' t]]; [congruence|reflexivity..].
Qed.

(** [", ".join(s.split(","))] inserts a space after every comma. *)
Lemma comma_join_spaced s : comma_join s = comma_spaced s.
Proof.
  unfold comma_join, Py.split.
  induction s as [|c s IH]; [reflexivity|].
  cbn [Py.split_from comma_spaced].
  rewrite prefix_char, (Ascii.eqb_sym "," c).
  destruct (Ascii.eqb c ",").
  - rewrite join_cons by apply split_from_not_nil.
    change (String.length "," - 1) with 0. now rewrite IH.
  - rewrite join_cons_head by apply split_from_not_nil. now rewrite IH.
Qed.

Lemma comma_spaced_without_comma s :
  Py.contains "," s = false -> comma_spaced s = s.
Proof.
  induction s as [|c s IH]; intros H; [reflexivity|].
  cbn [Py.contains] in H. apply orb_false_iff in H as [Hp Hc].
  rewrite prefix_char, Ascii.eqb_sym in Hp.
  cbn [comma_spaced]. rewrite Hp, (IH Hc). reflexivity.
Qed.

(** A needle with neither comma nor space starts [comma_spaced s] exactly
    when it starts [s]. *)
Lemma prefix_comma_spaced needle s :
  Py.mem_char "," needle = false ->
  prefix needle (comma_spaced s) = prefix needle s.
Proof.
  revert s.
  induction needle as [|a needle IH]; intros s Hc.
  - now rewrite !prefix_empty.
  - assert (Ha : Ascii.eqb "," a = false /\ Py.mem_char "," needle = false).
    { unfold Py.mem_char in *. cbn [list_ascii_of_string existsb] in Hc.
      now apply orb_false_iff in Hc. }
    destruct Ha as [Ha Hc'].
    destruct s as [|c s]; [reflexivity|].
    cbn [comma_spaced].
    destruct (Ascii.eqb_spec c ",") as [->|Hne].
    + rewrite !prefix_cons. rewrite Ascii.eqb_sym, Ha. reflexivity.
    + rewrite !prefix_cons, (IH s Hc'). reflexivity.
Qed.

Lemma contains_Ref_comma_spaced s :
  Py.contains "Ref" (comma_spaced s) = Py.contains "Ref" s.
Proof.
  induction s as [|c s IH]; [reflexivity|].
  cbn [Py.contains].
  rewrite <- (prefix_comma_spaced "Ref" (String c s)) by reflexivity.
  cbn [comma_spaced].
  destruct (Ascii.eqb c ","); cbn [Py.contains]; rewrite ?IH.
  - rewrite (prefix_cons "R" "ef" " "). reflexivity.
  - reflexivity.
Qed.

Lemma prefix_append s t : prefix s (s ++ t) = true.
Proof.
  induction s as [|c s IH]; [apply prefix_empty|].
  change (String c s ++ t) with (String c (s ++ t)).
  now rewrite prefix_cons, Ascii.eqb_refl.
Qed.

(** The characters of a separator that was found are passed over. *)
Lemma split_from_skip sep s t :
  Py.split_from sep (String.length s) (s ++ t) = Py.split_from sep 0 t.
Proof. induction s as [|c s IH]; [reflexivity|exact IH]. Qed.

Lemma split_from_found sep_head sep_tail t :
  Py.split_from (String sep_head sep_tail) 0 (String sep_head sep_tail ++ t)
  = "" :: Py.split_from (String sep_head sep_tail) 0 t.
Proof.
  pose proof (prefix_append (String sep_head sep_tail) t) as Hp.
  change (String sep_head sep_tail ++ t)
    with (String sep_head (sep_tail ++ t)) in *.
  cbn [Py.split_from]. rewrite Hp.
  change (String.length (String sep_head sep_tail) - 1)
    with (String.length sep_tail - 0).
  rewrite Nat.sub_0_r, split_from_skip. reflexivity.
Qed.

(** The code that follows [?bibcode=] in a link. *)
Lemma bibcode_of_href_after pre code :
  Py.contains "?" pre = false ->
  Py.contains "?bibcode=" code = false ->
  bibcode_of_href (pre ++ "?bibcode=" ++ code) = code.
Proof.
  intros Hpre Hcode. unfold bibcode_of_href, Py.split.
  assert (H : Py.split_from "?bibcode=" 0 (pre ++ "?bibcode=" ++ code)
              = [pre; code]).
  { induction pre as [|c pre IH].
    - change ("" ++ "?bibcode=" ++ code) with ("?bibcode=" ++ code).
      rewrite split_from_found.
      fold (Py.split "?bibcode=" code). now rewrite (split_absent _ _ Hcode).
    - cbn [Py.contains] in Hpre. apply orb_false_iff in Hpre as [Hp Hc].
      rewrite prefix_char in Hp.
      change (String c pre ++ "?bibcode=" ++ code)
        with (String c (pre ++ "?bibcode=" ++ code)).
      cbn [Py.split_from].
      rewrite prefix_cons, Hp. cbn [andb].
      rewrite (IH Hc). reflexivity. }
  rewrite H. reflexivity.
Qed.

(* ================================================================== *)
(** * get_object_types: proofs *)

(** C4 as stated fails: a tooltip without [Ref] that lists two
    designators is not yielded as it is, a space follows its comma. *)
Lemma tooltip_commas_respaced :
  ~ (forall r tooltip,
        Bs4.get "title" (attrs_of (Bs4.element r)) = Some tooltip ->
        Py.contains "Ref" tooltip = false ->
        row_title r = OK tooltip).
Proof.
  intros H.
  specialize (H two_designators "[LSK98],[RRC99]" eq_refl eq_refl).
  discriminate H.
Qed.

(** C4, amended: the annotation is built from the tooltip with a space
    inserted after every comma.  With [Ref] in the tooltip, every [Ref] in
    that text is replaced by the code that follows [?bibcode=] in the link
    of the first anchor, in curly braces; without [Ref] the annotation is
    that text, which is the tooltip itself only when it has no comma. *)
Theorem annotation_of_marker (r : Bs4.located) (tooltip : string) :
  Bs4.get "title" (attrs_of (Bs4.element r)) = Some tooltip ->
  (Py.contains "Ref" tooltip = false ->
   row_title r = OK (comma_spaced tooltip) /\
   (Py.contains "," tooltip = false -> row_title r = OK tooltip)) /\
  (Py.contains "Ref" tooltip = true ->
   forall a others pre code,
     Bs4.find_all "a" (Bs4.element r) = a :: others ->
     Bs4.get "href" (attrs_of (Bs4.element a))
       = Some (pre ++ "?bibcode=" ++ code) ->
     Py.contains "?" pre = false ->
     Py.contains "?bibcode=" code = false ->
     row_title r
       = OK (Py.replace "Ref" ("{" ++ code ++ "}") (comma_spaced tooltip))).
Proof.
  intros Htitle. unfold row_title. rewrite Htitle.
  rewrite comma_join_spaced, contains_Ref_comma_spaced.
  split.
  - intros ->. split; [reflexivity|].
    intros Hc. now rewrite comma_spaced_without_comma.
  - intros -> a others pre code Ha Hhref Hpre Hcode.
    rewrite Ha. cbn [getitem nth_error and_then].
    rewrite Hhref, bibcode_of_href_after by assumption.
    reflexivity.
Qed.

Lemma annotation_of_marker_witness :
  row_title two_designators = OK "[LSK98], [RRC99]" /\
  row_title linked_marker = OK "{2012ApJ...753L..35B}, HOPS".
Proof.
  split.
  - apply (proj1 (annotation_of_marker two_designators "[LSK98],[RRC99]"
                    eq_refl) eq_refl).
  - apply (proj2 (annotation_of_marker linked_marker "Ref,HOPS" eq_refl)
             eq_refl
             (Bs4.mkLocated []
                (sample_anchor "sim-ref?bibcode=2012ApJ...753L..35B"))
             [] "sim-ref" "2012ApJ...753L..35B");
      reflexivity.
Defined.

(** C10: with [Ref] in the tooltip and a first anchor whose link has no
    [?bibcode=], nothing is raised: the whole link stands for the code and
    is put in curly braces in the annotation that is yielded. *)
Theorem href_without_bibcode_used_whole
    (r a : Bs4.located) (others : list Bs4.located)
    (type_ tooltip href : string) :
  row_type r = OK type_ ->
  Bs4.get "title" (attrs_of (Bs4.element r)) = Some tooltip ->
  Py.contains "Ref" tooltip = true ->
  Bs4.find_all "a" (Bs4.element r) = a :: others ->
  Bs4.get "href" (attrs_of (Bs4.element a)) = Some href ->
  Py.contains "?bibcode=" href = false ->
  object_type_row r
  = OK (type_, Py.replace "Ref" ("{" ++ href ++ "}") (comma_join tooltip)).
Proof.
  intros Htype Htitle Href Ha Hhref Hno.
  unfold object_type_row, row_title.
  rewrite Htype, Htitle. cbn [and_then].
  rewrite (comma_join_spaced tooltip), contains_Ref_comma_spaced, Href, Ha.
  cbn [getitem nth_error and_then]. rewrite Hhref.
  unfold bibcode_of_href. rewrite (split_absent _ _ Hno). reflexivity.
Qed.

Lemma href_without_bibcode_used_whole_witness :
  object_type_row marker_without_bibcode = OK ("Y*O", "{sim-ref}, HOPS").
Proof.
  apply (href_without_bibcode_used_whole marker_without_bibcode
           (Bs4.mkLocated [] (sample_anchor "sim-ref"))
           [] "Y*O" "Ref,HOPS" "sim-ref"); reflexivity.
Defined.

(* ================================================================== *)
(** * Malformed answers: proofs *)

Lemma getitem_short {A} (l : list A) i :
  (List.length l <= i)%nat -> getitem l i = Raise IndexError.
Proof.
  intros H. unfold getitem. apply nth_error_None in H. now rewrite H.
Qed.

Lemma getitem_nth {A} (l : list A) i x :
  nth_error l i = Some x -> getitem l i = OK x.
Proof. intros H. unfold getitem. now rewrite H. Qed.

Lemma split_ws_blank line : blank line -> Py.split_ws line = [].
Proof.
  unfold blank.
  induction line as [|c line IH]; [reflexivity|].
  cbn [list_ascii_of_string forallb Py.split_ws].
  intros H. apply andb_true_iff in H as [Hc Hl]. rewrite Hc. now apply IH.
Qed.

Lemma findall_year_without line :
  without_year line -> Re.findall_year line = [].
Proof.
  unfold without_year, Re.findall_year.
  induction line as [|c line IH]; intros H; [reflexivity|].
  cbn [Re.findall_year_from].
  rewrite (H "" (String c line) eq_refl).
  apply IH. intros before after ->. apply (H (String c before)). reflexivity.
Qed.

(** Whatever is wrong with the answer, the error is that of an index out
    of range, and nothing is returned in its place. *)
Lemma parse_reference_malformed text :
  malformed_answer text -> parse_reference text = Raise IndexError.
Proof.
  unfold parse_reference.
  intros [Hlen|line Hline Hblank|line Hline Hyear].
  - rewrite getitem_short by lia. reflexivity.
  - rewrite (getitem_nth _ _ _ Hline). cbn [and_then].
    rewrite (split_ws_blank _ Hblank). reflexivity.
  - destruct (getitem (answer_lines text) 4) as [authors_line|e] eqn:H4.
    2:{ unfold getitem in H4.
        destruct (nth_error (answer_lines text) 4); now inversion H4. }
    cbn [and_then].
    destruct (Py.split_ws authors_line) as [|name rest]; [reflexivity|].
    cbn [getitem nth_error and_then].
    rewrite (getitem_nth _ _ _ Hline). cbn [and_then].
    rewrite (findall_year_without _ Hyear). reflexivity.
Qed.

Section Malformed.

Variable query_bibcode : string -> result string.
Variable detail_page : string -> result Bs4.node.

Lemma outcome_query_reference bibcode text :
  query_bibcode bibcode = OK text ->
  outcome (query_reference query_bibcode bibcode) = parse_reference text.
Proof.
  intros H. unfold query_reference.
  autorewrite with trace_db. rewrite H. reflexivity.
Qed.

(** A row that raises stops the generator: the rows before it have
    been yielded, the list is never built. *)
Lemma yield_rows_raises rs r e :
  In r rs -> object_type_row r = Raise e ->
  exists e', outcome (yield_rows rs) = Raise e'.
Proof.
  intros Hin Hr.
  induction rs as [|r0 rs IH]; [destruct Hin|].
  cbn [yield_rows]. autorewrite with trace_db.
  destruct (object_type_row r0) as [row|e0] eqn:Hr0; [|eauto].
  destruct Hin as [->|Hin]; [congruence|].
  destruct (IH Hin) as [e' He'].
  run_binds. rewrite He'. eauto.
Qed.

Lemma row_title_without_anchor r tooltip :
  Bs4.get "title" (attrs_of (Bs4.element r)) = Some tooltip ->
  Py.contains "Ref" tooltip = true ->
  Bs4.find_all "a" (Bs4.element r) = [] ->
  row_title r = Raise IndexError.
Proof.
  intros Htitle Href Ha. unfold row_title.
  rewrite Htitle, comma_join_spaced, contains_Ref_comma_spaced, Href, Ha.
  reflexivity.
Qed.

Lemma list_of_malformed identifier soup :
  detail_page identifier = OK soup ->
  malformed_page soup ->
  exists e, outcome (list_of detail_page (Suspended identifier)) = Raise e.
Proof.
  intros Hpage Hbad. unfold list_of.
  run_binds. rewrite Hpage. run_binds.
  destruct Hbad as [Hlen|table r tooltip Htable Hin Htitle Href Ha].
  - rewrite getitem_short by lia. eauto.
  - rewrite (getitem_nth _ _ _ Htable). run_binds.
    apply (yield_rows_raises _ r
             match row_type r with OK _ => IndexError | Raise e => e end);
      [assumption|].
    unfold object_type_row.
    rewrite (row_title_without_anchor r tooltip) by assumption.
    destruct (row_type r); reflexivity.
Qed.

(** C7: a bibliographic answer with fewer than five lines, with no
    author token on its fifth line or no parenthesized four-digit year
    on its fourth, makes [query_reference] raise; a detail page with
    fewer than four tables, or with a marker that has [Ref] in its
    tooltip and no anchor, makes the generator of [get_object_types]
    raise; and [generate_report], which calls both, catches neither: it
    raises as well. *)
Theorem malformed_answers_raise :
  (forall bibcode text,
      query_bibcode bibcode = OK text -> malformed_answer text ->
      outcome (query_reference query_bibcode bibcode) = Raise IndexError) /\
  (forall identifier soup,
      detail_page identifier = OK soup -> malformed_page soup ->
      exists e,
        outcome (list_of detail_page (Suspended identifier)) = Raise e) /\
  (forall fields text,
      query_bibcode (reference fields) = OK text -> malformed_answer text ->
      outcome (generate_report query_bibcode detail_page fields)
      = Raise IndexError) /\
  (forall fields identifier soup,
      all_types fields = Suspended identifier ->
      detail_page identifier = OK soup -> malformed_page soup ->
      exists e,
        outcome (generate_report query_bibcode detail_page fields)
        = Raise e).
Proof.
  split; [|split; [|split]].
  - intros bibcode text Hq Hbad.
    rewrite (outcome_query_reference _ _ Hq).
    now apply parse_reference_malformed.
  - apply list_of_malformed.
  - intros fields text Hq Hbad. unfold generate_report.
    rewrite outcome_bind, outcome_emit, outcome_bind.
    rewrite (outcome_query_reference _ _ Hq).
    now rewrite parse_reference_malformed.
  - intros fields identifier soup Hg Hpage Hbad. unfold generate_report.
    rewrite outcome_bind, outcome_emit, outcome_bind.
    destruct (outcome (query_reference query_bibcode (reference fields)))
      as [author|e]; [|eauto].
    rewrite !outcome_bind, !outcome_emit, Hg.
    destruct (list_of_malformed _ _ Hpage Hbad) as [e He].
    rewrite He. eauto.
Qed.

End Malformed.

Lemma malformed_answers_raise_witness :
  outcome (query_reference (fun _ => OK "References") "1999AJ....118..983R")
    = Raise IndexError /\
  (exists e,
      outcome (list_of (fun _ => OK page_with_one_table)
                 (Suspended "[RRC99] VLA 7")) = Raise e) /\
  outcome (generate_report (fun _ => OK "References")
             (fun _ => OK page_with_one_table)
             (sample_fields (Suspended "[RRC99] VLA 7")))
    = Raise IndexError /\
  (exists e,
      outcome (generate_report sample_query_bibcode
                 (fun _ => OK page_without_anchor)
                 (sample_fields (Suspended "[RRC99] VLA 7"))) = Raise e).
Proof.
  assert (Hbad : malformed_answer "References")
    by (apply too_few_lines; vm_compute; lia).
  split; [|split; [|split]].
  - apply (proj1 (malformed_answers_raise (fun _ => OK "References")
                    (fun _ => OK page_with_one_table))
             "1999AJ....118..983R" "References" eq_refl Hbad).
  - apply (proj1 (proj2 (malformed_answers_raise (fun _ => OK "References")
                           (fun _ => OK page_with_one_table)))
             "[RRC99] VLA 7" page_with_one_table eq_refl).
    apply too_few_tables. vm_compute. lia.
  - apply (proj1 (proj2 (proj2 (malformed_answers_raise
                                  (fun _ => OK "References")
                                  (fun _ => OK page_with_one_table))))
             (sample_fields (Suspended "[RRC99] VLA 7")) "References"
             eq_refl Hbad).
  - apply (proj2 (proj2 (proj2 (malformed_answers_raise
                                  sample_query_bibcode
                                  (fun _ => OK page_without_anchor))))
             (sample_fields (Suspended "[RRC99] VLA 7"))
             "[RRC99] VLA 7" page_without_anchor eq_refl eq_refl).
    eapply (ref_without_anchor page_without_anchor _ _ "Ref,HOPS").
    + reflexivity.
    + left. reflexivity.
    + reflexivity.
    + reflexivity.
    + reflexivity.
Defined.

(* ================================================================== *)
(** * query_reference: proofs *)

Lemma split_ws_cons_blank c s :
  Py.isspace c = true -> Py.split_ws (String c s) = Py.split_ws s.
Proof. intros H. cbn [Py.split_ws]. now rewrite H. Qed.

(** The token that ends at a blank or at the end of the line. *)
Lemma split_ws_token name rest :
  name <> "" -> no_blank name ->
  (rest = "" \/ exists c rest', rest = String c rest' /\ Py.isspace c = true) ->
  Py.split_ws (name ++ rest) = name :: Py.split_ws rest.
Proof.
  unfold no_blank.
  induction name as [|c name IH]; intros Hne Hnb Hrest; [congruence|].
  cbn [list_ascii_of_string forallb] in Hnb.
  apply andb_true_iff in Hnb as [Hc Hnb]. apply negb_true_iff in Hc.
  change (String c name ++ rest) with (String c (name ++ rest)).
  cbn [Py.split_ws]. rewrite Hc.
  destruct name as [|c' name].
  - cbn [append].
    destruct Hrest as [->|(c1 & rest' & -> & Hsp)]; [reflexivity|].
    now rewrite Hsp.
  - change (String c' name ++ rest) with (String c' (name ++ rest)).
    cbn [list_ascii_of_string forallb] in Hnb.
    pose proof Hnb as Hnb'.
    apply andb_true_iff in Hnb' as [Hc' _]. apply negb_true_iff in Hc'.
    rewrite Hc'.
    change (String c' (name ++ rest)) with (String c' name ++ rest).
    rewrite IH; [reflexivity|easy|exact Hnb|exact Hrest].
Qed.

Lemma split_ws_first line name :
  first_token line name ->
  exists more, Py.split_ws line = name :: more.
Proof.
  intros (ws & rest & -> & Hws & Hne & Hnb & Hrest).
  exists (Py.split_ws rest).
  unfold blank in Hws.
  induction ws as [|c ws IH].
  - change ("" ++ name ++ rest) with (name ++ rest).
    now apply split_ws_token.
  - cbn [list_ascii_of_string forallb] in Hws.
    apply andb_true_iff in Hws as [Hc Hws].
    change (String c ws ++ name ++ rest) with (String c (ws ++ name ++ rest)).
    rewrite split_ws_cons_blank by exact Hc. now apply IH.
Qed.

Lemma findall_year_first line d1 d2 d3 d4 :
  first_year line d1 d2 d3 d4 ->
  exists more,
    Re.findall_year line
    = String d1 (String d2 (String d3 (String d4 ""))) :: more.
Proof.
  intros (before & after & -> & Hdig & Hfirst).
  unfold Re.findall_year.
  induction before as [|c before IH].
  - cbn [append Re.findall_year_from Re.match_year].
    rewrite !Ascii.eqb_refl.
    apply andb_true_iff in Hdig as [Hdig H4].
    apply andb_true_iff in Hdig as [Hdig H3].
    apply andb_true_iff in Hdig as [H1 H2].
    rewrite H1, H2, H3, H4. cbn [andb]. eauto.
  - cbn [no_year_starts] in Hfirst.
    change (String c before ++ ?x) with (String c (before ++ x)).
    cbn [Re.findall_year_from].
    change (String c (before ++ ?x)) with (String c before ++ x).
    destruct (Re.match_year (String c before ++ _)); [discriminate|].
    now apply IH.
Qed.

(** Capitalizing brings no hyphen in and takes none out. *)
Lemma upper_char_hyphen c :
  Ascii.eqb "-" (Py.upper_char c) = Ascii.eqb "-" c.
Proof.
  destruct c as [[] [] [] [] [] [] [] []]; reflexivity.
Qed.

Lemma lower_char_hyphen c :
  Ascii.eqb "-" (Py.lower_char c) = Ascii.eqb "-" c.
Proof.
  destruct c as [[] [] [] [] [] [] [] []]; reflexivity.
Qed.

Lemma upper_char_not_lower c : Py.islower (Py.upper_char c) = false.
Proof.
  destruct c as [[] [] [] [] [] [] [] []]; reflexivity.
Qed.

Lemma lower_char_not_upper c : Py.isupper (Py.lower_char c) = false.
Proof.
  destruct c as [[] [] [] [] [] [] [] []]; reflexivity.
Qed.

Lemma mem_char_cons d c s :
  Py.mem_char d (String c s) = Ascii.eqb d c || Py.mem_char d s.
Proof. reflexivity. Qed.

Lemma no_hyphen_lower s : no_hyphen s -> no_hyphen (Py.lower s).
Proof.
  unfold no_hyphen, Py.lower.
  induction s as [|c s IH]; [reflexivity|].
  cbn [Py.map_chars]. rewrite !mem_char_cons, lower_char_hyphen.
  intros H. apply orb_false_iff in H as [-> H]. now apply IH.
Qed.

Lemma no_hyphen_capitalize s : no_hyphen s -> no_hyphen (Py.capitalize s).
Proof.
  destruct s as [|c s]; [reflexivity|].
  unfold no_hyphen. cbn [Py.capitalize].
  rewrite !mem_char_cons, upper_char_hyphen.
  intros H. apply orb_false_iff in H as [-> H]. now apply no_hyphen_lower.
Qed.

Lemma lower_no_upper s c :
  In c (list_ascii_of_string (Py.lower s)) -> Py.isupper c = false.
Proof.
  unfold Py.lower.
  induction s as [|c0 s IH]; [intros []|].
  cbn [Py.map_chars list_ascii_of_string].
  intros [<-|Hin]; [apply lower_char_not_upper|now apply IH].
Qed.

(** The fields of a split on a hyphen hold no hyphen. *)
Lemma split_hyphen_fields s : Forall no_hyphen (Py.split "-" s).
Proof.
  unfold Py.split.
  induction s as [|c s IH]; [repeat constructor|].
  cbn [Py.split_from]. rewrite prefix_char.
  change (String.length "-" - 1) with 0.
  destruct (Ascii.eqb "-" c) eqn:Hc.
  - constructor; [reflexivity|exact IH].
  - destruct (Py.split_from "-" 0 s) as [|h t]; cbn [Py.cons_head].
    + repeat constructor. unfold no_hyphen.
      now rewrite mem_char_cons, Hc.
    + inversion IH as [|? ? Hh Ht]; subst.
      constructor; [|exact Ht].
      unfold no_hyphen. now rewrite mem_char_cons, Hc.
Qed.

Lemma split_hyphen_single f :
  no_hyphen f -> Py.split_from "-" 0 f = [f].
Proof.
  unfold no_hyphen.
  induction f as [|c f IH]; [reflexivity|].
  rewrite mem_char_cons. intros H. apply orb_false_iff in H as [Hc H].
  cbn [Py.split_from]. rewrite prefix_char, Hc, (IH H). reflexivity.
Qed.

Lemma split_hyphen_app f rest :
  no_hyphen f ->
  Py.split_from "-" 0 (f ++ String "-" rest)
  = f :: Py.split_from "-" 0 rest.
Proof.
  unfold no_hyphen.
  induction f as [|c f IH].
  - intros _. cbn [append Py.split_from]. rewrite prefix_char. reflexivity.
  - rewrite mem_char_cons. intros H. apply orb_false_iff in H as [Hc H].
    change (String c f ++ ?x) with (String c (f ++ x)).
    cbn [Py.split_from]. rewrite prefix_cons, Hc, (IH H). reflexivity.
Qed.

(** Splitting what was joined gives the fields back. *)
Lemma split_join_hyphen l :
  l <> [] -> Forall no_hyphen l -> Py.split "-" (Py.join "-" l) = l.
Proof.
  unfold Py.split.
  induction l as [|f l IH]; [congruence|].
  intros _ Hall. inversion Hall as [|? ? Hf Hl]; subst.
  destruct l as [|f' l].
  - now apply split_hyphen_single.
  - rewrite join_cons by easy.
    change ("-" ++ ?x) with (String "-" x).
    rewrite split_hyphen_app by assumption.
    rewrite IH; [reflexivity|easy|assumption].
Qed.

Lemma Forall_map_capitalize l :
  Forall no_hyphen l -> Forall no_hyphen (map Py.capitalize l).
Proof.
  induction 1; constructor; [now apply no_hyphen_capitalize|assumption].
Qed.

Lemma parse_reference_ok text citation :
  parse_reference text = OK citation ->
  exists authors_line name more year,
    nth_error (answer_lines text) 4 = Some authors_line /\
    Py.split_ws authors_line = name :: more /\
    citation = first_author name ++ year.
Proof.
  unfold parse_reference.
  destruct (nth_error (answer_lines text) 4) as [authors_line|] eqn:H4;
    [rewrite (getitem_nth _ _ _ H4)|unfold getitem at 1; rewrite H4];
    cbn [and_then]; [|easy].
  destruct (Py.split_ws authors_line) as [|name more] eqn:Hsplit;
    [easy|].
  change (getitem (name :: more) 0) with (OK name). cbn [and_then].
  destruct (getitem (answer_lines text) 3) as [year_line|];
    cbn [and_then]; [|easy].
  destruct (getitem (Re.findall_year year_line) 0) as [year|];
    cbn [and_then]; [|easy].
  intros [= <-]. eauto 8.
Qed.

(** ** The model's characters against the alphabet *)

Lemma upper_char_uppercased c : Py.upper_char c = uppercased c.
Proof.
  destruct c as [[] [] [] [] [] [] [] []]; reflexivity.
Qed.

Lemma lower_char_lowercased c : Py.lower_char c = lowercased c.
Proof.
  destruct c as [[] [] [] [] [] [] [] []]; reflexivity.
Qed.

Lemma lower_all_lowercased s : Py.lower s = all_lowercased s.
Proof.
  unfold Py.lower.
  induction s as [|c s IH]; [reflexivity|].
  cbn [Py.map_chars all_lowercased]. now rewrite lower_char_lowercased, IH.
Qed.

Lemma capitalize_title_cased s : Py.capitalize s = title_cased s.
Proof.
  destruct s as [|c s]; [reflexivity|].
  cbn [Py.capitalize title_cased].
  now rewrite upper_char_uppercased, lower_all_lowercased.
Qed.

(** No capital is left by lower-casing. *)
Lemma lowercased_not_capital c :
  existsb (Ascii.eqb (lowercased c)) (list_ascii_of_string uppercase_letters)
  = false.
Proof.
  destruct c as [[] [] [] [] [] [] [] []]; reflexivity.
Qed.

Lemma all_lowercased_no_capital s u :
  In u (list_ascii_of_string (all_lowercased s)) ->
  ~ In u (list_ascii_of_string uppercase_letters).
Proof.
  induction s as [|c s IH]; [intros []|].
  cbn [all_lowercased list_ascii_of_string].
  intros [<-|Hin]; [|now apply IH].
  intros Hup.
  assert (H : existsb (Ascii.eqb (lowercased c))
                (list_ascii_of_string uppercase_letters) = true).
  { apply existsb_exists. exists (lowercased c).
    split; [exact Hup|apply Ascii.eqb_refl]. }
  rewrite lowercased_not_capital in H. discriminate.
Qed.

(** ** Segments *)

Lemma hyphen_free_no_hyphen s : hyphen_free s -> no_hyphen s.
Proof.
  unfold hyphen_free, no_hyphen.
  induction s as [|c s IH]; [reflexivity|].
  cbn [list_ascii_of_string forallb]. rewrite mem_char_cons.
  intros H. apply andb_true_iff in H as [Hc Hs].
  apply negb_true_iff in Hc. rewrite Ascii.eqb_sym, Hc.
  now apply IH.
Qed.

Lemma join_hyphenated l : Py.join "-" l = hyphenated l.
Proof.
  unfold Py.join.
  induction l as [|x l IH]; [reflexivity|].
  cbn [concat hyphenated]. destruct l as [|y l]; [reflexivity|].
  now rewrite IH.
Qed.

Lemma hyphenated_cons x y l :
  hyphenated (x :: y :: l) = x ++ String "-" (hyphenated (y :: l)).
Proof. reflexivity. Qed.

(** Splitting the hyphenated segments gives the segments back. *)
Lemma split_hyphenated l :
  l <> [] -> Forall hyphen_free l -> Py.split "-" (hyphenated l) = l.
Proof.
  unfold Py.split.
  induction l as [|x l IH]; [congruence|].
  intros _ Hall. inversion Hall as [|? ? Hx Hl]; subst.
  destruct l as [|y l].
  - cbn [hyphenated]. now apply split_hyphen_single, hyphen_free_no_hyphen.
  - rewrite hyphenated_cons.
    rewrite split_hyphen_app by now apply hyphen_free_no_hyphen.
    rewrite IH; [reflexivity|easy|assumption].
Qed.

(** Line 96 of the script on a surname given by its segments. *)
Lemma first_author_segments segments :
  Forall hyphen_free segments ->
  first_author (hyphenated segments) = hyphenated (map title_cased segments).
Proof.
  intros Hall. unfold first_author.
  destruct segments as [|x l]; [reflexivity|].
  rewrite split_hyphenated by easy.
  rewrite join_hyphenated. f_equal.
  apply map_ext. intros s. apply capitalize_title_cased.
Qed.

(** The citation, given the token of the fifth line and the year of the
    fourth. *)
Lemma parse_reference_citation text authors_line year_line name d1 d2 d3 d4 :
  nth_error (answer_lines text) 4 = Some authors_line ->
  first_token authors_line name ->
  nth_error (answer_lines text) 3 = Some year_line ->
  first_year year_line d1 d2 d3 d4 ->
  parse_reference text = OK (first_author name ++ String d3 (String d4 "")).
Proof.
  intros H4 Hname H3 Hyear. unfold parse_reference.
  rewrite (getitem_nth _ _ _ H4). cbn [and_then].
  destruct (split_ws_first _ _ Hname) as [more ->].
  cbn [getitem nth_error and_then].
  rewrite (getitem_nth _ _ _ H3). cbn [and_then].
  destruct (findall_year_first _ _ _ _ _ Hyear) as [years ->].
  reflexivity.
Qed.

Lemma query_reference_citation (query_bibcode : string -> result string)
      bibcode text authors_line year_line name d1 d2 d3 d4 :
  query_bibcode bibcode = OK text ->
  nth_error (answer_lines text) 4 = Some authors_line ->
  first_token authors_line name ->
  nth_error (answer_lines text) 3 = Some year_line ->
  first_year year_line d1 d2 d3 d4 ->
  outcome (query_reference query_bibcode bibcode)
  = OK (first_author name ++ String d3 (String d4 "")).
Proof.
  intros Hq H4 Hname H3 Hyear.
  unfold query_reference. run_binds. rewrite Hq. run_binds.
  apply (parse_reference_citation text authors_line year_line name
           d1 d2 d3 d4); assumption.
Qed.

(** C5: when the fifth line of the answer starts with the surname token
    and the fourth holds the year in parentheses, [query_reference]
    returns the segments of the token between hyphens, each in title
    case (its first character upper-cased, the later ones lower-cased,
    letter for letter of the alphabet), with hyphens between them again,
    followed by the last two digits of the year.  The answer quoted in
    the source gives [Reipurth99]; every answer whose fifth line starts
    with [MORALES-CALDERON] and whose fourth line has [(2011)] as its
    first year gives [Morales-Calderon11], also when the token comes in
    small letters; [CUTRI] and [(2003)] give [Cutri03]. *)
Theorem citation_of_answer :
  (forall (query_bibcode : string -> result string)
          bibcode text authors_line year_line segments d1 d2 d3 d4,
      query_bibcode bibcode = OK text ->
      nth_error (answer_lines text) 4 = Some authors_line ->
      first_token authors_line (hyphenated segments) ->
      Forall hyphen_free segments -> Forall ascii_only segments ->
      nth_error (answer_lines text) 3 = Some year_line ->
      first_year year_line d1 d2 d3 d4 ->
      outcome (query_reference query_bibcode bibcode)
      = OK (hyphenated (map title_cased segments)
            ++ String d3 (String d4 ""))) /\
  outcome (query_reference (fun _ => OK reipurth_text) "1999AJ....118..983R")
    = OK "Reipurth99" /\
  (forall (query_bibcode : string -> result string)
          text authors_line year_line,
      query_bibcode "2011ApJ...733...50M" = OK text ->
      nth_error (answer_lines text) 4 = Some authors_line ->
      first_token authors_line "MORALES-CALDERON"
      \/ first_token authors_line "morales-calderon" ->
      nth_error (answer_lines text) 3 = Some year_line ->
      first_year year_line "2" "0" "1" "1" ->
      outcome (query_reference query_bibcode "2011ApJ...733...50M")
      = OK "Morales-Calderon11") /\
  (forall (query_bibcode : string -> result string)
          text authors_line year_line,
      query_bibcode "2003yCat.2246....0C" = OK text ->
      nth_error (answer_lines text) 4 = Some authors_line ->
      first_token authors_line "CUTRI" ->
      nth_error (answer_lines text) 3 = Some year_line ->
      first_year year_line "2" "0" "0" "3" ->
      outcome (query_reference query_bibcode "2003yCat.2246....0C")
      = OK "Cutri03").
Proof.
  split; [|split; [|split]].
  - intros query_bibcode bibcode text authors_line year_line segments
           d1 d2 d3 d4 Hq H4 Hname Hfree _ H3 Hyear.
    rewrite (query_reference_citation query_bibcode bibcode text authors_line
               year_line (hyphenated segments) d1 d2 d3 d4) by assumption.
    now rewrite first_author_segments.
  - vm_compute. reflexivity.
  - intros query_bibcode text authors_line year_line Hq H4 [Hname|Hname]
           H3 Hyear;
      rewrite (query_reference_citation query_bibcode _ text authors_line
                 year_line _ _ _ _ _ Hq H4 Hname H3 Hyear);
      reflexivity.
  - intros query_bibcode text authors_line year_line Hq H4 Hname H3 Hyear.
    rewrite (query_reference_citation query_bibcode _ text authors_line
               year_line _ _ _ _ _ Hq H4 Hname H3 Hyear).
    reflexivity.
Qed.

Lemma citation_of_answer_witness :
  outcome (query_reference (fun _ => OK reipurth_text) "1999AJ....118..983R")
  = OK "Reipurth99" /\
  outcome (query_reference
             (fun _ => OK (answer_with "Astrophys. J., 733, 50 (2011)"
                                       "morales-calderon m. and others"))
             "2011ApJ...733...50M")
  = OK "Morales-Calderon11".
Proof.
  split.
  - apply (proj1 citation_of_answer (fun _ => OK reipurth_text)
             "1999AJ....118..983R" reipurth_text
             "REIPURTH B., RODRIGUEZ L.F. and CHINI R."
             "Astron. J., 118, 983-989 (1999)"
             ["REIPURTH"] "1"%char "9"%char "9"%char "9"%char).
    + reflexivity.
    + vm_compute. reflexivity.
    + exists "", " B., RODRIGUEZ L.F. and CHINI R.".
      split; [reflexivity|]. split; [reflexivity|].
      split; [discriminate|]. split; [reflexivity|].
      right. eexists _, _. split; reflexivity.
    + repeat constructor.
    + repeat constructor.
    + vm_compute. reflexivity.
    + exists "Astron. J., 118, 983-989 ", "".
      split; [reflexivity|]. split; reflexivity.
  - apply (proj1 citation_of_answer
             (fun _ => OK (answer_with "Astrophys. J., 733, 50 (2011)"
                                       "morales-calderon m. and others"))
             "2011ApJ...733...50M"
             (answer_with "Astrophys. J., 733, 50 (2011)"
                          "morales-calderon m. and others")
             "morales-calderon m. and others"
             "Astrophys. J., 733, 50 (2011)"
             ["morales"; "calderon"] "2"%char "0"%char "1"%char "1"%char).
    + reflexivity.
    + vm_compute. reflexivity.
    + exists "", " m. and others".
      split; [reflexivity|]. split; [reflexivity|].
      split; [discriminate|]. split; [reflexivity|].
      right. eexists _, _. split; reflexivity.
    + repeat constructor.
    + repeat constructor.
    + vm_compute. reflexivity.
    + exists "Astrophys. J., 733, 50 ", "".
      split; [reflexivity|]. split; reflexivity.
Defined.

(** C9: whatever surname token the answer holds, the surname of the
    citation is made of the token's segments between hyphens, one for
    one, each with its first character upper-cased and every later
    character lower-cased; the two character maps of the script are the
    alphabet's, so that no capital survives after the first position of
    a segment: [McDONALD] comes out as [Mcdonald], and
    [MORALES-CALDERON] as [Morales-Calderon]. *)
Theorem surname_segments_capitalized :
  (forall c,
      (nat_of_ascii c < 128)%nat ->
      Py.upper_char c = uppercased c /\ Py.lower_char c = lowercased c) /\
  (forall segments,
      Forall hyphen_free segments -> Forall ascii_only segments ->
      first_author (hyphenated segments)
      = hyphenated (map title_cased segments)) /\
  (forall c rest u,
      hyphen_free (String c rest) -> ascii_only (String c rest) ->
      first_author (String c rest) = String (uppercased c) (all_lowercased rest)
      /\ (In u (list_ascii_of_string (all_lowercased rest)) ->
          ~ In u (list_ascii_of_string uppercase_letters))) /\
  (forall text citation authors_line segments,
      parse_reference text = OK citation ->
      nth_error (answer_lines text) 4 = Some authors_line ->
      first_token authors_line (hyphenated segments) ->
      Forall hyphen_free segments -> Forall ascii_only segments ->
      exists year,
        citation = hyphenated (map title_cased segments) ++ year) /\
  first_author "McDONALD" = "Mcdonald" /\
  first_author "MORALES-CALDERON" = "Morales-Calderon" /\
  first_author "morales-calderon" = "Morales-Calderon" /\
  first_author "o-McDONALD-y" = "O-Mcdonald-Y".
Proof.
  split; [|split; [|split; [|split]]].
  - intros c _. split;
      [apply upper_char_uppercased|apply lower_char_lowercased].
  - intros segments Hfree _. now apply first_author_segments.
  - intros c rest u Hfree _. split.
    + apply (first_author_segments [String c rest]). now constructor.
    + apply all_lowercased_no_capital.
  - intros text citation authors_line segments Hok H4 Hname Hfree _.
    destruct (parse_reference_ok _ _ Hok)
      as (line & name & more & year & H4' & Hsplit & ->).
    rewrite H4 in H4'. injection H4' as <-.
    destruct (split_ws_first _ _ Hname) as [more' Hsplit'].
    rewrite Hsplit' in Hsplit. injection Hsplit as <- _.
    exists year. now rewrite first_author_segments.
  - repeat split; reflexivity.
Qed.

Lemma surname_segments_capitalized_witness :
  first_author "mORALES-cALDERON" = "Morales-Calderon" /\
  (Py.upper_char "r" = "R"%char /\ Py.lower_char "R" = "r"%char) /\
  exists year, "Reipurth99" = "Reipurth" ++ year.
Proof.
  split; [|split].
  - apply (proj1 (proj2 surname_segments_capitalized)
             ["mORALES"; "cALDERON"]); repeat constructor.
  - apply (proj1 surname_segments_capitalized "r"%char). vm_compute. lia.
  - apply (proj1 (proj2 (proj2 (proj2 surname_segments_capitalized)))
             reipurth_text "Reipurth99"
             "REIPURTH B., RODRIGUEZ L.F. and CHINI R." ["REIPURTH"]).
    + vm_compute. reflexivity.
    + vm_compute. reflexivity.
    + exists "", " B., RODRIGUEZ L.F. and CHINI R.".
      split; [reflexivity|]. split; [reflexivity|].
      split; [discriminate|]. split; [reflexivity|].
      right. eexists _, _. split; reflexivity.
    + repeat constructor.
    + repeat constructor.
Defined.


(* ================================================================== *)
(** * get_output_filename: proofs *)

Lemma length_append (a b : string) :
  String.length (a ++ b) = String.length a + String.length b.
Proof. induction a as [|c a IH]; simpl; congruence. Qed.

(** ** Floats *)

Lemma signbit_nonneg (x : float) : signbit x = false -> (0 <= value x)%Q.
Proof.
  destruct x as [|q]; cbn [signbit value]; [discriminate|].
  intros H. apply negb_false_iff in H. now apply Qle_bool_iff.
Qed.

Lemma signbit_positive (x : float) : (0 < value x)%Q -> signbit x = false.
Proof.
  destruct x as [|q]; cbn [signbit value]; intros H.
  - exfalso. revert H. apply Qlt_irrefl.
  - apply negb_false_iff, Qle_bool_iff. now apply Qlt_le_weak.
Qed.

Lemma signbit_abs (x : float) : signbit (float_abs x) = false.
Proof.
  unfold float_abs. cbn [signbit].
  apply negb_false_iff, Qle_bool_iff, Qabs_nonneg.
Qed.

(** Of the floats that are not below zero, only [-0.0] carries a sign. *)
Lemma signbit_not_negative_zero (x : float) :
  (0 <= value x)%Q -> x <> NegZero -> signbit x = false.
Proof.
  destruct x as [|q]; cbn [signbit value]; intros H Hx; [congruence|].
  now apply negb_false_iff, Qle_bool_iff.
Qed.

(** Truncation of a non-negative value below [n]. *)
Lemma int_bounds (x : float) (n : Z) :
  (0 <= value x)%Q -> (value x < inject_Z n)%Q -> (0 <= int x < n)%Z.
Proof.
  intros H0 Hn. unfold int.
  apply Qle_bool_iff in H0 as Hb. rewrite Hb.
  split.
  - change 0%Z with (Qfloor 0). now apply Qfloor_resp_le.
  - rewrite Zlt_Qlt. eapply Qle_lt_trans; [apply Qfloor_le|exact Hn].
Qed.

Lemma int_in_unit (x : float) (n : Z) :
  (0 <= n)%Z -> in_unit n (value x) -> int x = n.
Proof.
  intros Hn [Hlo Hhi].
  assert (H0 : (0 <= value x)%Q).
  { eapply Qle_trans; [|exact Hlo].
    change 0%Q with (inject_Z 0). now rewrite <- Zle_Qle. }
  unfold int. apply Qle_bool_iff in H0 as Hb. rewrite Hb.
  assert (H1 : (n <= Qfloor (value x))%Z).
  { rewrite <- (Qfloor_Z n). now apply Qfloor_resp_le. }
  assert (H2 : (Qfloor (value x) < n + 1)%Z).
  { rewrite Zlt_Qlt. eapply Qle_lt_trans; [apply Qfloor_le|exact Hhi]. }
  lia.
Qed.

(** Rounding stays between the floor and the floor plus one. *)
Lemma round_half_even_floor (x : Q) :
  (Qfloor x <= round_half_even x <= Qfloor x + 1)%Z.
Proof.
  unfold round_half_even.
  destruct (Qcompare _ _); [destruct (Z.even _)|..]; lia.
Qed.

Lemma round_half_even_bounds (x : Q) (n : Z) :
  (0 <= x)%Q -> (x < inject_Z n)%Q -> (0 <= round_half_even x <= n)%Z.
Proof.
  intros H0 Hn.
  pose proof (round_half_even_floor x) as Hr.
  assert (H1 : (0 <= Qfloor x)%Z)
    by (change 0%Z with (Qfloor 0); now apply Qfloor_resp_le).
  assert (H2 : (Qfloor x < n)%Z).
  { rewrite Zlt_Qlt. eapply Qle_lt_trans; [apply Qfloor_le|exact Hn]. }
  lia.
Qed.

(** Within half a unit of an integer, rounding gives that integer. *)
Lemma round_half_even_near (x : Q) (n : Z) :
  (inject_Z n - (1 # 2) < x)%Q -> (x < inject_Z n + (1 # 2))%Q ->
  round_half_even x = n.
Proof.
  intros Hlo Hhi.
  pose proof (Qfloor_le x) as Hf1. pose proof (Qlt_floor x) as Hf2.
  rewrite inject_Z_plus in Hf2. change (inject_Z 1) with 1%Q in Hf2.
  assert (H1 : (Qfloor x <= n)%Z).
  { apply Z.lt_succ_r. rewrite Zlt_Qlt. unfold Z.succ.
    rewrite inject_Z_plus. change (inject_Z 1) with 1%Q.
    revert Hlo Hhi Hf1 Hf2.
    generalize (inject_Z (Qfloor x)) (inject_Z n). intros; lra. }
  assert (H2 : (n <= Qfloor x + 1)%Z).
  { apply Z.lt_succ_r. rewrite Zlt_Qlt. unfold Z.succ.
    rewrite !inject_Z_plus. change (inject_Z 1) with 1%Q.
    revert Hlo Hhi Hf1 Hf2.
    generalize (inject_Z (Qfloor x)) (inject_Z n). intros; lra. }
  unfold round_half_even.
  destruct (Z.eq_dec (Qfloor x) n) as [Heq|Hne].
  - rewrite Heq in *.
    destruct (Qcompare_spec (x - inject_Z n) (1 # 2)) as [He|Hl|Hg];
      [exfalso|reflexivity|exfalso];
      revert Hhi; [revert He|revert Hg]; generalize (inject_Z n);
      intros; lra.
  - assert (Heq : Qfloor x = (n - 1)%Z) by lia.
    rewrite Heq in *.
    destruct (Qcompare_spec (x - inject_Z (n - 1)) (1 # 2)) as [He|Hl|Hg];
      [exfalso|exfalso|lia];
      unfold Z.sub in *; rewrite inject_Z_plus, inject_Z_opp in *;
      change (inject_Z 1) with 1%Q in *;
      revert Hlo; [revert He|revert Hl]; generalize (inject_Z n);
      intros; lra.
Qed.

Lemma in_range (lo hi : nat) (n : Z) :
  (Z.of_nat lo <= n < Z.of_nat (lo + hi))%Z ->
  In n (map Z.of_nat (seq lo hi)).
Proof.
  intros H. apply in_map_iff. exists (Z.to_nat n).
  split; [lia|]. apply in_seq. lia.
Qed.

(** Below a hundred, padding to width two gives the two digits. *)
Lemma str_two_digits (n : Z) :
  (0 <= n < 100)%Z ->
  zeros (2 - String.length (str_of_nat n)) ++ str_of_nat n = two_digits n /\
  String.length (str_of_nat n) <= 2.
Proof.
  intros H.
  assert (Hall : forallb
            (fun n => String.eqb (zeros (2 - String.length (str_of_nat n))
                                  ++ str_of_nat n) (two_digits n)
                      && (String.length (str_of_nat n) <=? 2)%nat)
            (map Z.of_nat (seq 0 100)) = true) by (vm_compute; reflexivity).
  rewrite forallb_forall in Hall.
  specialize (Hall n (in_range 0 100 n H)).
  apply andb_true_iff in Hall as [H1 H2].
  apply String.eqb_eq in H1. apply Nat.leb_le in H2. now split.
Qed.

(** Below a thousand, padding to width three gives the three digits. *)
Lemma str_three_digits (n : Z) :
  (0 <= n < 1000)%Z -> zfill 3 (str_of_nat n) = three_digits n.
Proof.
  intros H.
  assert (Hall : forallb
            (fun n => String.eqb (zfill 3 (str_of_nat n)) (three_digits n))
            (map Z.of_nat (seq 0 1000)) = true) by (vm_compute; reflexivity).
  rewrite forallb_forall in Hall.
  apply String.eqb_eq, Hall, (in_range 0 1000 n H).
Qed.

Lemma format_02_digits (n : Z) :
  (0 <= n < 100)%Z -> format_02 n = two_digits n.
Proof.
  intros H. unfold format_02, pad_signed, zfill.
  replace (n <? 0)%Z with false by (symmetry; apply Z.ltb_ge; lia).
  rewrite Z.abs_eq by lia. now apply str_two_digits.
Qed.

Lemma format_06_3f_digits (x : float) :
  signbit x = false ->
  (Qabs (value x) * inject_Z 1000 < inject_Z 99999)%Q ->
  format_06_3f x = seconds_field (value x).
Proof.
  intros Hb Hx. unfold format_06_3f, seconds_field.
  rewrite Hb. cbn [pad_signed].
  set (r := round_half_even (Qabs (value x) * inject_Z 1000)).
  assert (Hr : (0 <= r <= 99999)%Z).
  { apply round_half_even_bounds; [|exact Hx].
    apply Qmult_le_0_compat; [apply Qabs_nonneg|easy]. }
  assert (Hq : (0 <= r / 1000 < 100)%Z).
  { split; [apply Z.div_pos; lia|apply Z.div_lt_upper_bound; lia]. }
  assert (Hm : (0 <= r mod 1000 < 1000)%Z) by (apply Z.mod_pos_bound; lia).
  destruct (str_two_digits _ Hq) as [H2 Hlen].
  rewrite (str_three_digits _ Hm).
  unfold zfill. rewrite length_append.
  change (String.length ("." ++ three_digits (r mod 1000))) with 4.
  replace (6 - (String.length (str_of_nat (r / 1000)) + 4))
    with (2 - String.length (str_of_nat (r / 1000))) by lia.
  rewrite <- append_assoc, H2. reflexivity.
Qed.

(** The three fields of one coordinate. *)
Lemma fmt_digits (a b c : float) :
  (0 <= value a)%Q -> (value a < 100)%Q ->
  (0 <= value b)%Q -> (value b < 100)%Q ->
  signbit c = false -> (value c < 60)%Q ->
  fmt a b c
  = two_digits (int a) ++ two_digits (int b) ++ seconds_field (value c).
Proof.
  intros Ha0 Ha Hb0 Hb Hc0 Hc. unfold fmt.
  rewrite (format_02_digits (int a)) by (apply (int_bounds a 100); assumption).
  rewrite (format_02_digits (int b)) by (apply (int_bounds b 100); assumption).
  rewrite format_06_3f_digits; [reflexivity|assumption|].
  rewrite (Qabs_pos (value c) (signbit_nonneg c Hc0)).
  change (inject_Z 1000) with 1000%Q. change (inject_Z 99999) with 99999%Q.
  lra.
Qed.

Lemma seconds_field_near (n : Z) (x : Q) :
  near_thousandths n (Qabs x) ->
  seconds_field x
  = two_digits (n / 1000) ++ "." ++ three_digits (n mod 1000).
Proof.
  unfold near_thousandths, seconds_field. intros H.
  apply Qabs_Qlt_condition in H as [Hlo Hhi].
  rewrite (round_half_even_near _ n); [reflexivity|..];
    revert Hlo Hhi;
    generalize (Qabs x * inject_Z 1000)%Q (inject_Z n); intros; lra.
Qed.

Lemma near_thousandths_bound (n : Z) (x : Q) :
  (n <= 99998)%Z -> near_thousandths n (Qabs x) ->
  (Qabs x * inject_Z 1000 < inject_Z 99999)%Q.
Proof.
  unfold near_thousandths. intros Hn H.
  apply Qabs_Qlt_condition in H as [_ Hhi].
  rewrite Zle_Qle in Hn. change (inject_Z 99998) with 99998%Q in Hn.
  change (inject_Z 99999) with 99999%Q.
  revert Hn Hhi.
  generalize (Qabs x * inject_Z 1000)%Q (inject_Z n); intros; lra.
Qed.

Lemma near_thousandths_abs (n : Z) (x : Q) :
  (0 <= x)%Q -> near_thousandths n x -> near_thousandths n (Qabs x).
Proof.
  unfold near_thousandths. intros H0 H. now rewrite (Qabs_pos x H0).
Qed.

Lemma in_unit_bounds (n : Z) (x : Q) :
  (0 <= n < 99)%Z -> in_unit n x -> (0 <= x)%Q /\ (x < 100)%Q.
Proof.
  intros [Hn0 Hn'] [Hlo Hhi].
  assert (Hn : (n <= 98)%Z) by lia. clear Hn'.
  rewrite Zle_Qle in Hn0, Hn.
  change (inject_Z 0) with 0%Q in Hn0. change (inject_Z 98) with 98%Q in Hn.
  rewrite inject_Z_plus in *. change (inject_Z 1) with 1%Q in *.
  revert Hn0 Hn Hlo Hhi. generalize (inject_Z n). intros. split; lra.
Qed.

(** The three fields of a coordinate whose components are known up to
    what the formats discard. *)
Lemma fmt_near (a b c : float) (na nb nc : Z) :
  (0 <= na < 99)%Z -> in_unit na (value a) ->
  (0 <= nb < 99)%Z -> in_unit nb (value b) ->
  (nc <= 99998)%Z -> signbit c = false -> near_thousandths nc (value c) ->
  fmt a b c
  = two_digits na ++ two_digits nb
    ++ two_digits (nc / 1000) ++ "." ++ three_digits (nc mod 1000).
Proof.
  intros Hna Ha Hnb Hb Hnc Hc0 Hc. unfold fmt.
  destruct (in_unit_bounds _ _ Hna Ha) as [Ha0 Ha1].
  destruct (in_unit_bounds _ _ Hnb Hb) as [Hb0 Hb1].
  apply near_thousandths_abs in Hc; [|now apply signbit_nonneg].
  rewrite (format_02_digits (int a)) by (apply (int_bounds a 100); assumption).
  rewrite (format_02_digits (int b)) by (apply (int_bounds b 100); assumption).
  rewrite (int_in_unit a na), (int_in_unit b nb) by (assumption || lia).
  rewrite format_06_3f_digits;
    [|assumption|now apply (near_thousandths_bound nc)].
  now rewrite (seconds_field_near nc).
Qed.

(** No digit is a minus sign. *)
Lemma digit_not_minus (n : Z) : digit n <> "-"%char.
Proof.
  unfold digit.
  pose proof (Z.mod_pos_bound n 10 ltac:(lia)) as H.
  assert (Hall : forallb
            (fun k => negb (Ascii.eqb (ascii_of_nat (48 + Z.to_nat k)) "-"))
            (map Z.of_nat (seq 0 10)) = true) by (vm_compute; reflexivity).
  rewrite forallb_forall in Hall.
  specialize (Hall (n mod 10)%Z (in_range 0 10 _ H)).
  apply negb_true_iff, Ascii.eqb_neq in Hall. exact Hall.
Qed.

(** C8: a right ascension that is a negative zero, as [-00 00 00] is
    read, has the components a valid coordinate has, and yet its name is
    not of the pattern: the seconds are written [-0.000], a minus sign
    where the first digit of the seconds belongs.  The declination, whose
    components pass through [abs], shows a negative zero as [00.000]. *)
Theorem negative_zero_right_ascension :
  valid_coords negative_zero_ra /\
  get_output_filename negative_zero_ra ".txt" = "J0000-0.000+100000.000.txt" /\
  ~ (exists hh mm ss rest,
        get_output_filename negative_zero_ra ".txt"
        = "J" ++ two_digits hh ++ two_digits mm ++ seconds_field ss ++ rest) /\
  valid_coords negative_zero_dec /\
  get_output_filename negative_zero_dec ".txt" = "J000000.000+000000.000.txt".
Proof.
  split; [|split; [|split; [|split]]].
  - split; vm_compute; try split; easy.
  - vm_compute. reflexivity.
  - intros (hh & mm & ss & rest & H).
    replace (get_output_filename negative_zero_ra ".txt")
      with "J0000-0.000+100000.000.txt" in H by (vm_compute; reflexivity).
    unfold two_digits, seconds_field in H. cbn [append] in H.
    injection H as _ _ _ _ H _. symmetry in H.
    now apply digit_not_minus in H.
  - split; vm_compute; try split; easy.
  - vm_compute. reflexivity.
Qed.

(** X26: the name of coordinates whose right-ascension seconds carry no
    sign is [J], the hours and the minutes in two digits each, the seconds as
    two digits, a point and three digits of the nearest thousandth, the
    sign, the degrees, minutes and seconds of the declination in the same
    widths, and [.txt]; the sign is [+] exactly when the declination is
    at least 0.  Coordinates that decompose as the tests check for
    [05 35 24.550 -05 06 59.00] and for [21 39 00.0 +57 29 24] give
    [J053524.550-050659.000.txt] and [J213900.000+572924.000.txt]. *)
Theorem output_filename_pattern :
  (forall c h m s d dm ds,
      ra_hms c = (h, m, s) -> dec_dms c = (d, dm, ds) -> valid_coords c ->
      s <> NegZero ->
      exists sign,
        get_output_filename c ".txt"
        = "J" ++ two_digits (int h) ++ two_digits (int m)
          ++ seconds_field (value s) ++ sign
          ++ two_digits (int (float_abs d)) ++ two_digits (int (float_abs dm))
          ++ seconds_field (Qabs (value ds)) ++ ".txt"
        /\ (sign = "+" <-> (0 <= value (dec_deg c))%Q)
        /\ (sign = "-" <-> (value (dec_deg c) < 0)%Q)
        /\ String.length (get_output_filename c ".txt") = 26) /\
  (forall c h m s d dm ds,
      ra_hms c = (h, m, s) -> dec_dms c = (d, dm, ds) ->
      in_unit 5 (value h) -> in_unit 35 (value m) ->
      signbit s = false -> near_thousandths 24550 (value s) ->
      (value (dec_deg c) < 0)%Q ->
      in_unit 5 (Qabs (value d)) -> in_unit 6 (Qabs (value dm)) ->
      near_thousandths 59000 (Qabs (value ds)) ->
      get_output_filename c ".txt" = "J053524.550-050659.000.txt") /\
  (forall c h m s d dm ds,
      ra_hms c = (h, m, s) -> dec_dms c = (d, dm, ds) ->
      in_unit 21 (value h) -> in_unit 39 (value m) ->
      signbit s = false -> near_thousandths 0 (value s) ->
      (0 <= value (dec_deg c))%Q ->
      in_unit 57 (Qabs (value d)) -> in_unit 29 (Qabs (value dm)) ->
      near_thousandths 24000 (Qabs (value ds)) ->
      get_output_filename c ".txt" = "J213900.000+572924.000.txt").
Proof.
  split; [|split].
  - intros c h m s d dm ds Hra Hdec [Hh Hm Hs Hdd Hdm Hds] Hsign.
    rewrite Hra, Hdec in *. cbn [fst snd] in *.
    exists (if ge_zero (dec_deg c) then "+" else "-").
    assert (Hname :
      get_output_filename c ".txt"
      = "J" ++ two_digits (int h) ++ two_digits (int m)
        ++ seconds_field (value s)
        ++ (if ge_zero (dec_deg c) then "+" else "-")
        ++ two_digits (int (float_abs d)) ++ two_digits (int (float_abs dm))
        ++ seconds_field (Qabs (value ds)) ++ ".txt").
    { unfold get_output_filename. rewrite Hra, Hdec.
      rewrite (fmt_digits h m s);
        [|tauto|lra|tauto|lra
         |apply signbit_not_negative_zero; tauto|tauto].
      rewrite (fmt_digits (float_abs d) (float_abs dm) (float_abs ds));
        [|apply Qabs_nonneg|cbn [float_abs value]; lra
         |apply Qabs_nonneg|cbn [float_abs value]; lra
         |apply signbit_abs|exact Hds].
      rewrite !append_assoc. reflexivity. }
    split; [exact Hname|]. unfold ge_zero in *. split; [|split].
    + destruct (Qle_bool 0 (value (dec_deg c))) eqn:Hb.
      * apply Qle_bool_iff in Hb. tauto.
      * split; [discriminate|]. intros H. apply Qle_bool_iff in H. congruence.
    + destruct (Qle_bool 0 (value (dec_deg c))) eqn:Hb.
      * apply Qle_bool_iff in Hb. split; [discriminate|]. intros H. lra.
      * split; [intros _|reflexivity].
        apply Qnot_le_lt. intros H. apply Qle_bool_iff in H. congruence.
    + rewrite Hname. unfold seconds_field.
      destruct (Qle_bool 0 (value (dec_deg c))); reflexivity.
  - intros c h m s d dm ds Hra Hdec Hh Hm Hs0 Hs Hneg Hd Hdm Hds.
    unfold get_output_filename. rewrite Hra, Hdec.
    rewrite (fmt_near h m s 5 35 24550) by (assumption || lia).
    rewrite (fmt_near (float_abs d) (float_abs dm) (float_abs ds) 5 6 59000);
      [|lia|assumption|lia|assumption|lia|apply signbit_abs|].
    2:{ exact Hds. }
    unfold ge_zero.
    replace (Qle_bool 0 (value (dec_deg c))) with false; [reflexivity|].
    symmetry. apply not_true_is_false. intros H.
    apply Qle_bool_iff in H. lra.
  - intros c h m s d dm ds Hra Hdec Hh Hm Hs0 Hs Hpos Hd Hdm Hds.
    unfold get_output_filename. rewrite Hra, Hdec.
    rewrite (fmt_near h m s 21 39 0) by (assumption || lia).
    rewrite (fmt_near (float_abs d) (float_abs dm) (float_abs ds) 57 29 24000);
      [|lia|assumption|lia|assumption|lia|apply signbit_abs|].
    2:{ exact Hds. }
    unfold ge_zero. apply Qle_bool_iff in Hpos. rewrite Hpos. reflexivity.
Qed.

Lemma output_filename_pattern_witness :
  (exists sign,
      get_output_filename vla7 ".txt"
      = "J" ++ "05" ++ "35" ++ "24.550" ++ sign
        ++ "05" ++ "06" ++ "59.000" ++ ".txt"
      /\ (sign = "+" <-> (0 <= value (dec_deg vla7))%Q)
      /\ (sign = "-" <-> (value (dec_deg vla7) < 0)%Q)
      /\ String.length (get_output_filename vla7 ".txt") = 26) /\
  get_output_filename vla7 ".txt" = "J053524.550-050659.000.txt" /\
  get_output_filename trumpler37 ".txt" = "J213900.000+572924.000.txt".
Proof.
  split; [|split].
  - apply (proj1 output_filename_pattern vla7
             (Val (5 # 1)) (Val (35 # 1)) (Val (2455 # 100))
             (Val (- 5 # 1)) (Val (- 6 # 1)) (Val (- 59 # 1)));
      [reflexivity|reflexivity| |discriminate].
    split; vm_compute; try split; easy.
  - apply (proj1 (proj2 output_filename_pattern) vla7
             (Val (5 # 1)) (Val (35 # 1)) (Val (2455 # 100))
             (Val (- 5 # 1)) (Val (- 6 # 1)) (Val (- 59 # 1)));
      try reflexivity; vm_compute; try split; easy.
  - apply (proj2 (proj2 output_filename_pattern) trumpler37
             (Val (21 # 1)) (Val (39 # 1)) (Val (0 # 1))
             (Val (57 # 1)) (Val (29 # 1)) (Val (24 # 1)));
      try reflexivity; vm_compute; try split; easy.
Defined.

(* ================================================================== *)
(** * The substitution and the References section: what holds *)

Lemma bind_ret_l {A B} (a : A) (k : A -> M B) : bind (ret a) k = k a.
Proof. unfold bind, ret. now destruct (k a). Qed.

Lemma scan_from_skip s t :
  Re.scan_from (String.length s) (s ++ t) = Re.scan_from 0 t.
Proof. induction s as [|c s IH]; [reflexivity|exact IH]. Qed.

Lemma ref_char_not_brace c :
  Re.ref_char c = true -> Py.mem_char c "{}" = false.
Proof.
  destruct c as [[] [] [] [] [] [] [] []]; try reflexivity; discriminate.
Qed.

(** The greedy run stops at the closing brace. *)
Lemma span_ref_code code rest :
  ref_chars code ->
  Re.span_ref (code ++ String "}" rest) = (code, String "}" rest).
Proof.
  unfold ref_chars.
  induction code as [|c code IH]; [reflexivity|].
  cbn [list_ascii_of_string forallb]. intros H.
  apply andb_true_iff in H as [Hc H].
  change (String c code ++ ?x) with (String c (code ++ x)).
  cbn [Re.span_ref]. now rewrite Hc, (IH H).
Qed.

Lemma match_ref_code code rest :
  code <> "" -> ref_chars code ->
  Re.match_ref ("{" ++ code ++ "}" ++ rest) = Some ("{" ++ code ++ "}").
Proof.
  intros Hne Hcode.
  change ("{" ++ code ++ "}" ++ rest) with (String "{" (code ++ String "}" rest)).
  cbn [Re.match_ref]. rewrite Ascii.eqb_refl, (span_ref_code _ _ Hcode).
  destruct code as [|c code]; [congruence|]. now rewrite Ascii.eqb_refl.
Qed.

Lemma rstrip_braces code :
  code <> "" -> ref_chars code ->
  Py.rstrip_chars "{}" (code ++ "}") = code.
Proof.
  unfold ref_chars.
  induction code as [|c code IH]; [congruence|]. intros _ H.
  cbn [list_ascii_of_string forallb] in H.
  apply andb_true_iff in H as [Hc H].
  change (String c code ++ "}") with (String c (code ++ "}")).
  cbn [Py.rstrip_chars].
  destruct code as [|c' code].
  - change (Py.rstrip_chars "{}" ("" ++ "}")) with "".
    cbn iota. now rewrite (ref_char_not_brace c Hc).
  - rewrite IH; [reflexivity|easy|exact H].
Qed.

(** [group(0).strip("{}")] is the code between the braces. *)
Lemma strip_braces code :
  code <> "" -> ref_chars code ->
  Py.strip_chars "{}" ("{" ++ code ++ "}") = code.
Proof.
  intros Hne Hcode. unfold Py.strip_chars.
  change ("{" ++ code ++ "}") with (String "{" (code ++ "}")).
  cbn [Py.lstrip_chars].
  change (Py.mem_char "{" "{}") with true. cbn iota.
  destruct code as [|c code]; [congruence|].
  change (String c code ++ "}") with (String c (code ++ "}")).
  cbn [Py.lstrip_chars].
  assert (Hc : Py.mem_char c "{}" = false).
  { apply ref_char_not_brace. unfold ref_chars in Hcode.
    cbn [list_ascii_of_string forallb] in Hcode.
    now apply andb_true_iff in Hcode. }
  rewrite Hc.
  change (String c (code ++ "}")) with (String c code ++ "}").
  now apply rstrip_braces.
Qed.

Section Substitution.

Variable query_bibcode : string -> result string.

(** X23: a code of word characters and dots in braces is looked up and
    replaced by what the lookup returns. *)
Lemma re_sub_code code rest :
  code <> "" -> ref_chars code ->
  re_sub query_bibcode ("{" ++ code ++ "}" ++ rest)
  = (r <- query_reference query_bibcode code ;;
     rest' <- re_sub query_bibcode rest ;;
     ret (r ++ rest')).
Proof.
  intros Hne Hcode. unfold re_sub, Re.scan.
  pose proof (match_ref_code code rest Hne Hcode) as Hm.
  change ("{" ++ code ++ "}" ++ rest)
    with (String "{" (code ++ "}" ++ rest)) in *.
  cbn [Re.scan_from]. rewrite Hm.
  replace (String.length ("{" ++ code ++ "}") - 1)
    with (String.length (code ++ "}"))
    by (change ("{" ++ code ++ "}") with (String "{" (code ++ "}"));
        cbn [String.length]; lia).
  replace (code ++ "}" ++ rest) with ((code ++ "}") ++ rest)
    by apply append_assoc.
  rewrite scan_from_skip. cbn [sub_pieces].
  unfold bibcode_replacement. now rewrite strip_braces.
Qed.

(** A character that opens no match is copied. *)
Lemma re_sub_literal c rest :
  Re.match_ref (String c rest) = None ->
  re_sub query_bibcode (String c rest)
  = (rest' <- re_sub query_bibcode rest ;; ret (String c rest')).
Proof.
  intros Hm. unfold re_sub, Re.scan. cbn [Re.scan_from].
  now rewrite Hm.
Qed.

(** X24: text without an opening brace, square-bracket designators
    included, is written as it is and causes no lookup. *)
Lemma re_sub_without_brace s :
  Py.mem_char "{" s = false -> re_sub query_bibcode s = ret s.
Proof.
  induction s as [|c s IH]; [reflexivity|].
  rewrite mem_char_cons. intros H. apply orb_false_iff in H as [Hc Hs].
  rewrite re_sub_literal.
  - rewrite (IH Hs). exact (bind_ret_l s (fun r => ret (String c r))).
  - cbn [Re.match_ref]. now rewrite Ascii.eqb_sym, Hc.
Qed.

(** ** The References section *)

Lemma insert_sorted_In x y l :
  In y (insert_sorted x l) <-> y = x \/ In y l.
Proof.
  induction l as [|z l IH]; simpl; [intuition|].
  destruct (String.leb x z); simpl; [intuition|].
  rewrite IH. intuition.
Qed.

Lemma insert_sorted_Sorted x l :
  Sorted string_le l -> Sorted string_le (insert_sorted x l).
Proof.
  induction l as [|y l IH]; intros Hs; simpl.
  - repeat constructor.
  - destruct (String.leb x y) eqn:Hxy.
    + constructor; [assumption|]. now constructor.
    + inversion Hs as [|? ? Hl Hhd]; subst.
      constructor; [now apply IH|].
      assert (Hyx : string_le y x).
      { destruct (String.leb_total x y) as [H|H]; [congruence|exact H]. }
      destruct l as [|z l]; simpl; [now constructor|].
      destruct (String.leb x z); constructor; [assumption|].
      now inversion Hhd.
Qed.

(** [sorted] returns its argument in order. *)
Lemma references_sorted l : Sorted string_le (sorted l).
Proof.
  induction l as [|x l IH]; simpl; [constructor|].
  now apply insert_sorted_Sorted.
Qed.

Lemma insert_sorted_Permutation x l : Permutation (insert_sorted x l) (x :: l).
Proof.
  induction l as [|y l IH]; simpl; [reflexivity|].
  destruct (String.leb x y); [reflexivity|].
  rewrite IH. apply perm_swap.
Qed.

Lemma sorted_Permutation l : Permutation (sorted l) l.
Proof.
  induction l as [|x l IH]; simpl; [reflexivity|].
  rewrite insert_sorted_Permutation. now constructor.
Qed.

Lemma add_references_NoDup matches unique unique' :
  NoDup unique ->
  outcome (add_references query_bibcode matches unique) = OK unique' ->
  NoDup unique'.
Proof.
  revert unique.
  induction matches as [|r matches IH]; intros unique Hnd; cbn [add_references].
  - intros [= <-]. exact Hnd.
  - run_binds.
    destruct (outcome (query_reference query_bibcode _)) as [author|e];
      [|discriminate].
    apply IH. now apply set_add_nodup.
Qed.

Lemma collect_references_NoDup l unique unique' :
  NoDup unique ->
  outcome (collect_references query_bibcode l unique) = OK unique' ->
  NoDup unique'.
Proof.
  revert unique.
  induction l as [|[type_ ref] l IH]; intros unique Hnd;
    cbn [collect_references].
  - intros [= <-]. exact Hnd.
  - run_binds.
    destruct (outcome (add_references query_bibcode _ unique))
      as [unique1|e] eqn:Hadd; [|discriminate].
    apply IH. eapply add_references_NoDup; eassumption.
Qed.

(** No line of the section is written twice. *)
Lemma references_no_duplicates l unique :
  outcome (collect_references query_bibcode l (empty_set string)) = OK unique ->
  NoDup (sorted unique).
Proof.
  intros H.
  apply (Permutation_NoDup (Permutation_sym (sorted_Permutation unique))).
  eapply collect_references_NoDup; [constructor|exact H].
Qed.

(** The lines collected from one annotation: those already there and,
    for each match, the citation of its code and the link. *)
Lemma add_references_In matches unique unique' line :
  outcome (add_references query_bibcode matches unique) = OK unique' ->
  (In line unique' <->
   In line unique \/
   exists m author,
     In m matches /\
     outcome (query_reference query_bibcode (Py.strip_chars "{}" m))
       = OK author /\
     line = author ++ " " ++ url (Py.strip_chars "{}" m)).
Proof.
  revert unique.
  induction matches as [|r matches IH]; intros unique; cbn [add_references].
  - intros [= <-]. split; [auto|]. intros [H|(m & a & [] & _)]. exact H.
  - run_binds.
    destruct (outcome (query_reference query_bibcode _)) as [author|e] eqn:Hq;
      [|discriminate].
    intros H. rewrite (IH _ H), set_add_iff. split.
    + intros [[->|Hin]|(m & a & Hm & Ha & ->)].
      * right. exists r, author. simpl. auto.
      * now left.
      * right. exists m, a. simpl. auto.
    + intros [Hin|(m & a & [<-|Hm] & Ha & ->)].
      * left. now right.
      * left. left. congruence.
      * right. exists m, a. auto.
Qed.

Lemma written_app t1 t2 : written (t1 ++ t2)%list = written t1 ++ written t2.
Proof.
  induction t1 as [|e t1 IH]; [reflexivity|].
  destruct e; cbn [app written]; rewrite ?IH, ?append_assoc; reflexivity.
Qed.

Lemma written_query_reference bibcode :
  written (trace (query_reference query_bibcode bibcode)) = "".
Proof.
  unfold query_reference. run_binds.
  destruct (query_bibcode bibcode) as [text|e]; reflexivity.
Qed.

Lemma written_add_references matches unique :
  written (trace (add_references query_bibcode matches unique)) = "".
Proof.
  revert unique.
  induction matches as [|r matches IH]; intros unique; [reflexivity|].
  cbn [add_references]. run_binds.
  rewrite written_app, written_query_reference.
  destruct (outcome (query_reference query_bibcode _)); [apply IH|reflexivity].
Qed.

Lemma written_collect_references l unique :
  written (trace (collect_references query_bibcode l unique)) = "".
Proof.
  revert unique.
  induction l as [|[type_ ref] l IH]; intros unique; [reflexivity|].
  cbn [collect_references]. run_binds.
  rewrite written_app, written_add_references.
  destruct (outcome (add_references query_bibcode _ unique));
    [apply IH|reflexivity].
Qed.

Lemma written_write_lines l : written (trace (write_lines l)) = lines_text l.
Proof.
  induction l as [|r l IH]; [reflexivity|].
  cbn [write_lines lines_text]. run_binds.
  cbn [app written]. now rewrite IH, append_assoc.
Qed.

(** The line of the primary code comes first, then the collected lines
    in order. *)
Lemma primary_line_first reference references unique :
  outcome (collect_references query_bibcode references (empty_set string))
    = OK unique ->
  written (trace (write_references query_bibcode reference references))
  = (nl ++ "References:" ++ nl)
    ++ (reference ++ " " ++ url reference ++ nl)
    ++ lines_text (sorted unique).
Proof.
  intros H. unfold write_references. run_binds. rewrite H. run_binds.
  cbn [app written].
  rewrite written_app, written_collect_references, written_write_lines.
  reflexivity.
Qed.

End Substitution.

(* ================================================================== *)
(** * Further properties of the throttle decorator *)

(** X1: the busy loop of [wrapper] leaves at the first admissible
    reading: the time it returns is the last reading made, a period or
    more after the stored time, and every reading made before it during
    the wait was less than a period after the stored time. *)
Theorem wait_first_admissible fuel now_ self reads now reads' :
  wait fuel now_ self reads = Some (now, reads') ->
  (reads < reads')%nat /\
  now = now_ (reads' - 1)%nat /\
  (throttle_period self <= now - time_of_last_call self)%Z /\
  forall i, (reads <= i < reads' - 1)%nat ->
            (now_ i - time_of_last_call self < throttle_period self)%Z.
Proof.
  revert reads.
  induction fuel as [|fuel IH]; intros reads; cbn [wait]; [discriminate|].
  destruct (Z.leb_spec (throttle_period self)
                       (now_ reads - time_of_last_call self)) as [Hle|Hlt].
  - intros [= <- <-]. replace (S reads - 1)%nat with reads by lia.
    repeat split; [lia|exact Hle|]. intros i Hi. lia.
  - intros H. destruct (IH _ H) as (Hr & Hnow & Hper & Hbefore).
    repeat split; [lia|exact Hnow|exact Hper|].
    intros i Hi. destruct (Nat.eq_dec i reads) as [->|Hne]; [exact Hlt|].
    apply Hbefore. lia.
Qed.

Lemma wait_first_admissible_witness :
  wait 5 (tenths 0%Z) (mkThrottle quarter_second 100000%Z) 0
    = Some (400000%Z, 5%nat) /\
  (0 < 5)%nat /\
  400000%Z = tenths 0%Z (5 - 1)%nat /\
  (quarter_second <= 400000 - 100000)%Z /\
  forall i, (0 <= i < 5 - 1)%nat ->
            (tenths 0%Z i - 100000 < quarter_second)%Z.
Proof.
  split; [reflexivity|].
  apply (wait_first_admissible 5 (tenths 0%Z)
           (mkThrottle quarter_second 100000%Z) 0 400000%Z 5).
  reflexivity.
Defined.

(** X2: the [finally] clause of [wrapper] stores the time whether the
    decorated function returned or raised: a failed call takes its turn
    at the gate like a successful one, and [wrapper] hands on what the
    function returned or raised. *)
Theorem failed_call_takes_its_turn {A B} (body : A -> result B)
    fuel now_ f arg p r p' :
  call body fuel now_ f arg p = Some (r, p') ->
  r = body arg /\
  call (fun _ : A => Raise (A := B) RemoteError) fuel now_ f arg p
    = Some (Raise RemoteError, p').
Proof.
  unfold call, wrapper.
  destruct (wait fuel now_ (gate_of f p) (clock_reads p)) as [[now reads']|];
    [|discriminate].
  intros [= <- <-]. split; reflexivity.
Qed.

Lemma failed_call_takes_its_turn_witness :
  exists p',
    call (fun _ : string => OK "Reipurth99") 1 (ticking 63000000000000000%Z)
         QueryReference "1999AJ....118..983R" process_start
      = Some (OK "Reipurth99", p') /\
    call (fun _ : string => Raise (A := string) RemoteError) 1
         (ticking 63000000000000000%Z)
         QueryReference "1999AJ....118..983R" process_start
      = Some (Raise RemoteError, p').
Proof.
  eexists. split; [reflexivity|].
  apply (failed_call_takes_its_turn (fun _ : string => OK "Reipurth99")
           1 (ticking 63000000000000000%Z) QueryReference
           "1999AJ....118..983R" process_start (OK "Reipurth99")).
  reflexivity.
Defined.

Lemma tenths_advances start : advances (tenths start).
Proof.
  intros n t. exists (Z.to_nat (t - start)). unfold tenths. lia.
Qed.

(** X3: the loop has no timeout and no sleep, but it ends: with a clock
    whose readings pass every bound, every sequence of calls of the
    decorated functions runs to its end, and the gates have recorded one
    acquisition per call, in the order of the calls. *)
Theorem throttled_calls_complete outcome now_ calls :
  advances now_ ->
  exists fuel p,
    run outcome fuel now_ calls process_start = Some p /\
    List.length (acquisitions p) = List.length calls /\
    map fst (acquisitions p) = calls.
Proof.
  intros Hadv.
  destruct (run_terminates outcome now_ calls process_start Hadv)
    as (fuel & p & Hrun).
  exists fuel, p. split; [exact Hrun|].
  assert (Hlog : forall cs q q',
             run outcome fuel now_ cs q = Some q' ->
             map fst (acquisitions q')
             = (map fst (acquisitions q) ++ cs)%list).
  { induction cs as [|f cs IH]; intros q q'; cbn [run].
    - intros [= <-]. now rewrite app_nil_r.
    - unfold call, wrapper.
      destruct (wait fuel now_ (gate_of f q) (clock_reads q))
        as [[now reads']|]; [|discriminate].
      intros H. rewrite (IH _ _ H).
      destruct f; cbn [acquisitions]; rewrite map_app, <- app_assoc;
        reflexivity. }
  specialize (Hlog _ _ _ Hrun). cbn in Hlog.
  split; [|exact Hlog].
  rewrite <- (length_map fst), Hlog. reflexivity.
Qed.

Lemma throttled_calls_complete_witness :
  exists fuel p,
    run (fun _ => OK tt) fuel (tenths 63000000000000000%Z)
        [QueryReference; QueryReference] process_start = Some p /\
    List.length (acquisitions p) = 2 /\
    map fst (acquisitions p) = [QueryReference; QueryReference].
Proof.
  apply (throttled_calls_complete (fun _ => OK tt)
           (tenths 63000000000000000%Z) [QueryReference; QueryReference]).
  apply tenths_advances.
Defined.

(* ================================================================== *)
(** * Further properties of get_output_filename *)

(** X4: seconds within half a thousandth below sixty are written as
    [60.000]; the minutes field is not carried and stays at the whole
    minutes of the coordinate. *)
Theorem seconds_displayed_as_sixty c ext h m s nh nm :
  ra_hms c = (h, m, s) ->
  (0 <= nh < 99)%Z -> in_unit nh (value h) ->
  (0 <= nm < 99)%Z -> in_unit nm (value m) ->
  (599995 # 10000 < value s)%Q -> (value s < 60)%Q ->
  exists rest,
    get_output_filename c ext
    = "J" ++ two_digits nh ++ two_digits nm ++ "60.000" ++ rest.
Proof.
  intros Hra Hnh Hh Hnm Hm Hlo Hhi.
  unfold get_output_filename. rewrite Hra.
  destruct (dec_dms c) as [[d dm] ds].
  rewrite (fmt_near h m s nh nm 60000); [| assumption..| lia | |].
  - rewrite !append_assoc. eexists. reflexivity.
  - apply signbit_positive. lra.
  - unfold near_thousandths. apply Qabs_Qlt_condition.
    change (inject_Z 1000) with 1000%Q. change (inject_Z 60000) with 60000%Q.
    split; lra.
Qed.

Lemma seconds_displayed_as_sixty_witness :
  exists rest,
    get_output_filename almost_next_minute ".txt"
    = "J" ++ "05" ++ "35" ++ "60.000" ++ rest.
Proof.
  apply (seconds_displayed_as_sixty almost_next_minute ".txt"
           (Val (5 # 1)) (Val (35 # 1)) (Val (599996 # 10000)) 5 35);
    try reflexivity; vm_compute; try split; easy.
Defined.

(* ================================================================== *)
(** * Further properties of query_reference *)

(** X5: of the answer, [query_reference] reads the fourth and the fifth
    line and nothing else: two answers that agree on these two lines give
    the same citation or the same error. *)
Theorem parse_reference_reads_two_lines text text' :
  nth_error (answer_lines text) 3 = nth_error (answer_lines text') 3 ->
  nth_error (answer_lines text) 4 = nth_error (answer_lines text') 4 ->
  parse_reference text = parse_reference text'.
Proof.
  intros H3 H4. unfold parse_reference, getitem. now rewrite H3, H4.
Qed.

Lemma parse_reference_reads_two_lines_witness :
  parse_reference reipurth_text
  = parse_reference
      (answer_with "Astron. J., 118, 983-989 (1999)"
                   "REIPURTH B., RODRIGUEZ L.F. and CHINI R.").
Proof.
  apply (parse_reference_reads_two_lines reipurth_text
           (answer_with "Astron. J., 118, 983-989 (1999)"
                        "REIPURTH B., RODRIGUEZ L.F. and CHINI R."));
    vm_compute; reflexivity.
Defined.

Lemma length_map_chars f s :
  String.length (Py.map_chars f s) = String.length s.
Proof. induction s as [|c s IH]; simpl; congruence. Qed.

Lemma length_capitalize s :
  String.length (Py.capitalize s) = String.length s.
Proof.
  destruct s as [|c s]; [reflexivity|].
  cbn [Py.capitalize String.length]. unfold Py.lower.
  now rewrite length_map_chars.
Qed.

Lemma length_join_capitalize l :
  String.length (Py.join "-" (map Py.capitalize l))
  = String.length (Py.join "-" l).
Proof.
  induction l as [|x l IH]; [reflexivity|].
  destruct l as [|y l].
  - apply length_capitalize.
  - change (map Py.capitalize (x :: y :: l))
      with (Py.capitalize x :: map Py.capitalize (y :: l)).
    rewrite !join_cons by easy.
    rewrite !length_append, length_capitalize, IH. reflexivity.
Qed.

(** Joining what was split gives the string back. *)
Lemma join_split_hyphen s : Py.join "-" (Py.split "-" s) = s.
Proof.
  unfold Py.split.
  induction s as [|c s IH]; [reflexivity|].
  cbn [Py.split_from]. rewrite prefix_char.
  change (String.length "-" - 1) with 0.
  destruct (Ascii.eqb_spec "-" c) as [<-|Hne].
  - rewrite join_cons by apply split_from_not_nil. now rewrite IH.
  - rewrite join_cons_head by apply split_from_not_nil. now rewrite IH.
Qed.

Lemma length_first_author name :
  String.length (first_author name) = String.length name.
Proof.
  unfold first_author.
  now rewrite length_join_capitalize, join_split_hyphen.
Qed.

(** The tokens of [split()] are not empty and hold no blank. *)
Lemma split_ws_tokens s :
  Forall (fun t => t <> "" /\ no_blank t) (Py.split_ws s).
Proof.
  induction s as [|c s IH]; [constructor|].
  cbn [Py.split_ws].
  destruct (Py.isspace c) eqn:Hc; [exact IH|].
  assert (Hone : String c "" <> "" /\ no_blank (String c "")).
  { split; [easy|]. unfold no_blank. cbn. now rewrite Hc. }
  destruct s as [|c' s]; [now repeat constructor|].
  destruct (Py.isspace c') eqn:Hc'.
  - constructor; [exact Hone|exact IH].
  - destruct (Py.split_ws (String c' s)) as [|h t]; cbn [Py.cons_head].
    + now repeat constructor.
    + inversion IH as [|? ? [Hh1 Hh2] Ht]; subst.
      constructor; [|exact Ht].
      split; [easy|]. unfold no_blank in *.
      cbn [list_ascii_of_string forallb]. now rewrite Hc, Hh2.
Qed.

(** Every year found is made of four digits. *)
Lemma findall_year_digits skip s y :
  In y (Re.findall_year_from skip s) ->
  exists d1 d2 d3 d4,
    y = String d1 (String d2 (String d3 (String d4 ""))) /\
    Py.isdigit d3 = true /\ Py.isdigit d4 = true.
Proof.
  revert skip.
  induction s as [|c s IH]; intros skip; cbn [Re.findall_year_from];
    [intros []|].
  destruct skip as [|k]; [|apply IH].
  destruct (Re.match_year (String c s)) as [y'|] eqn:Hm; [|apply IH].
  intros [<-|Hin]; [|eapply IH; exact Hin].
  unfold Re.match_year in Hm.
  destruct s as [|d1 [|d2 [|d3 [|d4 [|c5 s]]]]]; try discriminate.
  destruct (Ascii.eqb c "(" && Py.isdigit d1 && Py.isdigit d2
            && Py.isdigit d3 && Py.isdigit d4 && Ascii.eqb c5 ")")
    eqn:Hall; [|discriminate].
  injection Hm as <-.
  repeat (apply andb_true_iff in Hall as [Hall ?]).
  exists d1, d2, d3, d4. auto.
Qed.

(** X6: a citation is the capitalized surname token followed by two
    decimal digits: it is never empty and is two characters longer than
    the token it was made from. *)
Theorem citation_shape text citation :
  parse_reference text = OK citation ->
  exists name d3 d4,
    name <> "" /\ no_blank name /\
    Py.isdigit d3 = true /\ Py.isdigit d4 = true /\
    citation = first_author name ++ String d3 (String d4 "") /\
    String.length citation = String.length name + 2.
Proof.
  unfold parse_reference.
  destruct (getitem (answer_lines text) 4) as [authors_line|];
    cbn [and_then]; [|easy].
  pose proof (split_ws_tokens authors_line) as Htok.
  destruct (Py.split_ws authors_line) as [|name more]; [easy|].
  change (getitem (name :: more) 0) with (OK name). cbn [and_then].
  destruct (getitem (answer_lines text) 3) as [year_line|];
    cbn [and_then]; [|easy].
  pose proof (findall_year_digits 0 year_line) as Hdig.
  fold (Re.findall_year year_line) in Hdig.
  destruct (Re.findall_year year_line) as [|year years]; [easy|].
  change (getitem (year :: years) 0) with (OK year). cbn [and_then].
  destruct (Hdig year (or_introl eq_refl)) as (d1 & d2 & d3 & d4 & -> & H3 & H4).
  intros [= <-].
  inversion Htok as [|? ? [Hne Hnb] _]; subst.
  exists name, d3, d4.
  repeat (split; [assumption|]).
  split; [reflexivity|].
  change (Py.last_chars 2 (String d1 (String d2 (String d3 (String d4 "")))))
    with (String d3 (String d4 "")).
  rewrite length_append, length_first_author. reflexivity.
Qed.

Lemma citation_shape_witness :
  exists name d3 d4,
    name <> "" /\ no_blank name /\
    Py.isdigit d3 = true /\ Py.isdigit d4 = true /\
    "Reipurth99" = first_author name ++ String d3 (String d4 "") /\
    String.length "Reipurth99" = String.length name + 2.
Proof.
  apply (citation_shape reipurth_text "Reipurth99"). reflexivity.
Defined.

Lemma upper_char_idempotent c :
  Py.upper_char (Py.upper_char c) = Py.upper_char c.
Proof. destruct c as [[] [] [] [] [] [] [] []]; reflexivity. Qed.

Lemma lower_char_idempotent c :
  Py.lower_char (Py.lower_char c) = Py.lower_char c.
Proof. destruct c as [[] [] [] [] [] [] [] []]; reflexivity. Qed.

Lemma capitalize_idempotent s :
  Py.capitalize (Py.capitalize s) = Py.capitalize s.
Proof.
  destruct s as [|c s]; [reflexivity|].
  cbn [Py.capitalize]. rewrite upper_char_idempotent. f_equal.
  unfold Py.lower. induction s as [|c' s IH]; [reflexivity|].
  cbn [Py.map_chars]. now rewrite lower_char_idempotent, IH.
Qed.

(** X7: the surname of a citation is a fixed point of the rewriting: a
    surname already written as [Morales-Calderon] comes out unchanged. *)
Theorem first_author_idempotent name :
  first_author (first_author name) = first_author name.
Proof.
  unfold first_author at 1.
  assert (Hsplit : Py.split "-" (first_author name)
                   = map Py.capitalize (Py.split "-" name)).
  { unfold first_author. apply split_join_hyphen.
    - pose proof (split_from_not_nil "-" 0 name) as H. unfold Py.split.
      destruct (Py.split_from "-" 0 name); [congruence|easy].
    - apply Forall_map_capitalize, split_hyphen_fields. }
  rewrite Hsplit, map_map. unfold first_author. f_equal.
  apply map_ext. intros s. apply capitalize_idempotent.
Qed.

(* ================================================================== *)
(** * Further properties of get_object_types *)

Lemma yield_rows_ok rs rows :
  outcome (yield_rows rs) = OK rows ->
  map object_type_row rs = map OK rows /\
  trace (yield_rows rs)
  = map (fun row => EvYield (fst row) (snd row)) rows.
Proof.
  revert rows.
  induction rs as [|r rs IH]; intros rows; cbn [yield_rows].
  - intros [= <-]. split; reflexivity.
  - run_binds.
    destruct (object_type_row r) as [row|e] eqn:Hr; [|discriminate].
    run_binds.
    destruct (outcome (yield_rows rs)) as [rows'|e] eqn:Hrs; [|discriminate].
    run_binds. intros [= <-].
    destruct (IH rows' eq_refl) as [Hmap Htrace].
    split.
    + cbn [map]. now rewrite Hr, Hmap.
    + rewrite Htrace, app_nil_r. reflexivity.
Qed.

(** X8: when the generator runs to its end, the page had at least four
    tables, and the rows are those of the markers of the fourth table,
    one row per marker, in document order; the page was fetched once,
    before the first row. *)
Theorem rows_in_document_order
    (detail_page : string -> result Bs4.node) identifier rows :
  outcome (list_of detail_page (Suspended identifier)) = OK rows ->
  exists soup table,
    detail_page identifier = OK soup /\
    nth_error (Bs4.find_all "table" soup) 3 = Some table /\
    map object_type_row
        (Bs4.find_all_with "tt" "title" (Bs4.element table))
    = map OK rows /\
    trace (list_of detail_page (Suspended identifier))
    = EvFetch identifier
      :: map (fun row => EvYield (fst row) (snd row)) rows.
Proof.
  unfold list_of. run_binds.
  destruct (detail_page identifier) as [soup|e] eqn:Hpage; [|discriminate].
  run_binds. unfold getitem.
  destruct (nth_error (Bs4.find_all "table" soup) 3) as [table|] eqn:Htable;
    [|discriminate].
  run_binds. intros H.
  destruct (yield_rows_ok _ _ H) as [Hmap Htrace].
  exists soup, table.
  split; [reflexivity|]. split; [exact Htable|]. split; [exact Hmap|].
  rewrite Htrace. reflexivity.
Qed.

Lemma rows_in_document_order_witness :
  exists soup table,
    sample_detail_page "2MASS J05352762-0509337" = OK soup /\
    nth_error (Bs4.find_all "table" soup) 3 = Some table /\
    map object_type_row
        (Bs4.find_all_with "tt" "title" (Bs4.element table))
    = map OK [("Y*O", "{2012ApJ...753L..35B}, HOPS, HOY, ISOY, [MGM2012]");
              ("Rad", "[LSK98], [RRC99]")] /\
    trace (list_of sample_detail_page (Suspended "2MASS J05352762-0509337"))
    = EvFetch "2MASS J05352762-0509337"
      :: map (fun row => EvYield (fst row) (snd row))
           [("Y*O", "{2012ApJ...753L..35B}, HOPS, HOY, ISOY, [MGM2012]");
            ("Rad", "[LSK98], [RRC99]")].
Proof.
  apply (rows_in_document_order sample_detail_page
           "2MASS J05352762-0509337").
  vm_compute. reflexivity.
Defined.

(** X9: the type is read two siblings before the marker: a marker with
    fewer than two siblings before it under its parent has none, and the
    row raises [AttributeError] before the tooltip is looked at. *)
Theorem marker_needs_two_siblings (r : Bs4.located) :
  (List.length (Bs4.previous_siblings r) < 2)%nat ->
  row_type r = Raise AttributeError /\
  object_type_row r = Raise AttributeError.
Proof.
  intros H. unfold object_type_row.
  assert (Ht : row_type r = Raise AttributeError).
  { unfold row_type. destruct r as [[|p [|q prev]] el];
      cbn in *; [reflexivity|reflexivity|lia]. }
  now rewrite Ht.
Qed.

Lemma marker_needs_two_siblings_witness :
  row_type linked_marker = Raise AttributeError /\
  object_type_row linked_marker = Raise AttributeError.
Proof.
  apply (marker_needs_two_siblings linked_marker). vm_compute. lia.
Defined.

Lemma mem_whitespace c : Py.mem_char c Bs4.whitespace = unicode_blank c.
Proof.
  destruct c as [[] [] [] [] [] [] [] []]; reflexivity.
Qed.

(** What [strip(chars)] takes off is made of [chars]. *)
Lemma lstrip_chars_split chars s :
  exists before,
    s = before ++ Py.lstrip_chars chars s /\
    forallb (fun c => Py.mem_char c chars) (list_ascii_of_string before) = true.
Proof.
  induction s as [|c s (before & Hs & Hall)]; [now exists ""|].
  cbn [Py.lstrip_chars]. destruct (Py.mem_char c chars) eqn:Hc.
  - exists (String c before). split.
    + cbn [append]. now rewrite <- Hs.
    + cbn [list_ascii_of_string forallb]. now rewrite Hc.
  - now exists "".
Qed.

Lemma rstrip_chars_split chars s :
  exists after,
    s = Py.rstrip_chars chars s ++ after /\
    forallb (fun c => Py.mem_char c chars) (list_ascii_of_string after) = true.
Proof.
  induction s as [|c s (after & Hs & Hall)]; [now exists ""|].
  cbn [Py.rstrip_chars].
  destruct (Py.rstrip_chars chars s) as [|c' r].
  - cbn [append] in Hs. subst after.
    destruct (Py.mem_char c chars) eqn:Hc.
    + exists (String c s). split; [reflexivity|].
      cbn [list_ascii_of_string forallb]. now rewrite Hc.
    + now exists s.
  - exists after. split; [|exact Hall].
    cbn [append]. cbn [append] in Hs. now rewrite <- Hs.
Qed.

(** What is left starts and ends outside [chars]. *)
Lemma lstrip_chars_head chars s c t :
  Py.lstrip_chars chars s = String c t -> Py.mem_char c chars = false.
Proof.
  induction s as [|a s IH]; [discriminate|].
  cbn [Py.lstrip_chars]. destruct (Py.mem_char a chars) eqn:Ha; [exact IH|].
  now intros [= <- _].
Qed.

Lemma rstrip_chars_head chars a s c t :
  Py.rstrip_chars chars (String a s) = String c t -> c = a.
Proof.
  cbn [Py.rstrip_chars].
  destruct (Py.rstrip_chars chars s);
    [destruct (Py.mem_char a chars); [discriminate|]|]; now intros [= <- _].
Qed.

Lemma rstrip_chars_last chars s t c :
  Py.rstrip_chars chars s = t ++ String c "" -> Py.mem_char c chars = false.
Proof.
  revert t. induction s as [|a s IH]; intros t.
  - destruct t; discriminate.
  - cbn [Py.rstrip_chars].
    destruct (Py.rstrip_chars chars s) as [|b r].
    + destruct (Py.mem_char a chars) eqn:Ha.
      * destruct t; discriminate.
      * destruct t as [|a' [|? ?]]; cbn [append]; try discriminate.
        now intros [= <-].
    + destruct t as [|a' t]; cbn [append]; [discriminate|].
      intros [= _ H]. now apply (IH t).
Qed.

Lemma strip_chars_trimmed chars text c :
  (exists t, Py.strip_chars chars text = String c t) \/
  (exists t, Py.strip_chars chars text = t ++ String c "") ->
  Py.mem_char c chars = false.
Proof.
  unfold Py.strip_chars. intros [[t H]|[t H]].
  - destruct (Py.lstrip_chars chars text) as [|a s] eqn:Hl; [discriminate|].
    apply rstrip_chars_head in H as ->.
    now apply (lstrip_chars_head chars text a s).
  - now apply (rstrip_chars_last chars (Py.lstrip_chars chars text) t).
Qed.

Lemma whitespace_blanks s :
  forallb (fun c => Py.mem_char c Bs4.whitespace) (list_ascii_of_string s)
  = true ->
  unicode_blanks s.
Proof.
  unfold unicode_blanks.
  induction (list_ascii_of_string s) as [|c l IH]; [reflexivity|].
  cbn [forallb]. rewrite mem_whitespace.
  intros H. apply andb_true_iff in H as [-> H]. now apply IH.
Qed.

(** X10: the type yielded for a row is the text found two siblings
    before the marker with the blanks of a unicode text taken off its two
    ends and nothing else: what was taken off is blanks only, and the type
    neither starts nor ends with one. *)
Theorem type_is_trimmed (r : Bs4.located) (type_ : string) :
  row_type r = OK type_ ->
  exists sibling type_object cs tt_ cs' before after,
    Bs4.previous_sibling (Some r) = OK sibling /\
    Bs4.previous_sibling sibling = OK type_object /\
    Bs4.contents_of (option_map Bs4.element type_object) = OK cs /\
    getitem cs 1 = OK tt_ /\
    Bs4.contents_of (Some tt_) = OK cs' /\
    getitem cs' 0 = OK (Bs4.NavigableString (before ++ type_ ++ after)) /\
    unicode_blanks before /\ unicode_blanks after /\ trimmed type_.
Proof.
  unfold row_type.
  destruct (Bs4.previous_sibling (Some r)) as [sibling|] eqn:H1;
    cbn [and_then]; [|easy].
  destruct (Bs4.previous_sibling sibling) as [type_object|] eqn:H2;
    cbn [and_then]; [|easy].
  destruct (Bs4.contents_of (option_map Bs4.element type_object)) as [cs|]
    eqn:H3; cbn [and_then]; [|easy].
  destruct (getitem cs 1) as [tt_|] eqn:H4; cbn [and_then]; [|easy].
  destruct (Bs4.contents_of (Some tt_)) as [cs'|] eqn:H5;
    cbn [and_then]; [|easy].
  destruct (getitem cs' 0) as [first|] eqn:H6; cbn [and_then]; [|easy].
  destruct first as [text|name attrs contents]; cbn [Bs4.strip_of]; [|easy].
  intros [= <-].
  destruct (lstrip_chars_split Bs4.whitespace text) as (before & Hb & Hbb).
  destruct (rstrip_chars_split Bs4.whitespace
              (Py.lstrip_chars Bs4.whitespace text)) as (after & Ha & Haa).
  exists sibling, type_object, cs, tt_, cs', before, after.
  do 5 (split; [assumption || reflexivity|]).
  split; [|split; [|split]].
  - rewrite H6. do 2 f_equal. unfold Py.strip_chars. now rewrite <- Ha.
  - now apply whitespace_blanks.
  - now apply whitespace_blanks.
  - intros c Hc. rewrite <- mem_whitespace.
    now apply (strip_chars_trimmed Bs4.whitespace text).
Qed.

Lemma type_is_trimmed_witness :
  exists sibling type_object cs tt_ cs' before after,
    Bs4.previous_sibling (Some marker_without_bibcode) = OK sibling /\
    Bs4.previous_sibling sibling = OK type_object /\
    Bs4.contents_of (option_map Bs4.element type_object) = OK cs /\
    getitem cs 1 = OK tt_ /\
    Bs4.contents_of (Some tt_) = OK cs' /\
    getitem cs' 0 = OK (Bs4.NavigableString (before ++ "Y*O" ++ after)) /\
    unicode_blanks before /\ unicode_blanks after /\ trimmed "Y*O".
Proof.
  apply (type_is_trimmed marker_without_bibcode "Y*O"). reflexivity.
Defined.

(** Replacing a text that occurs puts the new text in. *)
Lemma replace_occurs old_head old_tail new s :
  Py.contains (String old_head old_tail) s = true ->
  exists before after,
    Py.replace (String old_head old_tail) new s = before ++ new ++ after.
Proof.
  unfold Py.replace.
  induction s as [|c s IH]; [discriminate|].
  cbn [Py.contains Py.replace_from].
  destruct (prefix (String old_head old_tail) (String c s)).
  - intros _. exists "". eexists. reflexivity.
  - cbn [orb]. intros H. destruct (IH H) as (before & after & ->).
    exists (String c before), after. reflexivity.
Qed.

(** X11: when the tooltip holds [Ref] and the row is yielded, the
    annotation holds, in curly braces, what follows the last [?bibcode=]
    of the first anchor's link. *)
Theorem annotation_holds_braced_code (r : Bs4.located) tooltip title :
  Bs4.get "title" (attrs_of (Bs4.element r)) = Some tooltip ->
  Py.contains "Ref" tooltip = true ->
  row_title r = OK title ->
  exists a others href before after,
    Bs4.find_all "a" (Bs4.element r) = a :: others /\
    Bs4.get "href" (attrs_of (Bs4.element a)) = Some href /\
    title = before ++ ("{" ++ bibcode_of_href href ++ "}") ++ after.
Proof.
  intros Htitle Href. unfold row_title. rewrite Htitle.
  pose proof (contains_Ref_comma_spaced tooltip) as Hc.
  rewrite <- comma_join_spaced, Href in Hc. rewrite Hc.
  destruct (Bs4.find_all "a" (Bs4.element r)) as [|a others];
    cbn [getitem nth_error and_then]; [easy|].
  destruct (Bs4.get "href" (attrs_of (Bs4.element a))) as [href|] eqn:Hh;
    [|easy].
  cbv zeta.
  destruct (replace_occurs "R" "ef" ("{" ++ bibcode_of_href href ++ "}")
              (comma_join tooltip) Hc) as (before & after & ->).
  intros [= <-].
  exists a, others, href, before, after.
  split; [reflexivity|]. split; [exact Hh|reflexivity].
Qed.

Lemma annotation_holds_braced_code_witness :
  exists a others href before after,
    Bs4.find_all "a" (Bs4.element linked_marker) = a :: others /\
    Bs4.get "href" (attrs_of (Bs4.element a)) = Some href /\
    "{2012ApJ...753L..35B}, HOPS"
    = before ++ ("{" ++ bibcode_of_href href ++ "}") ++ after.
Proof.
  apply (annotation_holds_braced_code linked_marker "Ref,HOPS"
           "{2012ApJ...753L..35B}, HOPS"); reflexivity.
Defined.

(** X12: an anchor without a link target makes the row raise: [get]
    returns [None], on which [split] is not defined. *)
Theorem anchor_without_href_raises (r a : Bs4.located) others tooltip :
  Bs4.get "title" (attrs_of (Bs4.element r)) = Some tooltip ->
  Py.contains "Ref" tooltip = true ->
  Bs4.find_all "a" (Bs4.element r) = a :: others ->
  Bs4.get "href" (attrs_of (Bs4.element a)) = None ->
  row_title r = Raise AttributeError /\
  exists e, object_type_row r = Raise e.
Proof.
  intros Htitle Href Ha Hhref.
  assert (Ht : row_title r = Raise AttributeError).
  { unfold row_title.
    rewrite Htitle, comma_join_spaced, contains_Ref_comma_spaced, Href, Ha.
    cbn [getitem nth_error and_then]. now rewrite Hhref. }
  split; [exact Ht|]. unfold object_type_row. rewrite Ht.
  destruct (row_type r); cbn [and_then]; eauto.
Qed.

Lemma anchor_without_href_raises_witness :
  row_title marker_without_href = Raise AttributeError /\
  exists e, object_type_row marker_without_href = Raise e.
Proof.
  apply (anchor_without_href_raises marker_without_href
           (Bs4.mkLocated []
              (Bs4.Tag "a" [("name", "ref")] [Bs4.NavigableString "Ref"]))
           [] "Ref,HOPS"); reflexivity.
Defined.

(* ================================================================== *)
(** * Further properties of the pattern and of generate_report *)

Lemma span_ref_run s run rest :
  Re.span_ref s = (run, rest) -> ref_chars run /\ s = run ++ rest.
Proof.
  unfold ref_chars. revert run rest.
  induction s as [|c s IH]; intros run rest; cbn [Re.span_ref].
  - intros [= <- <-]. split; reflexivity.
  - destruct (Re.ref_char c) eqn:Hc.
    + destruct (Re.span_ref s) as [run' rest'].
      intros [= <- <-]. destruct (IH _ _ eq_refl) as [Hrun ->].
      split; [|reflexivity].
      cbn [list_ascii_of_string forallb]. now rewrite Hc, Hrun.
    + intros [= <- <-]. split; reflexivity.
Qed.

Lemma match_ref_inv s m :
  Re.match_ref s = Some m ->
  exists code, m = "{" ++ code ++ "}" /\ code <> "" /\ ref_chars code.
Proof.
  unfold Re.match_ref.
  destruct s as [|c0 s1]; [discriminate|].
  destruct (Ascii.eqb c0 "{"); [|discriminate].
  destruct (Re.span_ref s1) as [run rest] eqn:Hspan.
  destruct run as [|c run]; [discriminate|].
  destruct rest as [|c1 rest]; [discriminate|].
  destruct (Ascii.eqb c1 "}"); [|discriminate].
  intros [= <-]. exists (String c run).
  split; [reflexivity|]. split; [easy|].
  now destruct (span_ref_run _ _ _ Hspan).
Qed.

Lemma scan_from_Match skip s m :
  In (Re.Match m) (Re.scan_from skip s) ->
  exists code, m = "{" ++ code ++ "}" /\ code <> "" /\ ref_chars code.
Proof.
  revert skip.
  induction s as [|c s IH]; intros skip; cbn [Re.scan_from]; [intros []|].
  destruct skip as [|k]; [|apply IH].
  destruct (Re.match_ref (String c s)) as [m'|] eqn:Hm.
  - intros [[= <-]|Hin]; [now apply (match_ref_inv _ _ Hm)|].
    eapply IH; exact Hin.
  - intros [Hin|Hin]; [discriminate|]. eapply IH; exact Hin.
Qed.

Lemma findall_ref_In s m :
  In m (Re.findall_ref s) <-> In (Re.Match m) (Re.scan s).
Proof.
  unfold Re.findall_ref. rewrite in_flat_map. split.
  - intros ([c|m'] & Hin & Hm); [destruct Hm|].
    destruct Hm as [<-|[]]. exact Hin.
  - intros Hin. exists (Re.Match m). split; [exact Hin|now left].
Qed.

(** X13: what the pattern finds is always a brace, a non-empty run of
    letters, digits, underscores and dots, and a brace; removing the
    braces gives the run.  [query_reference] is therefore never called
    for an annotation with an empty code or with a code that holds any
    other character. *)
Theorem matches_are_braced_codes s m :
  In m (Re.findall_ref s) ->
  exists code,
    m = "{" ++ code ++ "}" /\ code <> "" /\ ref_chars code /\
    Py.strip_chars "{}" m = code.
Proof.
  intros Hin. apply findall_ref_In in Hin.
  destruct (scan_from_Match _ _ _ Hin) as (code & -> & Hne & Hcode).
  exists code. repeat split; try assumption. now apply strip_braces.
Qed.

Lemma matches_are_braced_codes_witness :
  exists code,
    "{2012ApJ...753L..35B}" = "{" ++ code ++ "}" /\ code <> "" /\
    ref_chars code /\
    Py.strip_chars "{}" "{2012ApJ...753L..35B}" = code.
Proof.
  apply (matches_are_braced_codes
           "{2012ApJ...753L..35B}, HOPS, HOY, ISOY, [MGM2012]"
           "{2012ApJ...753L..35B}").
  vm_compute. left. reflexivity.
Defined.

Lemma string_le_trans a b c : string_le a b -> string_le b c -> string_le a c.
Proof.
  unfold string_le, String.leb. intros Hab Hbc.
  destruct (String.compare a b) eqn:Eab; [|clear Hab|discriminate].
  - apply String.compare_eq_iff in Eab. now subst.
  - destruct (String.compare b c) eqn:Ebc; [|clear Hbc|discriminate].
    + apply String.compare_eq_iff in Ebc. subst. now rewrite Eab.
    + apply OrderedTypeEx.String_as_OT.cmp_lt in Eab, Ebc.
      pose proof (OrderedTypeEx.String_as_OT.lt_trans _ _ _ Eab Ebc) as H.
      apply OrderedTypeEx.String_as_OT.cmp_lt in H.
      unfold OrderedTypeEx.String_as_OT.cmp in H. now rewrite H.
Qed.

Lemma sorted_lists_equal l1 l2 :
  StronglySorted string_le l1 -> StronglySorted string_le l2 ->
  Permutation l1 l2 -> l1 = l2.
Proof.
  revert l2.
  induction l1 as [|a l1 IH]; intros l2 H1 H2 Hperm.
  - now apply Permutation_nil in Hperm.
  - destruct l2 as [|b l2].
    + apply Permutation_sym, Permutation_nil in Hperm. discriminate.
    + inversion H1 as [|? ? Hs1 Ha]; subst.
      inversion H2 as [|? ? Hs2 Hb]; subst.
      assert (Hab : a = b).
      { assert (Hin : In a (b :: l2))
          by (eapply Permutation_in; [exact Hperm|now left]).
        assert (Hin' : In b (a :: l1))
          by (eapply Permutation_in;
              [apply Permutation_sym; exact Hperm|now left]).
        destruct Hin as [->|Hin]; [reflexivity|].
        destruct Hin' as [->|Hin']; [reflexivity|].
        rewrite Forall_forall in Ha, Hb.
        apply String.leb_antisym; [apply Ha, Hin'|apply Hb, Hin]. }
      subst b. f_equal. apply IH; try assumption.
      eapply Permutation_cons_inv; exact Hperm.
Qed.

(** X14: the order of the lines does not depend on the order in which
    the set hands them to [sorted]: two enumerations of the same lines
    give the same list. *)
Theorem sorted_order_independent l l' :
  Permutation l l' -> sorted l = sorted l'.
Proof.
  intros Hperm. apply sorted_lists_equal.
  - apply Sorted_StronglySorted; [exact string_le_trans|].
    apply references_sorted.
  - apply Sorted_StronglySorted; [exact string_le_trans|].
    apply references_sorted.
  - rewrite !sorted_Permutation. exact Hperm.
Qed.

Lemma sorted_order_independent_witness :
  sorted ["Reipurth99 u"; "Billot12 u"] = sorted ["Billot12 u"; "Reipurth99 u"].
Proof.
  apply (sorted_order_independent ["Reipurth99 u"; "Billot12 u"]
           ["Billot12 u"; "Reipurth99 u"]).
  apply perm_swap.
Defined.

Lemma append_empty_r (a : string) : a ++ "" = a.
Proof. induction a as [|x a IH]; simpl; congruence. Qed.

Section Report.

Variable query_bibcode : string -> result string.
Variable detail_page : string -> result Bs4.node.

Lemma resolutions_query_reference bibcode :
  resolutions (trace (query_reference query_bibcode bibcode)) = [bibcode].
Proof.
  unfold query_reference. run_binds.
  destruct (query_bibcode bibcode); reflexivity.
Qed.

(** The codes of the matches of a scan. *)
Lemma codes_of_scan s :
  codes_of s
  = flat_map (fun p => match p with
                       | Re.Match m => [Py.strip_chars "{}" m]
                       | Re.Lit _ => []
                       end) (Re.scan s).
Proof.
  unfold codes_of, Re.findall_ref.
  induction (Re.scan s) as [|[c|m] ps IH]; cbn [flat_map map app];
    [reflexivity|exact IH|now rewrite IH].
Qed.

Lemma sub_pieces_ok ps refs' :
  outcome (sub_pieces query_bibcode ps) = OK refs' ->
  resolutions (trace (sub_pieces query_bibcode ps))
  = flat_map (fun p => match p with
                       | Re.Match m => [Py.strip_chars "{}" m]
                       | Re.Lit _ => []
                       end) ps /\
  written (trace (sub_pieces query_bibcode ps)) = "" /\
  Forall (fun p => match p with
                   | Re.Match m =>
                       exists author,
                         outcome (query_reference query_bibcode
                                    (Py.strip_chars "{}" m)) = OK author
                   | Re.Lit _ => True
                   end) ps.
Proof.
  revert refs'.
  induction ps as [|[c|m] ps IH]; intros refs'; cbn [sub_pieces].
  - intros _. repeat split. constructor.
  - run_binds.
    destruct (outcome (sub_pieces query_bibcode ps)) as [rest|e];
      [|discriminate].
    intros _. destruct (IH rest eq_refl) as (Hres & Hw & Hall).
    rewrite app_nil_r. repeat split; [exact Hres|exact Hw|].
    now constructor.
  - unfold bibcode_replacement. run_binds.
    destruct (outcome (query_reference query_bibcode _)) as [author|e] eqn:Hq;
      [|discriminate].
    run_binds.
    destruct (outcome (sub_pieces query_bibcode ps)) as [rest|e];
      [|discriminate].
    intros _. destruct (IH rest eq_refl) as (Hres & Hw & Hall).
    rewrite app_nil_r, resolutions_app, written_app.
    rewrite resolutions_query_reference, written_query_reference, Hres, Hw.
    repeat split. constructor; [eauto|exact Hall].
Qed.

Lemma add_references_ok matches unique unique' :
  outcome (add_references query_bibcode matches unique) = OK unique' ->
  resolutions (trace (add_references query_bibcode matches unique))
  = map (Py.strip_chars "{}") matches.
Proof.
  revert unique.
  induction matches as [|r matches IH]; intros unique; cbn [add_references].
  - reflexivity.
  - run_binds.
    destruct (outcome (query_reference query_bibcode _)) as [author|e];
      [|discriminate].
    intros H.
    rewrite resolutions_app, resolutions_query_reference, (IH _ H).
    reflexivity.
Qed.

Lemma collect_references_ok l unique unique' :
  outcome (collect_references query_bibcode l unique) = OK unique' ->
  resolutions (trace (collect_references query_bibcode l unique))
  = codes_of_rows l.
Proof.
  revert unique.
  induction l as [|[type_ ref] l IH]; intros unique; cbn [collect_references].
  - reflexivity.
  - run_binds.
    destruct (outcome (add_references query_bibcode _ unique))
      as [unique1|e] eqn:Hadd; [|discriminate].
    intros H.
    rewrite resolutions_app, (add_references_ok _ _ _ Hadd), (IH _ H).
    reflexivity.
Qed.

(** When the lookups of the matches succeed, the collection succeeds. *)
Lemma add_references_total matches unique :
  Forall (fun m => exists author,
              outcome (query_reference query_bibcode (Py.strip_chars "{}" m))
              = OK author) matches ->
  exists unique',
    outcome (add_references query_bibcode matches unique) = OK unique'.
Proof.
  intros Hall. revert unique.
  induction Hall as [|m matches [author Hm] _ IH]; intros unique;
    cbn [add_references].
  - eexists. reflexivity.
  - run_binds. rewrite Hm. apply IH.
Qed.

Lemma lookups_of_matches s refs' :
  outcome (re_sub query_bibcode s) = OK refs' ->
  Forall (fun m => exists author,
              outcome (query_reference query_bibcode (Py.strip_chars "{}" m))
              = OK author) (Re.findall_ref s).
Proof.
  unfold re_sub, Re.findall_ref. intros H.
  destruct (sub_pieces_ok _ _ H) as (_ & _ & Hall). clear H.
  revert Hall. generalize (Re.scan s). intros ps Hall.
  induction Hall as [|[c|m] ps Hp _ IH]; cbn [flat_map app].
  - constructor.
  - exact IH.
  - constructor; [exact Hp|exact IH].
Qed.

Lemma collect_references_total references entries unique :
  substituted query_bibcode references entries ->
  exists unique',
    outcome (collect_references query_bibcode references unique) = OK unique'.
Proof.
  intros Hsub. revert unique.
  induction Hsub as [|[type_ ref] entry references entries [_ Hrow] _ IH];
    intros unique; cbn [collect_references].
  - eexists. reflexivity.
  - run_binds.
    destruct (add_references_total (Re.findall_ref ref) unique
                (lookups_of_matches _ _ Hrow)) as [unique1 H1].
    rewrite H1. apply IH.
Qed.

(** The "All types" loop, from any index on. *)
Lemma write_all_types_ok len index l entries :
  index + List.length l = len ->
  substituted query_bibcode l entries ->
  outcome (write_all_types query_bibcode len index l) = OK tt /\
  written (trace (write_all_types query_bibcode len index l))
  = all_types_text entries /\
  resolutions (trace (write_all_types query_bibcode len index l))
  = codes_of_rows l.
Proof.
  intros Hlen Hsub. revert index Hlen.
  induction Hsub as [|[type_ refs] [type' refs'] l entries [Ht Hrow] Hsub IH];
    intros index Hlen; cbn [write_all_types].
  - repeat split.
  - cbn [fst snd] in Ht, Hrow. subst type'.
    destruct (sub_pieces_ok _ _ Hrow) as (Hres & Hw & _).
    fold (re_sub query_bibcode refs) in Hres, Hw.
    cbn [List.length] in Hlen.
    destruct (IH (S index) ltac:(lia)) as (Hout & Hwr & Hrs).
    run_binds. rewrite Hrow. run_binds.
    assert (Hsep : outcome (if (index <? len - 1)%nat
                            then emit (EvWrite ", ")
                            else emit (EvWrite nl)) = OK tt)
      by (destruct (index <? len - 1)%nat; reflexivity).
    rewrite Hsep. run_binds. rewrite Hout.
    split; [reflexivity|].
    rewrite !resolutions_app, !written_app, Hw, Hres, Hwr, Hrs.
    split.
    + cbn [written app]. unfold all_types_text.
      destruct Hsub as [|row entry l' entries' _ Hsub'].
      * cbn [List.length] in Hlen.
        replace (index <? len - 1)%nat with false
          by (symmetry; apply Nat.ltb_ge; lia).
        cbn [trace emit fst snd written map Py.join concat].
        rewrite ?append_empty_r, ?append_assoc. reflexivity.
      * replace (index <? len - 1)%nat with true
          by (symmetry; apply Nat.ltb_lt; cbn [List.length] in Hlen; lia).
        cbn [trace emit fst written map].
        rewrite (join_cons ", " _ (_ :: _)) by easy. cbn [fst snd].
        rewrite ?append_empty_r, ?append_assoc. reflexivity.
    + unfold codes_of_rows at 2. cbn [flat_map snd].
      rewrite codes_of_scan.
      assert (Hnone : resolutions
                        (trace (if (index <? len - 1)%nat
                                then emit (EvWrite ", ")
                                else emit (EvWrite nl))) = [])
        by (destruct (index <? len - 1)%nat; reflexivity).
      rewrite Hnone. reflexivity.
Qed.

Lemma written_yield_rows rs : written (trace (yield_rows rs)) = "".
Proof.
  induction rs as [|r rs IH]; [reflexivity|].
  cbn [yield_rows]. run_binds.
  destruct (object_type_row r) as [row|e]; [|reflexivity].
  run_binds. rewrite !written_app, IH.
  destruct (outcome (yield_rows rs)); reflexivity.
Qed.

Lemma written_list_of g : written (trace (list_of detail_page g)) = "".
Proof.
  destruct g as [identifier]. unfold list_of. run_binds.
  destruct (detail_page identifier) as [soup|e]; [|reflexivity].
  run_binds.
  destruct (getitem (Bs4.find_all "table" soup) 3) as [table|e];
    [|reflexivity].
  run_binds. cbn [app written]. apply written_yield_rows.
Qed.

(** A report that is written to its end. *)
Lemma generate_report_ok fields author references entries :
  outcome (query_reference query_bibcode (reference fields)) = OK author ->
  outcome (list_of detail_page (all_types fields)) = OK references ->
  substituted query_bibcode references entries ->
  exists unique,
    outcome (collect_references query_bibcode references (empty_set string))
      = OK unique /\
    outcome (generate_report query_bibcode detail_page fields) = OK tt /\
    written (trace (generate_report query_bibcode detail_page fields))
    = report_text fields author entries (sorted unique) /\
    resolutions (trace (generate_report query_bibcode detail_page fields))
    = reference fields
        :: (codes_of_rows references ++ codes_of_rows references)%list.
Proof.
  intros Hq Hl Hsub.
  destruct (collect_references_total references entries (empty_set string) Hsub)
    as [unique Hu].
  exists unique. split; [exact Hu|].
  destruct (write_all_types_ok (List.length references) 0 references entries
              eq_refl Hsub) as (Hout & Hwr & Hrs).
  pose proof (primary_line_first query_bibcode (reference fields)
                references unique Hu) as Hrefs.
  assert (Hwrefs : outcome (write_references query_bibcode (reference fields)
                              references) = OK tt).
  { unfold write_references. run_binds. rewrite Hu. run_binds.
    clear. induction (sorted unique) as [|r l IH]; [reflexivity|].
    cbn [write_lines]. run_binds. exact IH. }
  assert (Hrrefs : resolutions
                     (trace (write_references query_bibcode (reference fields)
                               references)) = codes_of_rows references).
  { unfold write_references. run_binds. rewrite Hu. run_binds.
    cbn [app resolutions].
    rewrite resolutions_app, (collect_references_ok _ _ _ Hu).
    assert (Hn : forall l, resolutions (trace (write_lines l)) = []).
    { induction l as [|r l IH]; [reflexivity|].
      cbn [write_lines]. run_binds. exact IH. }
    rewrite Hn. apply app_nil_r. }
  unfold generate_report. run_binds. rewrite Hq. run_binds.
  rewrite Hl. run_binds. rewrite Hout. run_binds. rewrite Hwrefs.
  split; [reflexivity|].
  split.
  - rewrite !written_app, written_query_reference, written_list_of, Hwr, Hrefs.
    cbn [written]. unfold report_text.
    rewrite ?append_empty_r, ?append_assoc. reflexivity.
  - rewrite !resolutions_app, resolutions_query_reference,
      (resolutions_list_of detail_page), Hrs, Hrrefs.
    reflexivity.
Qed.

End Report.

Section ReportProperties.

Variable query_bibcode : string -> result string.
Variable detail_page : string -> result Bs4.node.

(** X15: when the lookup of the primary code succeeds, the generator
    runs to its end and every substitution succeeds, the report is
    written to its end and its text is, in this order: the identifier,
    the coordinates with the citation and the code of the primary
    reference, the distance, the type, the entries of "All types"
    separated by [", "] and ended by one newline, the spectral type, the
    link of the primary code and the collected lines in sorted order. *)
Theorem report_written_in_full fields author references entries :
  outcome (query_reference query_bibcode (reference fields)) = OK author ->
  outcome (list_of detail_page (all_types fields)) = OK references ->
  substituted query_bibcode references entries ->
  exists unique,
    outcome (collect_references query_bibcode references (empty_set string))
      = OK unique /\
    outcome (generate_report query_bibcode detail_page fields) = OK tt /\
    written (trace (generate_report query_bibcode detail_page fields))
    = report_text fields author entries (sorted unique).
Proof.
  intros Hq Hl Hsub.
  destruct (generate_report_ok query_bibcode detail_page fields author
              references entries Hq Hl Hsub) as (unique & Hu & Ho & Hw & _).
  exists unique. auto.
Qed.

(** X16: nothing is remembered between lookups.  In a report written to
    its end the primary code is looked up once, then every code found in
    the annotations once for "All types", then every one of them again
    for "References", each time in the order of the rows. *)
Theorem lookups_are_repeated fields author references entries :
  outcome (query_reference query_bibcode (reference fields)) = OK author ->
  outcome (list_of detail_page (all_types fields)) = OK references ->
  substituted query_bibcode references entries ->
  resolutions (trace (generate_report query_bibcode detail_page fields))
  = reference fields
      :: (codes_of_rows references ++ codes_of_rows references)%list.
Proof.
  intros Hq Hl Hsub.
  destruct (generate_report_ok query_bibcode detail_page fields author
              references entries Hq Hl Hsub) as (unique & _ & _ & _ & Hr).
  exact Hr.
Qed.

(** X17: with no classification row, nothing follows "All types: " on
    its line, not even the newline, which only the last entry writes:
    the blank line before "Spectral type" is missing. *)
Theorem report_without_rows fields author :
  outcome (query_reference query_bibcode (reference fields)) = OK author ->
  outcome (list_of detail_page (all_types fields)) = OK [] ->
  written (trace (generate_report query_bibcode detail_page fields))
  = ("Identifier: " ++ identifiers fields ++ nl) ++
    (nl ++ "Coordinates (ICRS): " ++ ra fields ++ " " ++ dec fields ++ " " ++
     author ++ " [" ++ reference fields ++ "]" ++ nl) ++
    (nl ++ "Distance to center (arcsec): " ++ distance fields ++ nl) ++
    (nl ++ "Type: " ++ type fields ++ nl) ++
    (nl ++ "All types: ") ++
    (nl ++ "Spectral type: " ++ spectral_type fields ++ nl) ++
    (nl ++ "References:" ++ nl) ++
    (reference fields ++ " " ++ url (reference fields) ++ nl).
Proof.
  intros Hq Hl.
  destruct (generate_report_ok query_bibcode detail_page fields author
              [] [] Hq Hl (Forall2_nil _)) as (unique & Hu & _ & Hw & _).
  injection Hu as <-. rewrite Hw. unfold report_text.
  cbn [all_types_text sorted fold_right empty_set lines_text].
  rewrite ?append_empty_r. reflexivity.
Qed.

(** X18: when the lookup of the primary code fails, the error leaves
    [generate_report] at once: the file holds the identifier line and
    nothing else, and the detail page has not been fetched. *)
Theorem primary_failure_leaves_one_line fields e :
  outcome (query_reference query_bibcode (reference fields)) = Raise e ->
  generate_report query_bibcode detail_page fields
  = ([EvWrite ("Identifier: " ++ identifiers fields ++ nl);
      EvGate QueryReference; EvBibQuery (reference fields)],
     Raise e).
Proof.
  intros Hq. unfold generate_report.
  pose proof (trace_query_reference query_bibcode (reference fields)) as Ht.
  destruct (query_reference query_bibcode (reference fields)) as [t r].
  cbn [trace outcome fst snd] in *. subst. reflexivity.
Qed.

Lemma collect_references_In l unique unique' line :
  outcome (collect_references query_bibcode l unique) = OK unique' ->
  (In line unique' <->
   In line unique \/
   exists row m author,
     In row l /\ In m (Re.findall_ref (snd row)) /\
     outcome (query_reference query_bibcode (Py.strip_chars "{}" m))
       = OK author /\
     line = author ++ " " ++ url (Py.strip_chars "{}" m)).
Proof.
  revert unique.
  induction l as [|[type_ ref] l IH]; intros unique; cbn [collect_references].
  - intros [= <-]. split; [auto|]. intros [H|(row & m & a & [] & _)]. exact H.
  - run_binds.
    destruct (outcome (add_references query_bibcode _ unique))
      as [unique1|e] eqn:Hadd; [|discriminate].
    intros H.
    rewrite (IH _ H), (add_references_In query_bibcode _ _ _ line Hadd).
    split.
    + intros [[Hin|(m & a & Hm & Ha & ->)]|(row & m & a & Hrow & Hm & Ha & ->)].
      * now left.
      * right. exists (type_, ref), m, a. cbn [snd In]. auto.
      * right. exists row, m, a. cbn [In]. auto.
    + intros [Hin|(row & m & a & [<-|Hrow] & Hm & Ha & ->)].
      * left. now left.
      * left. right. exists m, a. auto.
      * right. exists row, m, a. auto.
Qed.

(** X19: the References section is the link of the primary code, then
    one line per distinct rendering [citation link] of a match of the
    pattern in an annotation, each such rendering and no other line,
    without repetition and in ascending order of the characters. *)
Theorem references_section reference references unique :
  outcome (collect_references query_bibcode references (empty_set string))
    = OK unique ->
  written (trace (write_references query_bibcode reference references))
  = (nl ++ "References:" ++ nl)
    ++ (reference ++ " " ++ url reference ++ nl)
    ++ lines_text (sorted unique) /\
  Sorted string_le (sorted unique) /\
  NoDup (sorted unique) /\
  forall line,
    In line (sorted unique) <->
    exists row m author,
      In row references /\ In m (Re.findall_ref (snd row)) /\
      outcome (query_reference query_bibcode (Py.strip_chars "{}" m))
        = OK author /\
      line = author ++ " " ++ url (Py.strip_chars "{}" m).
Proof.
  intros Hu.
  split; [now apply primary_line_first|].
  split; [apply references_sorted|].
  split; [now apply (references_no_duplicates query_bibcode references)|].
  intros line.
  pose proof (collect_references_In references (empty_set string) unique
                line Hu) as Hin.
  split.
  - intros Hl.
    assert (Hu' : In line unique)
      by (eapply Permutation_in; [apply sorted_Permutation|exact Hl]).
    apply Hin in Hu'. destruct Hu' as [[]|H]. exact H.
  - intros H.
    eapply Permutation_in; [apply Permutation_sym, sorted_Permutation|].
    apply Hin. now right.
Qed.

End ReportProperties.

Lemma report_written_in_full_witness :
  exists unique,
    outcome (collect_references sample_query_bibcode
               [("Y*O", "{2012ApJ...753L..35B}, HOPS"); ("Rad", "[RRC99]")]
               (empty_set string)) = OK unique /\
    outcome (generate_report sample_query_bibcode
               (fun _ => OK (sample_page
                  (sample_row "Y*O" "Ref,HOPS"
                     [sample_anchor "sim-ref?bibcode=2012ApJ...753L..35B"]
                   ++ sample_row "Rad" "[RRC99]" [])%list))
               (sample_fields (Suspended "2MASS J05352762-0509337")))
      = OK tt /\
    written (trace (generate_report sample_query_bibcode
               (fun _ => OK (sample_page
                  (sample_row "Y*O" "Ref,HOPS"
                     [sample_anchor "sim-ref?bibcode=2012ApJ...753L..35B"]
                   ++ sample_row "Rad" "[RRC99]" [])%list))
               (sample_fields (Suspended "2MASS J05352762-0509337"))))
    = report_text (sample_fields (Suspended "2MASS J05352762-0509337"))
        "Reipurth99"
        [("Y*O", "Reipurth99, HOPS"); ("Rad", "[RRC99]")]
        (sorted unique).
Proof.
  apply (report_written_in_full sample_query_bibcode _
           (sample_fields (Suspended "2MASS J05352762-0509337"))
           "Reipurth99"
           [("Y*O", "{2012ApJ...753L..35B}, HOPS"); ("Rad", "[RRC99]")]
           [("Y*O", "Reipurth99, HOPS"); ("Rad", "[RRC99]")]).
  - vm_compute. reflexivity.
  - vm_compute. reflexivity.
  - repeat constructor; vm_compute; reflexivity.
Defined.

Lemma lookups_are_repeated_witness :
  resolutions
    (trace (generate_report sample_query_bibcode sample_detail_page
              (sample_fields (Suspended "2MASS J05352762-0509337"))))
  = ["2003yCat.2246....0C"; "2012ApJ...753L..35B"; "2012ApJ...753L..35B"].
Proof.
  apply (lookups_are_repeated sample_query_bibcode sample_detail_page
           (sample_fields (Suspended "2MASS J05352762-0509337"))
           "Reipurth99"
           [("Y*O", "{2012ApJ...753L..35B}, HOPS, HOY, ISOY, [MGM2012]");
            ("Rad", "[LSK98], [RRC99]")]
           [("Y*O", "Reipurth99, HOPS, HOY, ISOY, [MGM2012]");
            ("Rad", "[LSK98], [RRC99]")]).
  - vm_compute. reflexivity.
  - vm_compute. reflexivity.
  - repeat constructor; vm_compute; reflexivity.
Defined.

Lemma report_without_rows_witness :
  written (trace (generate_report sample_query_bibcode
                    (fun _ => OK page_without_rows)
                    (sample_fields (Suspended "[RRC99] VLA 7"))))
  = ("Identifier: 2MASS J05352762-0509337" ++ nl) ++
    (nl ++ "Coordinates (ICRS): 05 35 27.6337 -05 09 34.373 Reipurth99 "
        ++ "[2003yCat.2246....0C]" ++ nl) ++
    (nl ++ "Distance to center (arcsec): 0.0" ++ nl) ++
    (nl ++ "Type: Young Stellar Object" ++ nl) ++
    (nl ++ "All types: ") ++
    (nl ++ "Spectral type: " ++ nl) ++
    (nl ++ "References:" ++ nl) ++
    ("2003yCat.2246....0C " ++ url "2003yCat.2246....0C" ++ nl).
Proof.
  apply (report_without_rows sample_query_bibcode
           (fun _ => OK page_without_rows)
           (sample_fields (Suspended "[RRC99] VLA 7")) "Reipurth99");
    vm_compute; reflexivity.
Defined.

Lemma primary_failure_leaves_one_line_witness :
  generate_report (fun _ => Raise RemoteError) sample_detail_page
    (sample_fields (Suspended "[RRC99] VLA 7"))
  = ([EvWrite ("Identifier: 2MASS J05352762-0509337" ++ nl);
      EvGate QueryReference; EvBibQuery "2003yCat.2246....0C"],
     Raise RemoteError).
Proof.
  apply (primary_failure_leaves_one_line (fun _ => Raise RemoteError)
           sample_detail_page (sample_fields (Suspended "[RRC99] VLA 7"))
           RemoteError).
  reflexivity.
Defined.

Lemma references_section_witness :
  written (trace (write_references sample_query_bibcode "2003yCat.2246....0C"
                    [("Y*O", "{2012ApJ...753L..35B}");
                     ("FIR", "{2012ApJ...753L..35B}")]))
  = (nl ++ "References:" ++ nl)
    ++ ("2003yCat.2246....0C " ++ url "2003yCat.2246....0C" ++ nl)
    ++ lines_text (sorted ["Reipurth99 " ++ url "2012ApJ...753L..35B"]).
Proof.
  apply (references_section sample_query_bibcode "2003yCat.2246....0C"
           [("Y*O", "{2012ApJ...753L..35B}");
            ("FIR", "{2012ApJ...753L..35B}")]
           ["Reipurth99 " ++ url "2012ApJ...753L..35B"]).
  vm_compute. reflexivity.
Defined.

(* ================================================================== *)
(** * The main loop: proofs *)

Section MainProperties.

Variable parse_coordinates : string -> result SkyCoord.
Variable query_region : SkyCoord -> result RegionRow.
Variable query_bibcode : string -> result string.
Variable detail_page : string -> result Bs4.node.

Let loop := main_loop parse_coordinates query_region query_bibcode detail_page.
Let object :=
  process_line parse_coordinates query_region query_bibcode detail_page.

(** X20: an empty line, a line of blanks and a line that starts with [#]
    after stripping leave no trace: the run is the one of the file
    without that line, with the same numbers, names and outcome. *)
Theorem ignored_line_leaves_no_trace index before line after :
  ignored (Py.strip line) = true ->
  loop index (before ++ line :: after)%list
  = loop index (before ++ after)%list.
Proof.
  intros Hign. revert index.
  induction before as [|l before IH]; intros index.
  - cbn [app]. unfold loop. cbn [main_loop]. now rewrite Hign.
  - cbn [app]. unfold loop in *. cbn [main_loop].
    destruct (ignored (Py.strip l)); [apply IH|].
    destruct (process_line _ _ _ _ index (Py.strip l)) as [t [u|e]];
      [|reflexivity].
    now rewrite IH.
Qed.

(** X21: an object that raises ends the run, wherever it stands in the
    file: the exception leaves the loop, the lines after it are not read
    and no file is opened for them.  The counter the object gets is the
    start value plus the number of lines worked on before it. *)
Theorem failure_ends_the_run index before line after e :
  ignored (Py.strip line) = false ->
  snd (object (index + List.length (kept_lines before)) (Py.strip line))
    = Raise e ->
  loop index (before ++ line :: after)%list
  = loop index (before ++ [line])%list.
Proof.
  intros Hkept. revert index.
  induction before as [|l before IH]; intros index Hfail.
  - cbn [kept_lines map filter List.length] in Hfail.
    rewrite Nat.add_0_r in Hfail.
    cbn [app]. unfold loop, object in *. cbn [main_loop]. rewrite Hkept.
    destruct (process_line _ _ _ _ index (Py.strip line)) as [t [u|e']];
      [discriminate|reflexivity].
  - cbn [app]. unfold loop, object, kept_lines in *. cbn [main_loop].
    cbn [map filter] in Hfail.
    destruct (ignored (Py.strip l)); cbn [negb] in Hfail.
    + now apply IH.
    + destruct (process_line _ _ _ _ index (Py.strip l)) as [t [u|e']];
        [|reflexivity].
      rewrite (IH (S index)); [reflexivity|].
      cbn [List.length] in Hfail. now rewrite Nat.add_succ_r in Hfail.
Qed.

Lemma printed_app t1 t2 : printed (t1 ++ t2)%list = printed t1 ++ printed t2.
Proof.
  induction t1 as [|e t1 IH]; [reflexivity|].
  destruct e; cbn [app printed]; rewrite ?IH, ?append_assoc; reflexivity.
Qed.

Lemma opened_app t1 t2 : opened (t1 ++ t2)%list = (opened t1 ++ opened t2)%list.
Proof.
  induction t1 as [|e t1 IH]; [reflexivity|].
  destruct e; cbn [app opened]; rewrite ?IH; reflexivity.
Qed.

Lemma printed_steps t : printed (map Step t) = "".
Proof. induction t as [|e t IH]; [reflexivity|exact IH]. Qed.

Lemma opened_steps t : opened (map Step t) = [].
Proof. induction t as [|e t IH]; [reflexivity|exact IH]. Qed.

(** An object that is written to its end. *)
Lemma process_line_ok index line :
  snd (object index line) = OK tt ->
  printed (fst (object index line))
  = ("[" ++ str_of_nat (Z.of_nat index) ++ "] " ++ line ++ "...")
    ++ (" saved to " ++ filename_of parse_coordinates line ++ nl) /\
  opened (fst (object index line)) = [filename_of parse_coordinates line].
Proof.
  unfold object, process_line, filename_of.
  destruct (parse_coordinates line) as [coords|e]; [|discriminate].
  destruct (query_region coords) as [row|e]; [|discriminate].
  destruct (query_coordinates row) as [t1 [fields|e]]; [|discriminate].
  cbv zeta.
  destruct (generate_report query_bibcode detail_page fields) as [t2 [[]|e]];
    [|discriminate].
  intros _. cbn [fst snd].
  change (Region coords :: map Step t1)
    with ([Region coords] ++ map Step t1)%list.
  rewrite !printed_app, !opened_app, !printed_steps, !opened_steps.
  cbn [printed opened app].
  rewrite ?append_empty_r, ?append_assoc. split; reflexivity.
Qed.

(** X22: a run that ends without an exception has opened one file per
    line that is not ignored, named after the coordinates of that line,
    in the order of the lines, and has printed for each the counter, the
    stripped line and the name; the counter starts at 1 and advances by
    one per such line, ignored lines not counted. *)
Theorem run_numbers_kept_lines lines :
  snd (main parse_coordinates query_region query_bibcode detail_page lines)
    = OK tt ->
  printed (fst (main parse_coordinates query_region query_bibcode detail_page
                  lines))
  = progress_text parse_coordinates 1 (kept_lines lines) /\
  opened (fst (main parse_coordinates query_region query_bibcode detail_page
                 lines))
  = map (filename_of parse_coordinates) (kept_lines lines).
Proof.
  unfold main. fold loop. generalize 1.
  induction lines as [|line lines IH]; intros index.
  - intros _. split; reflexivity.
  - unfold loop in *. cbn [main_loop]. unfold kept_lines in *.
    cbn [map filter].
    destruct (ignored (Py.strip line)) eqn:Hign; cbn [negb]; [apply IH|].
    pose proof (process_line_ok index (Py.strip line)) as Hobj.
    unfold object in Hobj.
    destruct (process_line _ _ _ _ index (Py.strip line)) as [t [[]|e]];
      [|discriminate].
    specialize (IH (S index)).
    destruct (main_loop _ _ _ _ (S index) lines) as [t' r].
    cbn [fst snd] in *. intros Hr.
    destruct (Hobj eq_refl) as [Hp Ho].
    destruct (IH Hr) as [Hp' Ho'].
    rewrite printed_app, opened_app, Hp, Ho, Hp', Ho'.
    cbn [progress_text map app]. rewrite ?append_assoc. split; reflexivity.
Qed.

End MainProperties.

Lemma ignored_line_leaves_no_trace_witness :
  main_loop sample_parse_coordinates sample_query_region
    sample_query_bibcode sample_detail_page 1
    ["05 35 24.550 -05 06 59.00" ++ nl; "  # HOPS 370" ++ nl;
     "21 39 00.0 +57 29 24" ++ nl]
  = main_loop sample_parse_coordinates sample_query_region
      sample_query_bibcode sample_detail_page 1
      ["05 35 24.550 -05 06 59.00" ++ nl; "21 39 00.0 +57 29 24" ++ nl].
Proof.
  apply (ignored_line_leaves_no_trace sample_parse_coordinates
           sample_query_region sample_query_bibcode sample_detail_page 1
           ["05 35 24.550 -05 06 59.00" ++ nl] ("  # HOPS 370" ++ nl)
           ["21 39 00.0 +57 29 24" ++ nl]).
  vm_compute. reflexivity.
Defined.

Lemma failure_ends_the_run_witness :
  main_loop sample_parse_coordinates sample_query_region
    sample_query_bibcode sample_detail_page 1
    ["05 35 24.550 -05 06 59.00" ++ nl; "not a coordinate" ++ nl;
     "21 39 00.0 +57 29 24" ++ nl]
  = main_loop sample_parse_coordinates sample_query_region
      sample_query_bibcode sample_detail_page 1
      ["05 35 24.550 -05 06 59.00" ++ nl; "not a coordinate" ++ nl].
Proof.
  apply (failure_ends_the_run sample_parse_coordinates sample_query_region
           sample_query_bibcode sample_detail_page 1
           ["05 35 24.550 -05 06 59.00" ++ nl]
           ("not a coordinate" ++ nl) ["21 39 00.0 +57 29 24" ++ nl]
           RemoteError); vm_compute; reflexivity.
Defined.

Lemma run_numbers_kept_lines_witness :
  printed (fst (main sample_parse_coordinates sample_query_region
                  sample_query_bibcode sample_detail_page
                  ["# objects" ++ nl; "05 35 24.550 -05 06 59.00" ++ nl;
                   nl; "21 39 00.0 +57 29 24" ++ nl]))
  = ("[1] 05 35 24.550 -05 06 59.00... saved to J053524.550-050659.000.txt"
       ++ nl)
    ++ ("[2] 21 39 00.0 +57 29 24... saved to J213900.000+572924.000.txt"
          ++ nl) /\
  opened (fst (main sample_parse_coordinates sample_query_region
                 sample_query_bibcode sample_detail_page
                 ["# objects" ++ nl; "05 35 24.550 -05 06 59.00" ++ nl;
                  nl; "21 39 00.0 +57 29 24" ++ nl]))
  = ["J053524.550-050659.000.txt"; "J213900.000+572924.000.txt"].
Proof.
  apply (run_numbers_kept_lines sample_parse_coordinates sample_query_region
           sample_query_bibcode sample_detail_page
           ["# objects" ++ nl; "05 35 24.550 -05 06 59.00" ++ nl;
            nl; "21 39 00.0 +57 29 24" ++ nl]).
  vm_compute. reflexivity.
Defined.

(* ================================================================== *)
(** * Partial reports and the substitution at work *)

(** X25: when the generator raises -- the page cannot be fetched, has
    fewer than four tables, or a row cannot be read -- the exception
    leaves [generate_report] with the file holding its first four
    entries: identifier, coordinates, distance and type.  "All types" is
    not written. *)
Theorem extraction_failure_leaves_four_entries
    (query_bibcode : string -> result string)
    (detail_page : string -> result Bs4.node) fields author e :
  outcome (query_reference query_bibcode (reference fields)) = OK author ->
  outcome (list_of detail_page (all_types fields)) = Raise e ->
  outcome (generate_report query_bibcode detail_page fields) = Raise e /\
  written (trace (generate_report query_bibcode detail_page fields))
  = ("Identifier: " ++ identifiers fields ++ nl) ++
    (nl ++ "Coordinates (ICRS): " ++ ra fields ++ " " ++ dec fields ++ " " ++
     author ++ " [" ++ reference fields ++ "]" ++ nl) ++
    (nl ++ "Distance to center (arcsec): " ++ distance fields ++ nl) ++
    (nl ++ "Type: " ++ type fields ++ nl).
Proof.
  intros Hq Hl. unfold generate_report. run_binds. rewrite Hq. run_binds.
  rewrite Hl. split; [reflexivity|].
  rewrite !written_app, written_query_reference, written_list_of.
  cbn [written]. rewrite ?append_empty_r, ?append_assoc. reflexivity.
Qed.

Lemma extraction_failure_leaves_four_entries_witness :
  outcome (generate_report sample_query_bibcode
             (fun _ => OK page_with_one_table)
             (sample_fields (Suspended "[RRC99] VLA 7")))
    = Raise IndexError /\
  written (trace (generate_report sample_query_bibcode
                    (fun _ => OK page_with_one_table)
                    (sample_fields (Suspended "[RRC99] VLA 7"))))
  = ("Identifier: 2MASS J05352762-0509337" ++ nl) ++
    (nl ++ "Coordinates (ICRS): 05 35 27.6337 -05 09 34.373 Reipurth99 "
        ++ "[2003yCat.2246....0C]" ++ nl) ++
    (nl ++ "Distance to center (arcsec): 0.0" ++ nl) ++
    (nl ++ "Type: Young Stellar Object" ++ nl).
Proof.
  apply (extraction_failure_leaves_four_entries sample_query_bibcode
           (fun _ => OK page_with_one_table)
           (sample_fields (Suspended "[RRC99] VLA 7")) "Reipurth99"
           IndexError); vm_compute; reflexivity.
Defined.

Lemma re_sub_code_witness :
  re_sub sample_query_bibcode ("{" ++ "2012ApJ...753L..35B" ++ "}" ++ ", HOPS")
  = (r <- query_reference sample_query_bibcode "2012ApJ...753L..35B" ;;
     rest' <- re_sub sample_query_bibcode ", HOPS" ;;
     ret (r ++ rest')).
Proof.
  apply (re_sub_code sample_query_bibcode "2012ApJ...753L..35B" ", HOPS").
  - discriminate.
  - vm_compute. reflexivity.
Defined.

Lemma re_sub_without_brace_witness :
  re_sub sample_query_bibcode "[LSK98], [RRC99]" = ret "[LSK98], [RRC99]".
Proof.
  apply (re_sub_without_brace sample_query_bibcode "[LSK98], [RRC99]").
  vm_compute. reflexivity.
Defined.
